(** * CR4TTTIconScript: the icon/sprite generator [script.py]

    A shallow embedding of [script.py] and the properties of its
    specification, checked against it.

    The script is a linear batch job over three outside collaborators:
    Pillow (image objects), [pathlib] and the file system, and one
    external converter process.  This file models

    - Python [str] as a list of Unicode code points;
    - [pathlib] paths by their [parts];
    - Pillow images as a width, a height and a pixel function, with the
      integer arithmetic of [Image.paste] and of the size computation of
      [Image.thumbnail] written out, and the two floating-point filters
      (Lanczos resampling, Gaussian blur) left as parameters of the
      development: every theorem holds for every choice of them;
    - the outside world as a record holding the file system, the
      behaviour of the converter process and a trace of every call the
      script makes to the outside;
    - Python's control flow as a state-and-exception monad over that
      world. *)

From Stdlib Require Import ZArith NArith QArith Qround Qabs List Lia Bool.
From stdpp Require Import gmap list strings pretty.

Open Scope Z_scope.

(** ** Python strings *)

(** A Python [str] is a sequence of code points. *)
Abbreviation pystr := (list N).

(** A literal of the source, given by its ASCII text. *)
Definition lit (s : string) : pystr :=
  map Ascii.N_of_ascii (String.list_ascii_of_string s).
Global Arguments lit : simpl never.

(** [sep.join(lines)]. *)
Fixpoint join (sep : pystr) (lines : list pystr) : pystr :=
  match lines with
  | [] => []
  | [l] => l
  | l :: rest => l ++ sep ++ join sep rest
  end.


(** ** Pillow *)

Module Pillow.

Record RGBA := mkRGBA { red : Z; green : Z; blue : Z; alpha : Z }.

(** An image in mode RGBA.  Only the pixels with [0 <= x < width] and
    [0 <= y < height] are meaningful. *)
Record Image := mkImage {
  width : Z;
  height : Z;
  getpixel : Z -> Z -> RGBA
}.

(** A single band (mode L), as [Image.split] returns it. *)
Record Band := mkBand {
  band_width : Z;
  band_height : Z;
  band_getpixel : Z -> Z -> Z
}.

(** The image [Image.new("RGBA", (w, h), color)] allocates. *)
Definition filled (w h : Z) (color : RGBA) : Image :=
  mkImage w h (fun _ _ => color).

(** [Image.new] refuses a negative size with a [ValueError]. *)
Definition Image_new (w h : Z) (color : RGBA) : option Image :=
  if (w <? 0) || (h <? 0) then None else Some (filled w h color).

(** [im.split()[-1]]: the alpha band. *)
Definition split_alpha (im : Image) : Band :=
  mkBand (width im) (height im) (fun x y => alpha (getpixel im x y)).

(** [im.putalpha(band)], for a band of the size of [im] (Pillow raises
    [ValueError] on another size; the script only passes the band of
    an image of the same size). *)
Definition putalpha (im : Image) (a : Band) : Image :=
  mkImage (width im) (height im)
    (fun x y =>
       let p := getpixel im x y in
       mkRGBA (red p) (green p) (blue p) (band_getpixel a x y)).

(** *** [Image.paste] with an RGBA mask

    [libImaging/Paste.c], [paste_mask_RGBA]: every band of every
    pixel of the pasted region becomes
    [BLEND(mask alpha, out, in)]; the region is clipped to the
    destination. *)
Definition DIV255 (a : Z) : Z :=
  let tmp := a + 128 in Z.shiftr (Z.shiftr tmp 8 + tmp) 8.

Definition BLEND (mask in1 in2 : Z) : Z :=
  DIV255 (in1 * (255 - mask) + in2 * mask).

Definition blend_pixel (mask : Z) (out inp : RGBA) : RGBA :=
  mkRGBA (BLEND mask (red out) (red inp))
         (BLEND mask (green out) (green inp))
         (BLEND mask (blue out) (blue inp))
         (BLEND mask (alpha out) (alpha inp)).

(** Is the destination pixel [(i, j)] covered by an image of the size
    of [im] whose upper left corner is put at [(x, y)]? *)
Definition covers (im : Image) (x y i j : Z) : bool :=
  (x <=? i) && (i <? x + width im) && (y <=? j) && (j <? y + height im).

(** [base.paste(im, (x, y), mask)], for a mask of the size of [im]. *)
Definition paste (base im : Image) (box : Z * Z) (mask : Image) : Image :=
  let (x, y) := box in
  mkImage (width base) (height base)
    (fun i j =>
       if covers im x y i j
       then blend_pixel (alpha (getpixel mask (i - x) (j - y)))
                        (getpixel base i j)
                        (getpixel im (i - x) (j - y))
       else getpixel base i j).

(** *** The size [Image.thumbnail] resizes to

    [preserve_aspect_ratio] of [Image.thumbnail] (Pillow 7 and later),
    with exact rationals where Pillow computes in floating point; the
    height of the image and of the box are positive wherever the script
    calls it, so no division by zero arises.  [None] is Python's
    [None]: the image already fits and is left alone.

    Where the floor and the ceiling are equally near in exact
    arithmetic, Pillow's choice follows the rounding of its doubles and
    can be the ceiling; the model keeps the floor there, so that on
    such a source the modelled size can be one pixel less than
    Pillow's in the direction that is rounded.  What is proved below of
    the fitted size (its bounds, its longer side, its aspect ratio)
    holds for either choice. *)
Definition round_aspect (number : Q) (key : Z -> Q) : Z :=
  let lo := Qfloor number in
  let hi := Qceiling number in
  Z.max (if Qle_bool (key lo) (key hi) then lo else hi) 1.

Definition preserve_aspect_ratio (im : Image) (x y : Z) : option (Z * Z) :=
  if (x >=? width im) && (y >=? height im) then None
  else
    let aspect := (inject_Z (width im) / inject_Z (height im))%Q in
    if Qle_bool aspect (inject_Z x / inject_Z y)
    then Some (round_aspect (inject_Z y * aspect)
                 (fun n => Qabs (aspect - inject_Z n / inject_Z y)), y)
    else Some (x, round_aspect (inject_Z x / aspect)
                 (fun n => if n =? 0 then 0%Q
                           else Qabs (aspect - inject_Z x / inject_Z n))).

(** A resampling filter gives the pixels of the image resized to
    [w] by [h]; a convolution filter gives the pixels of the filtered
    image.  Both are floating-point convolutions in Pillow and are
    kept abstract. *)
Definition Resampling := Image -> Z -> Z -> Z -> Z -> RGBA.
Definition Filter := Image -> Z -> Z -> RGBA.

(** [im.resize((w, h), resample)]. *)
Definition resize (im : Image) (w h : Z) (resample : Resampling) : Image :=
  mkImage w h (resample im w h).

(** [im.thumbnail((x, y), resample)]; Pillow updates the image in
    place, the model returns the updated image. *)
Definition thumbnail (im : Image) (size : Z * Z) (resample : Resampling)
  : Image :=
  let (x, y) := size in
  match preserve_aspect_ratio im x y with
  | None => im
  | Some (fx, fy) =>
      if (width im =? fx) && (height im =? fy) then im
      else resize im fx fy resample
  end.

(** [im.filter(kernel)]: a new image of the same size. *)
Definition Image_filter (im : Image) (kernel : Filter) : Image :=
  mkImage (width im) (height im) (kernel im).

End Pillow.
Import Pillow.

(** ** pathlib *)

Module pathlib.

(** A path is the tuple of its [parts]: an absolute path starts with
    the part ["/"].  (POSIX flavour; the two-slash anchor of POSIX
    and symbolic links are not modelled.) *)
Abbreviation Path := (list pystr).

Definition slash : N := 47%N.

(** [s.split("/")]. *)
Fixpoint split (s : pystr) : list pystr :=
  match s with
  | [] => [[]]
  | c :: s' =>
      if N.eqb c slash then [] :: split s'
      else match split s' with
           | [] => [[c]]
           | w :: ws => (c :: w) :: ws
           end
  end.

(** Empty components and ["."] are dropped when a path is parsed. *)
Definition is_name (part : pystr) : bool :=
  negb (bool_decide (part = []) || bool_decide (part = lit ".")).

(** [Path(s)]. *)
Definition Path_of (s : pystr) : Path :=
  let names := List.filter is_name (split s) in
  match s with
  | c :: _ => if N.eqb c slash then lit "/" :: names else names
  | [] => names
  end.

Definition is_absolute (p : Path) : bool :=
  match p with
  | a :: _ => bool_decide (a = lit "/")
  | [] => false
  end.

(** [p / s]: an absolute right operand replaces the left one. *)
Definition joinpath (p : Path) (s : pystr) : Path :=
  let q := Path_of s in
  if is_absolute q then q else p ++ q.

(** [p.name]: the final component, empty for the root and for the
    empty path. *)
Definition Path_name (p : Path) : pystr :=
  let n := List.last p [] in
  if bool_decide (n = lit "/") then [] else n.

(** [str(p)]. *)
Definition Path_str (p : Path) : pystr :=
  match p with
  | [] => lit "."
  | a :: rest =>
      if bool_decide (a = lit "/") then lit "/" ++ join (lit "/") rest
      else join (lit "/") p
  end.


End pathlib.
Import pathlib.

Infix "</>" := joinpath (at level 40, left associativity).
Global Arguments joinpath : simpl never.
Global Arguments Path_of : simpl never.
Global Arguments Path_str : simpl never.
Global Arguments Path_name : simpl never.

(** ** The outside world *)

(** What a path of the file system holds.  A path is looked up as it
    is written: links, [..] and case folding are not modelled.  The
    parent of a path is not looked at: writing a file fails only when
    the path itself is a directory, creating a directory only when the
    path itself is a regular file. *)
Inductive File :=
| FImage (im : Image)   (* an image file, by its pixels in mode RGBA *)
| FText (s : pystr)     (* a text file *)
| FOther                (* any other regular file *)
| FDir.                 (* a directory *)

(** What starting a process gives: it runs and exits with a code, or it
    cannot be started ([subprocess.run] raises an [OSError]: the file
    is not executable, is a directory, ...).  What the converter writes
    is outside the model: its launch is recorded in the trace. *)
Inductive Outcome :=
| Exited (returncode : Z)
| NotStarted.

(** The calls the script makes to the outside, each recorded when it is
    made, whether or not it succeeds. *)
Inductive Event :=
| EvMkdir (p : Path)
| EvExists (p : Path)
| EvOpen (p : Path)
| EvSave (p : Path) (im : Image)
| EvWriteText (p : Path) (s : pystr)
| EvPrint (s : pystr)
| EvRun (argv : list pystr).

Record World := mkWorld {
  fs : gmap Path File;
  subprocess : list pystr -> Outcome;
  trace : list Event
}.

(** ** Exceptions and the monad of the script *)

Inductive Exn :=
| FileNotFoundError (p : Path)
| IsADirectoryError (p : Path)
| UnidentifiedImageError (p : Path)
| FileExistsError (p : Path)
| ValueError
| CalledProcessError (returncode : Z)
| OSError (argv : list pystr)
| SystemExit (msg : pystr).

Inductive Res (A : Type) :=
| Ok (a : A)
| Raise (e : Exn).
Arguments Ok {A} a.
Arguments Raise {A} e.

(** A computation runs in a world and returns or raises; the effects it
    had before raising stay. *)
Definition M (A : Type) : Type := World -> Res A * World.

Definition ret {A} (a : A) : M A := fun w => (Ok a, w).

Definition bind {A B} (c : M A) (k : A -> M B) : M B :=
  fun w =>
    match c w with
    | (Ok a, w') => k a w'
    | (Raise e, w') => (Raise e, w')
    end.

Definition raise {A} (e : Exn) : M A := fun w => (Raise e, w).

Declare Scope py_scope.
Delimit Scope py_scope with py.
Notation "x <- c ;; k" := (bind c (fun x => k))
  (at level 100, c at next level, right associativity) : py_scope.
Notation "c ;;; k" := (bind c (fun _ => k))
  (at level 100, right associativity) : py_scope.
Open Scope py_scope.

(** [try: body except CalledProcessError as e: handler(e.returncode)]. *)
Definition try_except_CalledProcessError {A}
  (body : M A) (handler : Z -> M A) : M A :=
  fun w =>
    match body w with
    | (Raise (CalledProcessError rc), w') => handler rc w'
    | r => r
    end.

(** [for x in xs: body(x)]. *)
Fixpoint for_each {A} (xs : list A) (body : A -> M unit) : M unit :=
  match xs with
  | [] => ret tt
  | x :: rest => body x ;;; for_each rest body
  end.

(** The world after one more recorded call, after a path got new
    contents, and after several more recorded calls. *)
Definition record_event (ev : Event) (w : World) : World :=
  mkWorld (fs w) (subprocess w) (trace w ++ [ev]).

Definition put (p : Path) (f : File) (w : World) : World :=
  mkWorld (<[p := f]> (fs w)) (subprocess w) (trace w).

Definition add_events (evs : list Event) (w : World) : World :=
  mkWorld (fs w) (subprocess w) (trace w ++ evs).

Definition log (ev : Event) : M unit :=
  fun w => (Ok tt, record_event ev w).

Definition store (p : Path) (f : File) : M unit :=
  fun w => (Ok tt, put p f w).

Definition stat (p : Path) : M (option File) :=
  fun w => (Ok (fs w !! p), w).

(** An image file decodes when its dimensions are positive. *)
Definition decodes (im : Image) : bool :=
  (1 <=? width im) && (1 <=? height im).

(** [Image.open(p).convert("RGBA")].  The failures modelled are the
    missing file, the directory and the file that is no image; a
    truncated image file and a file that may not be read are outside
    the model. *)
Definition Image_open (p : Path) : M Image :=
  log (EvOpen p) ;;;
  f <- stat p ;;
  match f with
  | Some (FImage im) =>
      if decodes im then ret im else raise (UnidentifiedImageError p)
  | Some FDir => raise (IsADirectoryError p)
  | Some _ => raise (UnidentifiedImageError p)
  | None => raise (FileNotFoundError p)
  end.

(** [Image.new("RGBA", (w, h), color)]. *)
Definition Image_new_ (w h : Z) (color : RGBA) : M Image :=
  match Image_new w h color with
  | Some im => ret im
  | None => raise ValueError
  end.

(** [p.exists()]. *)
Definition Path_exists (p : Path) : M bool :=
  log (EvExists p) ;;;
  f <- stat p ;;
  ret (bool_decide (is_Some f)).

(** [p.mkdir(parents=True, exist_ok=True)], as far as the path itself
    goes: fails when the path is a regular file.  The ancestors that
    the call creates where they are missing are not entered in the
    file system of the model, and an ancestor that is a regular file,
    on which the call fails, is not looked at. *)
Definition Path_mkdir (p : Path) : M unit :=
  log (EvMkdir p) ;;;
  f <- stat p ;;
  match f with
  | None => store p FDir
  | Some FDir => ret tt
  | Some _ => raise (FileExistsError p)
  end.

(** Writing a regular file: fails when the path is a directory.  The
    parent directory is not looked at: the failure of a write under a
    missing parent is outside the model. *)
Definition write_file (p : Path) (f : File) : M unit :=
  old <- stat p ;;
  match old with
  | Some FDir => raise (IsADirectoryError p)
  | _ => store p f
  end.

(** [im.save(p)], to a [.png] path. *)
Definition Image_save (im : Image) (p : Path) : M unit :=
  log (EvSave p im) ;;; write_file p (FImage im).

(** [p.write_text(s, encoding="utf-8")]. *)
Definition Path_write_text (p : Path) (s : pystr) : M unit :=
  log (EvWriteText p s) ;;; write_file p (FText s).

(** [print(s)], on a standard output that encodes every character. *)
Definition print (s : pystr) : M unit := log (EvPrint s).

(** [subprocess.run(argv, check=True)]. *)
Definition subprocess_run (argv : list pystr) : M unit :=
  log (EvRun argv) ;;;
  fun w =>
    match subprocess w argv with
    | Exited 0 => (Ok tt, w)
    | Exited rc => (Raise (CalledProcessError rc), w)
    | NotStarted => (Raise (OSError argv), w)
    end.

(** [sys.exit(msg)]. *)
Definition sys_exit {A} (msg : pystr) : M A := raise (SystemExit msg).

(** ** [str.islower] *)

(** The case of a code point in the Unicode database: uppercase
    ([Py_UNICODE_ISUPPER]), lowercase ([Py_UNICODE_ISLOWER]), titlecase
    ([Py_UNICODE_ISTITLE]) or none of them. *)
Inductive Case := Upper | Lower | Title | Uncased.

Definition ascii_case (ch : N) : Case :=
  if ((65 <=? ch) && (ch <=? 90))%N then Upper
  else if ((97 <=? ch) && (ch <=? 122))%N then Lower
  else Uncased.

(** ** The script *)

(** Punctuation of the source's string literals. *)
Definition dq : pystr := [34%N].
Definition tab : pystr := [9%N].
Definition nl : pystr := [10%N].
Definition en_dash : pystr := [8211%N].
Definition warning_sign : pystr := [9888%N; 65039%N].
Definition rightwards_arrow : pystr := [8594%N].
Definition ellipsis : pystr := [8230%N].

Definition transparent : RGBA := mkRGBA 0 0 0 0.
Definition opaque_black : RGBA := mkRGBA 0 0 0 255.

(** The parsed command line ([argparse]'s namespace). *)
Record Args := mkArgs {
  image : pystr;
  nameraw : pystr;
  nameshort : pystr;
  out : pystr;
  no_vtf : bool
}.

Definition VTF_CMD : Path :=
  Path_of (lit "E:\Garry\Software\vtflib132-bin\bin\x64\VTFCmd.exe").

(** [repr(VTF_CMD)]. *)
Definition VTF_CMD_repr : pystr :=
  lit "PosixPath('E:\\Garry\\Software\\vtflib132-bin\\bin\\x64\\VTFCmd.exe')".

(** A row of [specs]:
    variant, default_size, blur, offset, margin, template_filename. *)
Definition Spec : Type := pystr * Z * Z * Z * Z * pystr.

Definition specs : list Spec :=
  [ (lit "score", 64, 0, 0, 0, lit "score_template.png");
    (lit "sprite", 256, 3, 2, 3, lit "sprite_template.png");
    (lit "icon", 256, 5, 4, 10, lit "icon_template.png") ].

(** A pixel whose four bands are bytes. *)
Definition byte_pixel (p : RGBA) : Prop :=
  (0 <= red p <= 255) /\ (0 <= green p <= 255) /\
  (0 <= blue p <= 255) /\ (0 <= alpha p <= 255).

(** A computation emits only events of a kind when it only adds to the
    trace, and adds only events of that kind. *)
Definition emits {A} (P : Event -> Prop) (c : M A) : Prop :=
  forall w, exists evs, trace (snd (c w)) = trace w ++ evs /\ Forall P evs.

(** The path an event writes to or creates, if it is one that does. *)
Definition written_path (ev : Event) : option Path :=
  match ev with
  | EvMkdir p | EvSave p _ | EvWriteText p _ => Some p
  | _ => None
  end.

(** An event that writes, writes under the given directory. *)
Definition under (root : Path) (ev : Event) : Prop :=
  match written_path ev with
  | Some p => root `prefix_of` p
  | None => True
  end.

(** The events other than the writing of a text file. *)
Definition writes_no_text (ev : Event) : Prop :=
  match ev with
  | EvWriteText _ _ => False
  | _ => True
  end.

(** A computation is benign when it only adds to the trace and never
    raises [SystemExit]. *)
Definition benign {A} (c : M A) : Prop :=
  forall w,
    (exists evs, trace (snd (c w)) = trace w ++ evs) /\
    (forall msg, fst (c w) <> Raise (SystemExit msg)).

(** ** Reading a trace *)

(** The PNG files a sequence of calls saves, with their dimensions. *)
Definition saved_pngs (t : list Event) : list (Path * (Z * Z)) :=
  omap (fun ev => match ev with
                  | EvSave p im => Some (p, (width im, height im))
                  | _ => None
                  end) t.

(** The text files it writes, with their contents. *)
Definition written_texts (t : list Event) : list (Path * pystr) :=
  omap (fun ev => match ev with
                  | EvWriteText p s => Some (p, s)
                  | _ => None
                  end) t.

(** What it prints. *)
Definition printed (t : list Event) : list pystr :=
  omap (fun ev => match ev with EvPrint s => Some s | _ => None end) t.

(** The processes it launches. *)
Definition launched (t : list Event) : list (list pystr) :=
  omap (fun ev => match ev with EvRun argv => Some argv | _ => None end) t.

(** The paths it opens as images or probes for existence. *)
Definition read_paths (t : list Event) : list Path :=
  omap (fun ev => match ev with
                  | EvOpen p | EvExists p => Some p
                  | _ => None
                  end) t.

(** A computation keeps its reads within a set of paths when it only
    adds to the trace and every path it opens or probes is in the set. *)
Definition reads_within {A} (allowed : Path -> Prop) (c : M A) : Prop :=
  forall w,
    exists evs,
      trace (snd (c w)) = trace w ++ evs /\ Forall allowed (read_paths evs).

(** The dimensions of the image file at a path, if there is one. *)
Definition image_size_at (w : World) (p : Path) : option (Z * Z) :=
  match fs w !! p with
  | Some (FImage im) => Some (width im, height im)
  | _ => None
  end.

(** Does the path hold an image file that decodes? *)
Definition loadable (w : World) (p : Path) : bool :=
  match fs w !! p with
  | Some (FImage im) => decodes im
  | _ => false
  end.

(** Is the path free for a regular file (not a directory)? *)
Definition not_dir (w : World) (p : Path) : bool :=
  match fs w !! p with
  | Some FDir => false
  | _ => true
  end.

(** Is the path free for a directory (not a regular file)? *)
Definition not_file (w : World) (p : Path) : bool :=
  match fs w !! p with
  | None | Some FDir => true
  | Some _ => false
  end.

(** How the interpreter ends a run of [main]: status 0 when it returns,
    status 1 when an exception escapes; a [SystemExit] carrying a
    message prints that message on standard error. *)
Definition exit_status (r : Res unit) : Z :=
  match r with
  | Ok _ => 0
  | Raise _ => 1
  end.

Definition stderr_message (r : Res unit) : option pystr :=
  match r with
  | Raise (SystemExit msg) => Some msg
  | _ => None
  end.

(** Failures of [Image.open]. *)
Definition image_load_error (e : Exn) : bool :=
  match e with
  | FileNotFoundError _ | IsADirectoryError _ | UnidentifiedImageError _ => true
  | _ => false
  end.

(** Stand-ins for the parameters of the development, to run the script
    on concrete inputs: nearest-neighbour sampling for the resampling
    filter, the identity for the blur, and a Unicode database without
    cased code points beyond ASCII. *)
Definition nearest : Resampling :=
  fun im w h x y =>
    getpixel im (x * width im `div` w) (y * height im `div` h).

Definition no_blur : Z -> Filter := fun _ im => getpixel im.

Definition ascii_only : N -> Case := fun _ => Uncased.

(** ** Concrete inputs

    Small worlds to run the script in. *)

Definition red : RGBA := mkRGBA 255 0 0 255.

(** A 512 by 512 opaque source image, and a small one. *)
Definition source_512 : Image := filled 512 512 red.
Definition source_5 : Image := filled 5 5 red.

(** Templates: 2 wide and 3 high, and 10 by 10. *)
Definition template_2x3 : Image := filled 2 3 transparent.
Definition template_10 : Image := filled 10 10 transparent.

Definition script_dir : Path := Path_of (lit "/opt/cr4ttt").

(** A converter that always exits with the given code, and one that
    cannot be started. *)
Definition exits_with (rc : Z) : list pystr -> Outcome := fun _ => Exited rc.
Definition cannot_start : list pystr -> Outcome := fun _ => NotStarted.

(** Nothing on disk. *)
Definition world_empty : World := mkWorld ∅ (exits_with 0) [].

(** The source image [icon.png], and no template. *)
Definition world_source : World :=
  mkWorld {[ Path_of (lit "icon.png") := FImage source_512 ]} (exits_with 0) [].

(** A small source image, a score template, a sprite template that is
    not square and a 10 by 10 icon template next to the script. *)
Definition world_templates : World :=
  mkWorld
    (<[ Path_of (lit "icon.png") := FImage source_5 ]>
       (<[ script_dir </> lit "score_template.png" := FImage template_10 ]>
          (<[ script_dir </> lit "sprite_template.png" := FImage template_2x3 ]>
             {[ script_dir </> lit "icon_template.png" := FImage template_10 ]})))
    (exits_with 0) [].

(** A small source image and a 10 by 10 sprite template next to the
    script. *)
Definition world_sprite_template : World :=
  mkWorld
    (<[ Path_of (lit "icon.png") := FImage source_5 ]>
       {[ script_dir </> lit "sprite_template.png" := FImage template_10 ]})
    (exits_with 0) [].

(** The converter executable exists and cannot be started. *)
Definition world_broken_converter : World :=
  mkWorld {[ VTF_CMD := FOther ]} cannot_start [].

(** The converter executable exists and fails on every file. *)
Definition world_failing_converter : World :=
  mkWorld {[ VTF_CMD := FOther ]} (exits_with 3) [].

(** The path of the output directory of the role ["test"] is taken by
    a regular file. *)
Definition world_blocked : World :=
  mkWorld
    (<[ Path_of (lit "icon.png") := FImage source_512 ]>
       {[ Path_of (lit "RoleAddon") </> lit "converted" </> lit "test"
            := FOther ]})
    (exits_with 0) [].

(** The source image, and a sprite template that is no image. *)
Definition world_bad_template : World :=
  mkWorld
    (<[ Path_of (lit "icon.png") := FImage source_512 ]>
       {[ script_dir </> lit "sprite_template.png"
            := FText (lit "not an image") ]})
    (exits_with 0) [].

(** The path of the [_noz] descriptor of the role ["test"] is a
    directory. *)
Definition world_noz_dir : World :=
  mkWorld {[ Path_of (lit "out") </> lit "sprite_test_noz.vmt" := FDir ]}
    (exits_with 0) [].

(** The converter executable exists; it exits with 1 on every file but
    the given one, for which it cannot be started. *)
Definition fails_to_start_on (file : pystr) : list pystr -> Outcome :=
  fun argv =>
    if bool_decide (argv !! 2%nat = Some file) then NotStarted else Exited 1.

Definition world_icon_launch_fails : World :=
  mkWorld {[ VTF_CMD := FOther ]}
    (fails_to_start_on (lit "out/icon_test.png")) [].

(** A half-transparent source image, alone on the disk. *)
Definition source_half : Image := filled 5 5 (mkRGBA 255 0 0 128).

Definition world_half : World :=
  mkWorld {[ Path_of (lit "icon.png") := FImage source_half ]}
    (exits_with 0) [].


Section Script.

(** The two filters of Pillow the script names. *)
Variable LANCZOS : Resampling.
Variable GaussianBlur : Z -> Filter.

(** The case of the code points beyond ASCII, as the Unicode database
    of the interpreter gives it. *)
Variable unicode_case : N -> Case.

Definition case_of (ch : N) : Case :=
  if (ch <? 128)%N then ascii_case ch else unicode_case ch.

(** The loop of CPython's [unicode_islower_impl]. *)
Fixpoint islower_from (cased : bool) (s : pystr) : bool :=
  match s with
  | [] => cased
  | ch :: rest =>
      match case_of ch with
      | Upper | Title => false
      | Lower => islower_from true rest
      | Uncased => islower_from cased rest
      end
  end.

Definition islower (s : pystr) : bool := islower_from false s.

(** *** Helpers *)

Definition build_shadow (icon : Image) (blur : Z) : M Image :=
  let alpha := split_alpha icon in
  shadow <- Image_new_ (width icon) (height icon) opaque_black ;;
  let shadow := putalpha shadow alpha in
  ret (Image_filter shadow (GaussianBlur blur)).

(** Lines 22-23 of [make_icon_layer]: the icon is shrunk to the box
    the margin leaves. *)
Definition fit_icon (icon : Image) (canvas_size margin : Z) : Image :=
  let thumb := Z.max (canvas_size - 2 * margin) 1 in
  thumbnail icon (thumb, thumb) LANCZOS.

Definition make_icon_layer (src : pystr) (canvas_size blur offset margin : Z)
  : M Image :=
  icon <- Image_open (Path_of src) ;;
  let icon := fit_icon icon canvas_size margin in
  layer <- Image_new_ canvas_size canvas_size transparent ;;
  layer <- (if blur >? 0 then
              sh <- build_shadow icon blur ;;
              let x := (canvas_size - width sh) `div` 2 + offset in
              let y := (canvas_size - height sh) `div` 2 + offset in
              ret (paste layer sh (x, y) sh)
            else ret layer) ;;
  let x := (canvas_size - width icon) `div` 2 in
  let y := (canvas_size - height icon) `div` 2 in
  ret (paste layer icon (x, y) icon).

(** *** PNG generation *)

(** The body of the loop over [specs]. *)
Definition png_variant (src ns : pystr) (out : Path) (tpl_dir : Path)
  (spec : Spec) : M unit :=
  let '(variant, dsize, blur, offset, margin, tpl) := spec in
  cs <- (if bool_decide (variant = lit "score") then
           canvas <- Image_new_ dsize dsize transparent ;;
           ret (canvas, dsize)
         else
           let tpl_path := tpl_dir </> tpl in
           found <- Path_exists tpl_path ;;
           if found then
             canvas <- Image_open tpl_path ;;
             ret (canvas, width canvas)
           else
             canvas <- Image_new_ dsize dsize transparent ;;
             ret (canvas, dsize)) ;;
  let '(canvas, size) := cs in
  layer <- make_icon_layer src size blur offset margin ;;
  let x := (size - width layer) `div` 2 in
  let y := (size - height layer) `div` 2 in
  let canvas := paste canvas layer (x, y) layer in
  Image_save canvas (out </> (variant ++ lit "_" ++ ns ++ lit ".png")).

Definition create_png_set (src ns : pystr) (out : Path) (tpl_dir : Path)
  : M unit :=
  Path_mkdir out ;;;
  tab_layer <- make_icon_layer src 16 0 0 0 ;;
  Image_save tab_layer (out </> (lit "tab_" ++ ns ++ lit ".png")) ;;;
  for_each specs (png_variant src ns out tpl_dir).

(** *** .vmt generation *)

(** The inner function [write] of [generate_vmt_files]. *)
(** The list [lines] that the inner function [write] of
    [generate_vmt_files] builds. *)
Definition vmt_lines (base_path basetex : pystr) (ignorez : bool)
  : list pystr :=
  let lines :=
    [ dq ++ lit "UnlitGeneric" ++ dq;
      lit "{";
      tab ++ dq ++ lit "$basetexture" ++ dq ++ lit " "
          ++ dq ++ base_path ++ lit "/" ++ basetex ++ dq;
      tab ++ lit "$nocull 1" ] in
  let lines := if ignorez then lines ++ [tab ++ lit "$ignorez 1"] else lines in
  lines ++
    [ tab ++ lit "$nodecal 1";
      tab ++ lit "$nolod 1";
      tab ++ lit "$vertexcolor 1";
      tab ++ lit "$vertexalpha 1";
      tab ++ lit "$translucent 1";
      lit "}" ].

(** The inner function [write]. *)
Definition write (base_path : pystr) (path : Path) (basetex : pystr)
  (ignorez : bool) : M unit :=
  Path_write_text path (join nl (vmt_lines base_path basetex ignorez) ++ nl).

Definition generate_vmt_files (out : Path) (ns : pystr) : M unit :=
  let base_path := lit "vgui/ttt/roles/" ++ ns in
  write base_path (out </> (lit "sprite_" ++ ns ++ lit ".vmt"))
        (lit "sprite_" ++ ns) false ;;;
  write base_path (out </> (lit "sprite_" ++ ns ++ lit "_noz.vmt"))
        (lit "sprite_" ++ ns) true ;;;
  write base_path (out </> (lit "icon_" ++ ns ++ lit ".vmt"))
        (lit "icon_" ++ ns) false.

(** *** VTF conversion *)

Definition convert_vtf (out : Path) (ns : pystr) (skip : bool) : M unit :=
  if skip then print (en_dash ++ lit " Skipping VTF conversion.")
  else
    found <- Path_exists VTF_CMD ;;
    if negb found then
      print (warning_sign ++ lit "  VTFCmd.exe not found at "
               ++ VTF_CMD_repr ++ lit "; skipping.")
    else
      for_each [lit "sprite_" ++ ns; lit "icon_" ++ ns] (fun name =>
        let png := out </> (name ++ lit ".png") in
        try_except_CalledProcessError
          (print (rightwards_arrow ++ lit " Converting " ++ Path_name png
                    ++ lit " " ++ ellipsis) ;;;
           subprocess_run [Path_str VTF_CMD; lit "-file"; Path_str png;
                           lit "-output"; Path_str out])
          (fun returncode =>
             print (warning_sign ++ lit "  VTFCmd failed on "
                      ++ Path_name png ++ lit ": exit "
                      ++ lit (pretty returncode)))).

(** *** CLI and main *)

(** [main], from the parsed arguments on; [script_folder] is
    [Path(__file__).resolve().parent]. *)
Definition main (script_folder : Path) (args : Args) : M unit :=
  (if negb (islower (nameshort args))
   then sys_exit (lit "Error: nameshort must be lowercase")
   else ret tt) ;;;
  let out_dir := Path_of (out args) </> lit "converted" </> nameshort args in
  create_png_set (image args) (nameshort args) out_dir script_folder ;;;
  convert_vtf out_dir (nameshort args) (no_vtf args) ;;;
  generate_vmt_files out_dir (nameshort args).


(** *** The words of the specification *)

(** The position that centres an image on a square canvas. *)
Definition centred (canvas_size : Z) (im : Image) : Z * Z :=
  ((canvas_size - width im) `div` 2, (canvas_size - height im) `div` 2).

(** Section 4.1, without a shadow: the icon pasted centred on a
    transparent layer, its own alpha as the mask. *)
Definition icon_only_composite (canvas_size : Z) (icon : Image) : Image :=
  paste (filled canvas_size canvas_size transparent) icon
        (centred canvas_size icon) icon.

(** The alpha silhouette of the icon, filled black. *)
Definition silhouette (icon : Image) : Image :=
  mkImage (width icon) (height icon)
    (fun x y => mkRGBA 0 0 0 (alpha (getpixel icon x y))).

(** The shadow: the silhouette, blurred. *)
Definition shadow_of (icon : Image) (blurRadius : Z) : Image :=
  Image_filter (silhouette icon) (GaussianBlur blurRadius).

(** Section 4.1, with a shadow: the shadow pasted first, at the
    centred position moved by the offset in both directions and with
    its own alpha as the mask, and the sharp icon pasted centred over
    it. *)
Definition shadowed_composite (canvas_size : Z) (icon : Image)
  (blurRadius offset : Z) : Image :=
  let '(x, y) := centred canvas_size icon in
  let sh := shadow_of icon blurRadius in
  let under := paste (filled canvas_size canvas_size transparent) sh
                     (x + offset, y + offset) sh in
  paste under icon (x, y) icon.

(** A cased character, and "all-lowercase" as the documentation of
    [str.islower] words it: at least one cased character, and every
    cased character lowercase. *)
Definition cased (ch : N) : bool :=
  match case_of ch with
  | Uncased => false
  | _ => true
  end.

Definition lowercase (ch : N) : bool :=
  match case_of ch with
  | Lower => true
  | _ => false
  end.

Definition all_lowercase (s : pystr) : Prop :=
  (exists ch, ch ∈ s /\ cased ch = true) /\
  (forall ch, ch ∈ s -> cased ch = true -> lowercase ch = true).



(** The command line of the converter for one PNG, and the calls one
    conversion makes: the announcement, the launch and, on a non-zero
    exit, the warning. *)
Definition converter_argv (out : Path) (name : pystr) : list pystr :=
  [Path_str VTF_CMD; lit "-file"; Path_str (out </> (name ++ lit ".png"));
   lit "-output"; Path_str out].

Definition conversion_events (w : World) (out : Path) (name : pystr)
  : list Event :=
  [EvPrint (rightwards_arrow ++ lit " Converting "
              ++ Path_name (out </> (name ++ lit ".png"))
              ++ lit " " ++ ellipsis);
   EvRun (converter_argv out name)] ++
  match subprocess w (converter_argv out name) with
  | Exited 0 => []
  | Exited rc =>
      [EvPrint (warning_sign ++ lit "  VTFCmd failed on "
                  ++ Path_name (out </> (name ++ lit ".png"))
                  ++ lit ": exit " ++ lit (pretty rc))]
  | NotStarted => []
  end.

(** ** Properties *)

(** *** Rationals of [Image.thumbnail], as integer inequalities *)

Lemma Qfrac_le_frac (a b c d : Z) :
  0 < b -> 0 < d ->
  (inject_Z a / inject_Z b <= inject_Z c / inject_Z d)%Q <-> a * d <= c * b.
Proof.
  intros Hb Hd. destruct b as [|p|p]; try lia. destruct d as [|q|q]; try lia.
  unfold Qle, Qdiv, Qmult, Qinv, inject_Z. simpl. lia.
Qed.

Lemma Qmul_frac_le_Z (y w h b : Z) :
  0 < h ->
  (inject_Z y * (inject_Z w / inject_Z h) <= inject_Z b)%Q <-> y * w <= b * h.
Proof.
  intros Hh. destruct h as [|p|p]; try lia.
  unfold Qle, Qdiv, Qmult, Qinv, inject_Z. simpl. lia.
Qed.

Lemma Qdiv_frac_le_Z (x w h b : Z) :
  0 < h -> 0 < w ->
  (inject_Z x / (inject_Z w / inject_Z h) <= inject_Z b)%Q <-> x * h <= b * w.
Proof.
  intros Hh Hw. destruct h as [|p|p]; try lia. destruct w as [|q|q]; try lia.
  unfold Qle, Qdiv, Qmult, Qinv, inject_Z. simpl. lia.
Qed.

(** *** The size of a thumbnail *)

Lemma round_aspect_bounds (number : Q) (key : Z -> Q) (b : Z) :
  1 <= b -> (number <= inject_Z b)%Q -> 1 <= round_aspect number key <= b.
Proof.
  intros Hb Hq. unfold round_aspect.
  assert (Qceiling number <= b) as Hc.
  { rewrite <- (Qceiling_Z b). by apply Qceiling_resp_le. }
  assert (Qfloor number <= Qceiling number) as Hf.
  { rewrite Zle_Qle. apply Qle_floor_ceiling. }
  destruct (Qle_bool _ _); lia.
Qed.

Lemma preserve_aspect_ratio_None (im : Image) (x y : Z) :
  preserve_aspect_ratio im x y = None -> width im <= x /\ height im <= y.
Proof.
  unfold preserve_aspect_ratio.
  destruct ((x >=? width im) && (y >=? height im)) eqn:Hfit.
  - rewrite !Z.geb_leb, andb_true_iff, !Z.leb_le in Hfit. done.
  - by destruct (Qle_bool _ _).
Qed.

Lemma preserve_aspect_ratio_bounds (im : Image) (x y fx fy : Z) :
  1 <= width im -> 1 <= height im -> 1 <= x -> 1 <= y ->
  preserve_aspect_ratio im x y = Some (fx, fy) ->
  (1 <= fx <= x /\ fx <= width im) /\ (1 <= fy <= y /\ fy <= height im).
Proof.
  intros Hw Hh Hx Hy. unfold preserve_aspect_ratio.
  destruct ((x >=? width im) && (y >=? height im)) eqn:Hfit; [done|].
  rewrite !Z.geb_leb, andb_false_iff, !Z.leb_gt in Hfit.
  set (aspect := (inject_Z (width im) / inject_Z (height im))%Q).
  destruct (Qle_bool _ _) eqn:Hc; intros [= <- <-].
  - apply Qle_bool_iff in Hc.
    apply (Qfrac_le_frac (width im) (height im) x y) in Hc; [|lia..].
    assert (y < height im) as Hlt.
    { destruct Hfit as [Hf|Hf]; [|lia]. apply Z.nle_gt. intros Hge.
      assert (width im * height im <= width im * y)
        by (apply Z.mul_le_mono_nonneg_l; lia).
      assert (x * height im < width im * height im)
        by (apply Z.mul_lt_mono_pos_r; lia).
      lia. }
    set (key := fun n : Z => _).
    pose proof (round_aspect_bounds (inject_Z y * aspect) key x Hx) as B1.
    pose proof (round_aspect_bounds (inject_Z y * aspect) key (width im) Hw) as B2.
    unfold aspect in B1, B2. rewrite Qmul_frac_le_Z in B1, B2 by lia.
    split; [split; [apply B1|apply B2]; nia | lia].
  - assert (~ (aspect <= inject_Z x / inject_Z y)%Q) as Hn.
    { rewrite <- Qle_bool_iff, Hc. done. }
    unfold aspect in Hn.
    rewrite (Qfrac_le_frac (width im) (height im) x y) in Hn by lia.
    assert (x < width im) as Hlt.
    { destruct Hfit as [Hf|Hf]; [lia|]. apply Z.nle_gt. intros Hge.
      assert (width im * y < width im * height im)
        by (apply Z.mul_lt_mono_pos_l; lia).
      assert (width im * height im <= x * height im)
        by (apply Z.mul_le_mono_nonneg_r; lia).
      lia. }
    set (key := fun n : Z => _).
    pose proof (round_aspect_bounds (inject_Z x / aspect) key y Hy) as B1.
    pose proof (round_aspect_bounds (inject_Z x / aspect) key (height im) Hh) as B2.
    unfold aspect in B1, B2. rewrite Qdiv_frac_le_Z in B1, B2 by lia.
    split; [lia | split; [apply B1|apply B2]; nia].
Qed.

(** A thumbnail fits the box it was asked for, is not larger than the
    image it comes from, and is not empty. *)
Lemma thumbnail_bounds (im : Image) (x y : Z) (resample : Resampling) :
  1 <= width im -> 1 <= height im -> 1 <= x -> 1 <= y ->
  (1 <= width (thumbnail im (x, y) resample) <= x /\
   width (thumbnail im (x, y) resample) <= width im) /\
  (1 <= height (thumbnail im (x, y) resample) <= y /\
   height (thumbnail im (x, y) resample) <= height im).
Proof.
  intros Hw Hh Hx Hy. unfold thumbnail.
  destruct (preserve_aspect_ratio im x y) as [[fx fy]|] eqn:Hp.
  - apply preserve_aspect_ratio_bounds in Hp; [|done..].
    destruct (_ && _) eqn:Hsame; simpl; [|lia].
    apply andb_true_iff in Hsame as [?%Z.eqb_eq ?%Z.eqb_eq]. lia.
  - apply preserve_aspect_ratio_None in Hp. lia.
Qed.

Lemma decodes_positive (im : Image) :
  decodes im = true <-> 1 <= width im /\ 1 <= height im.
Proof. unfold decodes. rewrite andb_true_iff, !Z.leb_le. done. Qed.

Lemma fit_icon_bounds (im : Image) (canvas_size margin : Z) :
  decodes im = true ->
  (1 <= width (fit_icon im canvas_size margin)
     <= Z.max (canvas_size - 2 * margin) 1 /\
   width (fit_icon im canvas_size margin) <= width im) /\
  (1 <= height (fit_icon im canvas_size margin)
     <= Z.max (canvas_size - 2 * margin) 1 /\
   height (fit_icon im canvas_size margin) <= height im).
Proof.
  intros [Hw Hh]%decodes_positive. unfold fit_icon.
  apply thumbnail_bounds; lia.
Qed.

Lemma fit_icon_decodes (im : Image) (canvas_size margin : Z) :
  decodes im = true -> decodes (fit_icon im canvas_size margin) = true.
Proof.
  intros Hd. apply decodes_positive.
  pose proof (fit_icon_bounds im canvas_size margin Hd). lia.
Qed.

(** *** Running the primitives *)

Lemma bind_Ok {A B} (c : M A) (k : A -> M B) (w w' : World) (a : A) :
  c w = (Ok a, w') -> bind c k w = k a w'.
Proof. unfold bind. by intros ->. Qed.

Lemma bind_Raise {A B} (c : M A) (k : A -> M B) (w w' : World) (e : Exn) :
  c w = (Raise e, w') -> bind c k w = (Raise e, w').
Proof. unfold bind. by intros ->. Qed.

Lemma Image_open_run (w : World) (p : Path) (im : Image) :
  fs w !! p = Some (FImage im) -> decodes im = true ->
  Image_open p w = (Ok im, record_event (EvOpen p) w).
Proof.
  intros Hf Hd. unfold Image_open, bind, log, stat. simpl.
  rewrite Hf, Hd. done.
Qed.

Lemma loadable_Some (w : World) (p : Path) :
  loadable w p = true <->
  exists im, fs w !! p = Some (FImage im) /\ decodes im = true.
Proof.
  unfold loadable. split.
  - destruct (fs w !! p) as [[im| | |]|]; try done. eauto.
  - intros (im & -> & Hd). done.
Qed.

Lemma Image_open_fail (w : World) (p : Path) :
  loadable w p = false ->
  exists e, image_load_error e = true /\
            Image_open p w = (Raise e, record_event (EvOpen p) w).
Proof.
  unfold loadable, Image_open, bind, log, stat. simpl. intros Hl.
  destruct (fs w !! p) as [[im| | |]|]; [rewrite Hl|..];
    (eexists; split; [|reflexivity]; reflexivity).
Qed.

Lemma Image_new_run (w : World) (a b : Z) (color : RGBA) :
  0 <= a -> 0 <= b -> Image_new_ a b color w = (Ok (filled a b color), w).
Proof.
  intros Ha Hb. unfold Image_new_, Image_new.
  destruct (a <? 0) eqn:E1; [lia|]. destruct (b <? 0) eqn:E2; [lia|]. done.
Qed.

Lemma build_shadow_run (w : World) (icon : Image) (blur : Z) :
  0 <= width icon -> 0 <= height icon ->
  build_shadow icon blur w = (Ok (shadow_of icon blur), w).
Proof.
  intros Hw Hh. unfold build_shadow.
  rewrite (bind_Ok _ _ _ _ _ (Image_new_run w _ _ _ Hw Hh)). done.
Qed.

(** The layer compositor on a source that loads: it returns the
    composite of the fitted icon, with the shadow when the blur radius
    is positive, and its only call to the outside is opening the
    source. *)
Lemma make_icon_layer_run (w : World) (src : pystr) (im : Image)
  (canvas_size blur offset margin : Z) :
  fs w !! Path_of src = Some (FImage im) -> decodes im = true ->
  0 <= canvas_size ->
  make_icon_layer src canvas_size blur offset margin w =
    (Ok (if blur >? 0
         then shadowed_composite canvas_size (fit_icon im canvas_size margin)
                                 blur offset
         else icon_only_composite canvas_size (fit_icon im canvas_size margin)),
     record_event (EvOpen (Path_of src)) w).
Proof.
  intros Hf Hd Hc. unfold make_icon_layer.
  rewrite (bind_Ok _ _ _ _ _ (Image_open_run w _ _ Hf Hd)).
  rewrite (bind_Ok _ _ _ _ _ (Image_new_run _ _ _ _ Hc Hc)).
  pose proof (fit_icon_bounds im canvas_size margin Hd) as B.
  destruct (blur >? 0).
  - erewrite bind_Ok.
    2:{ erewrite bind_Ok; [reflexivity|]. apply build_shadow_run; lia. }
    done.
  - done.
Qed.

Lemma bind_Ok_inv {A B} (c : M A) (k : A -> M B) (w w' : World) (b : B) :
  bind c k w = (Ok b, w') ->
  exists a w1, c w = (Ok a, w1) /\ k a w1 = (Ok b, w').
Proof.
  unfold bind. destruct (c w) as [[a|e] w1]; [eauto | done].
Qed.

Lemma Image_open_inv (w w' : World) (p : Path) (im : Image) :
  Image_open p w = (Ok im, w') ->
  fs w !! p = Some (FImage im) /\ decodes im = true /\
  w' = record_event (EvOpen p) w.
Proof.
  unfold Image_open, bind, log, stat. simpl.
  destruct (fs w !! p) as [[im'| | |]|]; try done.
  destruct (decodes im') eqn:Hd; [|done]. by intros [= <- <-].
Qed.

Lemma Image_new_inv (w w' : World) (a b : Z) (color : RGBA) (im : Image) :
  Image_new_ a b color w = (Ok im, w') ->
  im = filled a b color /\ w' = w /\ 0 <= a /\ 0 <= b.
Proof.
  unfold Image_new_, Image_new.
  destruct (a <? 0) eqn:E1; [done|]. destruct (b <? 0) eqn:E2; [done|].
  simpl. intros [= <- <-]. repeat split; lia.
Qed.

Lemma write_file_run (w : World) (p : Path) (f : File) :
  not_dir w p = true -> write_file p f w = (Ok tt, put p f w).
Proof.
  unfold not_dir, write_file, bind, stat, store.
  by destruct (fs w !! p) as [[| | |]|].
Qed.

Lemma write_file_inv (w w' : World) (p : Path) (f : File) :
  write_file p f w = (Ok tt, w') -> not_dir w p = true /\ w' = put p f w.
Proof.
  unfold not_dir, write_file, bind, stat, store.
  destruct (fs w !! p) as [[| | |]|]; try done; by intros [= <-].
Qed.

Lemma Image_save_run (w : World) (p : Path) (im : Image) :
  not_dir w p = true ->
  Image_save im p w =
    (Ok tt, put p (FImage im) (record_event (EvSave p im) w)).
Proof.
  intros Hd. unfold Image_save, bind, log. by rewrite write_file_run.
Qed.

Lemma Image_save_inv (w w' : World) (p : Path) (im : Image) :
  Image_save im p w = (Ok tt, w') ->
  not_dir w p = true /\
  w' = put p (FImage im) (record_event (EvSave p im) w).
Proof.
  unfold Image_save, bind, log. intros H. by apply write_file_inv in H.
Qed.

Lemma Path_exists_run (w : World) (p : Path) :
  Path_exists p w =
    (Ok (bool_decide (is_Some (fs w !! p))), record_event (EvExists p) w).
Proof. done. Qed.

Lemma make_icon_layer_inv (w w' : World) (src : pystr) (layer : Image)
  (canvas_size blur offset margin : Z) :
  make_icon_layer src canvas_size blur offset margin w = (Ok layer, w') ->
  exists im, fs w !! Path_of src = Some (FImage im) /\ decodes im = true /\
             0 <= canvas_size.
Proof.
  unfold make_icon_layer. intros H.
  apply bind_Ok_inv in H as (im & w1 & H1 & H).
  apply Image_open_inv in H1 as (Hf & Hd & ->).
  apply bind_Ok_inv in H as (l0 & w2 & H2 & _).
  apply Image_new_inv in H2 as (_ & _ & Hc & _). eauto.
Qed.

Lemma width_composite (canvas_size blur offset : Z) (icon : Image) :
  width (if blur >? 0 then shadowed_composite canvas_size icon blur offset
         else icon_only_composite canvas_size icon) = canvas_size /\
  height (if blur >? 0 then shadowed_composite canvas_size icon blur offset
          else icon_only_composite canvas_size icon) = canvas_size.
Proof. by destruct (blur >? 0). Qed.

(** C2, as amended: the icon the layer compositor pastes is the
    source fitted to the box of side [max(canvas_size - 2*margin, 1)]:
    neither of its dimensions exceeds that side, nor the matching
    dimension of the source, and so it stays within
    [canvas_size - 2*margin] whenever that is at least 1. *)
Theorem icon_within_clamped_box (w : World) (src : pystr) (im : Image)
  (canvas_size blur offset margin : Z) :
  fs w !! Path_of src = Some (FImage im) -> decodes im = true ->
  0 <= canvas_size ->
  fst (make_icon_layer src canvas_size blur offset margin w) =
    Ok (if blur >? 0
        then shadowed_composite canvas_size (fit_icon im canvas_size margin)
                                blur offset
        else icon_only_composite canvas_size (fit_icon im canvas_size margin)) /\
  width (fit_icon im canvas_size margin) <= Z.max (canvas_size - 2 * margin) 1 /\
  height (fit_icon im canvas_size margin) <= Z.max (canvas_size - 2 * margin) 1 /\
  width (fit_icon im canvas_size margin) <= width im /\
  height (fit_icon im canvas_size margin) <= height im /\
  (1 <= canvas_size - 2 * margin ->
   width (fit_icon im canvas_size margin) <= canvas_size - 2 * margin /\
   height (fit_icon im canvas_size margin) <= canvas_size - 2 * margin).
Proof.
  intros Hf Hd Hc.
  rewrite (make_icon_layer_run w src im _ _ _ _ Hf Hd Hc).
  pose proof (fit_icon_bounds im canvas_size margin Hd) as B.
  split; [done|]. repeat split; lia.
Qed.

(** C3: without a blur radius the layer is the icon-only composite;
    with a positive one it is the shadowed composite: the black alpha
    silhouette of the icon, blurred with that radius, pasted first at
    the centred position moved by [(offset, offset)] with its own alpha
    as the mask, and the sharp icon pasted centred over it. *)
Theorem shadow_only_with_blur (w : World) (src : pystr) (im : Image)
  (canvas_size blur offset margin : Z) :
  fs w !! Path_of src = Some (FImage im) -> decodes im = true ->
  0 <= canvas_size ->
  (blur = 0 ->
   fst (make_icon_layer src canvas_size blur offset margin w) =
     Ok (icon_only_composite canvas_size (fit_icon im canvas_size margin))) /\
  (0 < blur ->
   fst (make_icon_layer src canvas_size blur offset margin w) =
     Ok (shadowed_composite canvas_size (fit_icon im canvas_size margin)
                            blur offset) /\
   fst (build_shadow (fit_icon im canvas_size margin) blur w) =
     Ok (shadow_of (fit_icon im canvas_size margin) blur)).
Proof.
  intros Hf Hd Hc.
  rewrite (make_icon_layer_run w src im _ _ _ _ Hf Hd Hc).
  pose proof (fit_icon_bounds im canvas_size margin Hd) as B.
  split.
  - intros ->. done.
  - intros Hb. destruct (blur >? 0) eqn:E; [|lia].
    rewrite build_shadow_run by lia. done.
Qed.

(** *** The rows of [specs] *)

Lemma specs_score (dsize blur offset margin : Z) (tpl : pystr) :
  In (lit "score", dsize, blur, offset, margin, tpl) specs ->
  dsize = 64 /\ blur = 0 /\ offset = 0 /\ margin = 0.
Proof.
  unfold specs. simpl. intros [H|[H|[H|[]]]]; by inversion H.
Qed.

Lemma specs_not_score (variant : pystr) (dsize blur offset margin : Z)
  (tpl : pystr) :
  In (variant, dsize, blur, offset, margin, tpl) specs ->
  variant <> lit "score" ->
  dsize = 256 /\
  ((variant = lit "sprite" /\ tpl = lit "sprite_template.png") \/
   (variant = lit "icon" /\ tpl = lit "icon_template.png")).
Proof.
  unfold specs. simpl. intros [H|[H|[H|[]]]] Hv; inversion H; subst; auto.
  by destruct Hv.
Qed.

(** C1, as amended: whenever the sprite or the icon variant is
    saved, the PNG has the width and the height of the template image
    when the template file exists (so it is square, of side the
    template's width, exactly when the template is square), and is
    256 by 256 when there is no such file. *)
Theorem variant_png_has_canvas_size (w w' : World) (src ns : pystr)
  (out tpl_dir : Path) (variant : pystr) (dsize blur offset margin : Z)
  (tpl : pystr) :
  In (variant, dsize, blur, offset, margin, tpl) specs ->
  variant <> lit "score" ->
  png_variant src ns out tpl_dir
              (variant, dsize, blur, offset, margin, tpl) w = (Ok tt, w') ->
  exists png,
    fs w' !! (out </> (variant ++ lit "_" ++ ns ++ lit ".png"))
      = Some (FImage png) /\
    last (trace w')
      = Some (EvSave (out </> (variant ++ lit "_" ++ ns ++ lit ".png")) png) /\
    match fs w !! (tpl_dir </> tpl) with
    | Some (FImage template) =>
        width png = width template /\ height png = height template
    | Some _ => False
    | None => width png = 256 /\ height png = 256
    end.
Proof.
  intros Hin Hv H. destruct (specs_not_score _ _ _ _ _ _ Hin Hv) as [-> _].
  unfold png_variant in H. rewrite bool_decide_eq_false_2 in H by done.
  apply bind_Ok_inv in H as ([canvas size] & w1 & Hc & H).
  apply bind_Ok_inv in H as (layer & w2 & Hl & H).
  apply Image_save_inv in H as (Hnd & ->).
  eexists. split; [apply lookup_insert_eq|].
  split; [simpl; apply last_snoc|].
  assert (width layer = size /\ height layer = size) as [Wl Hl'].
  { pose proof Hl as Hl0.
    apply make_icon_layer_inv in Hl0 as (im & Hf & Hd & Hs).
    rewrite (make_icon_layer_run _ _ _ _ _ _ _ Hf Hd Hs) in Hl.
    injection Hl as <- _. apply width_composite. }
  apply bind_Ok_inv in Hc as (found & w0 & He & Hc).
  rewrite Path_exists_run in He. injection He as <- <-.
  destruct (fs w !! (tpl_dir </> tpl)) as [f|] eqn:Ht.
  - rewrite bool_decide_eq_true_2 in Hc by eauto.
    apply bind_Ok_inv in Hc as (template & w3 & Ho & Hc).
    apply Image_open_inv in Ho as (Hf & Hd & ->). simpl in Hf.
    rewrite Ht in Hf. injection Hf as ->. injection Hc as <- <- _. done.
  - rewrite bool_decide_eq_false_2 in Hc by (by intros [? ?]).
    apply bind_Ok_inv in Hc as (blank & w3 & Hn & Hc).
    apply Image_new_inv in Hn as (-> & -> & _). injection Hc as <- <- _. done.
Qed.

(** *** [str.islower] *)

Lemma islower_from_spec (flag : bool) (s : pystr) :
  islower_from flag s = true <->
  (flag = true \/ exists ch, ch ∈ s /\ cased ch = true) /\
  (forall ch, ch ∈ s -> cased ch = true -> lowercase ch = true).
Proof.
  revert flag. induction s as [|c rest IH]; intros flag; simpl.
  - split.
    + intros ->. split; [by left|]. by intros ch ?%elem_of_nil.
    + intros [[H|(ch & ?%elem_of_nil & _)] _]; done.
  - assert (forall P : N -> Prop,
              (forall ch, ch ∈ c :: rest -> P ch) <->
              P c /\ (forall ch, ch ∈ rest -> P ch)) as Hall.
    { intros P. split.
      - intros H. split; [apply H; left | intros ch Hch; apply H; by right].
      - intros [Hc Hr] ch [->|Hch]%elem_of_cons; auto. }
    assert ((exists ch, ch ∈ c :: rest /\ cased ch = true) <->
            cased c = true \/ exists ch, ch ∈ rest /\ cased ch = true) as Hex.
    { split.
      - intros (ch & [->|Hch]%elem_of_cons & Hc); eauto.
      - intros [Hc|(ch & Hch & Hc)]; [exists c | exists ch];
          (split; [|done]); [left | by right]. }
    rewrite Hall, Hex. unfold cased, lowercase in *.
    destruct (case_of c) eqn:Ec.
    + split; [done|]. intros [_ [Hc _]]. by specialize (Hc eq_refl).
    + rewrite IH. unfold cased, lowercase. intuition.
    + split; [done|]. intros [_ [Hc _]]. by specialize (Hc eq_refl).
    + rewrite IH. unfold cased, lowercase. intuition; try discriminate.
Qed.

(** [islower] holds of the all-lowercase strings and of no other. *)
Lemma islower_all_lowercase (s : pystr) :
  islower s = true <-> all_lowercase s.
Proof.
  unfold islower, all_lowercase. rewrite islower_from_spec.
  intuition; discriminate.
Qed.

(** *** What no part of the script does: exit, or erase the trace *)

Lemma benign_ret {A} (a : A) : benign (ret a).
Proof. intros w. split; [exists []; simpl; by rewrite app_nil_r | done]. Qed.

Lemma benign_raise {A} (e : Exn) :
  (forall msg, e <> SystemExit msg) -> benign (@raise A e).
Proof.
  intros He w. split; [exists []; simpl; by rewrite app_nil_r |].
  simpl. intros msg [= ->]. by eapply He.
Qed.

Lemma benign_bind {A B} (c : M A) (k : A -> M B) :
  benign c -> (forall a, benign (k a)) -> benign (bind c k).
Proof.
  intros Hc Hk w. unfold bind. destruct (Hc w) as [[evs He] Hx].
  destruct (c w) as [[a|e] w1]; simpl in *.
  - destruct (Hk a w1) as [[evs' He'] Hx']. split; [|done].
    exists (evs ++ evs'). by rewrite He', He, app_assoc.
  - split; [eauto|]. intros msg [= ->]. by apply (Hx msg).
Qed.

Lemma benign_log (ev : Event) : benign (log ev).
Proof. intros w. split; [by exists [ev] | done]. Qed.

Lemma benign_stat (p : Path) : benign (stat p).
Proof. intros w. split; [exists []; simpl; by rewrite app_nil_r | done]. Qed.

Lemma benign_store (p : Path) (f : File) : benign (store p f).
Proof. intros w. split; [exists []; simpl; by rewrite app_nil_r | done]. Qed.

Lemma benign_for_each {A} (xs : list A) (body : A -> M unit) :
  (forall x, benign (body x)) -> benign (for_each xs body).
Proof.
  intros Hb. induction xs as [|x rest IH]; simpl.
  - apply benign_ret.
  - apply benign_bind; auto.
Qed.

Lemma benign_try {A} (body : M A) (handler : Z -> M A) :
  benign body -> (forall rc, benign (handler rc)) ->
  benign (try_except_CalledProcessError body handler).
Proof.
  intros Hb Hh w. unfold try_except_CalledProcessError.
  destruct (Hb w) as [[evs He] Hx].
  destruct (body w) as [[a|e] w1]; simpl in *; [by eauto|].
  destruct e; simpl; eauto.
  destruct (Hh returncode w1) as [[evs' He'] Hx']. split; [|done].
  exists (evs ++ evs'). by rewrite He', He, app_assoc.
Qed.

Lemma benign_subprocess_run (argv : list pystr) :
  benign (subprocess_run argv).
Proof.
  unfold subprocess_run. apply benign_bind; [apply benign_log|].
  intros _ w. split.
  - exists []. rewrite app_nil_r. by destruct (subprocess w argv) as [[| |]|].
  - intros msg. by destruct (subprocess w argv) as [[| |]|].
Qed.

Ltac benign_step :=
  first
    [ apply benign_ret
    | apply benign_log
    | apply benign_stat
    | apply benign_store
    | apply benign_subprocess_run
    | apply benign_raise; intros ?; discriminate
    | apply benign_bind
    | apply benign_for_each
    | apply benign_try
    | progress intros
    | match goal with
      | |- benign (match ?x with _ => _ end) => destruct x
      | |- benign (if ?x then _ else _) => destruct x
      end ].

Lemma benign_Image_open (p : Path) : benign (Image_open p).
Proof. unfold Image_open. repeat benign_step. Qed.

Lemma benign_Image_new (a b : Z) (color : RGBA) :
  benign (Image_new_ a b color).
Proof. unfold Image_new_. repeat benign_step. Qed.

Lemma benign_write_file (p : Path) (f : File) : benign (write_file p f).
Proof. unfold write_file. repeat benign_step. Qed.

Lemma benign_make_icon_layer (src : pystr) (a b c d : Z) :
  benign (make_icon_layer src a b c d).
Proof.
  unfold make_icon_layer, build_shadow.
  repeat first [apply benign_Image_open | apply benign_Image_new | benign_step].
Qed.

Lemma benign_png_variant (src ns : pystr) (out tpl_dir : Path) (spec : Spec) :
  benign (png_variant src ns out tpl_dir spec).
Proof.
  destruct spec as [[[[[variant dsize] blur] offset] margin] tpl].
  unfold png_variant, Path_exists, Image_save.
  repeat first [apply benign_Image_open | apply benign_Image_new
               | apply benign_make_icon_layer | apply benign_write_file
               | benign_step].
Qed.

Lemma benign_after_mkdir (src ns : pystr) (out tpl_dir : Path) :
  benign (tab_layer <- make_icon_layer src 16 0 0 0 ;;
          Image_save tab_layer (out </> (lit "tab_" ++ ns ++ lit ".png")) ;;;
          for_each specs (png_variant src ns out tpl_dir)).
Proof.
  unfold Image_save.
  repeat first [apply benign_make_icon_layer | apply benign_write_file
               | apply benign_png_variant | benign_step].
Qed.

Lemma benign_convert_vtf (out : Path) (ns : pystr) (skip : bool) :
  benign (convert_vtf out ns skip).
Proof. unfold convert_vtf, print, Path_exists. repeat benign_step. Qed.

Lemma benign_generate_vmt_files (out : Path) (ns : pystr) :
  benign (generate_vmt_files out ns).
Proof.
  unfold generate_vmt_files, write, Path_write_text.
  repeat first [apply benign_write_file | benign_step].
Qed.

(** *** Creating the output directory *)

Lemma Path_mkdir_trace (p : Path) (w : World) :
  trace (snd (Path_mkdir p w)) = trace w ++ [EvMkdir p].
Proof.
  unfold Path_mkdir, bind, log, stat. simpl.
  by destruct (fs w !! p) as [[| | |]|].
Qed.

Lemma benign_Path_mkdir (p : Path) : benign (Path_mkdir p).
Proof. unfold Path_mkdir. repeat benign_step. Qed.

Lemma Path_mkdir_run (p : Path) (w : World) :
  not_file w p = true ->
  exists w1, Path_mkdir p w = (Ok tt, w1) /\
    trace w1 = trace w ++ [EvMkdir p] /\
    subprocess w1 = subprocess w /\
    (fs w1 = fs w \/ (fs w !! p = None /\ fs w1 = <[p := FDir]> (fs w))).
Proof.
  unfold not_file, Path_mkdir, bind, log, stat. simpl.
  destruct (fs w !! p) as [[| | |]|]; try done; intros _;
    eexists; (split; [reflexivity|]); simpl; auto.
Qed.

Lemma bind_assoc {A B C} (c : M A) (k1 : A -> M B) (k2 : B -> M C) (w : World) :
  bind (bind c k1) k2 w = bind c (fun a => bind (k1 a) k2) w.
Proof. unfold bind. by destruct (c w) as [[a|e] w1]. Qed.

Lemma trace_starts_with {A B} (c : M A) (k : A -> M B) (ev : Event) (w : World) :
  trace (snd (c w)) = trace w ++ [ev] -> (forall a, benign (k a)) ->
  exists evs, trace (snd (bind c k w)) = trace w ++ ev :: evs.
Proof.
  intros Hc Hk. unfold bind. destruct (c w) as [[a|e] w1]; simpl in *.
  - destruct (Hk a w1) as [[evs He] _]. exists evs.
    by rewrite He, Hc, <- app_assoc.
  - by exists [].
Qed.

Lemma make_icon_layer_fail (w : World) (src : pystr)
  (canvas_size blur offset margin : Z) :
  loadable w (Path_of src) = false ->
  exists e, image_load_error e = true /\
    make_icon_layer src canvas_size blur offset margin w =
      (Raise e, record_event (EvOpen (Path_of src)) w).
Proof.
  intros (e & He & Hr)%Image_open_fail. exists e. split; [done|].
  unfold make_icon_layer. by erewrite bind_Raise.
Qed.

Lemma main_validated (script_folder : Path) (args : Args) (w : World) :
  islower (nameshort args) = true ->
  main script_folder args w =
    bind (Path_mkdir (Path_of (out args) </> lit "converted" </> nameshort args))
      (fun _ =>
         bind (tab_layer <- make_icon_layer (image args) 16 0 0 0 ;;
               Image_save tab_layer
                 (Path_of (out args) </> lit "converted" </> nameshort args
                    </> (lit "tab_" ++ nameshort args ++ lit ".png")) ;;;
               for_each specs
                 (png_variant (image args) (nameshort args)
                    (Path_of (out args) </> lit "converted" </> nameshort args)
                    script_folder))
           (fun _ =>
              convert_vtf (Path_of (out args) </> lit "converted" </> nameshort args)
                          (nameshort args) (no_vtf args) ;;;
              generate_vmt_files
                (Path_of (out args) </> lit "converted" </> nameshort args)
                (nameshort args))) w.
Proof.
  intros Hl. unfold main. rewrite Hl. simpl.
  unfold create_png_set. rewrite (bind_Ok (ret tt) _ w w tt eq_refl).
  by rewrite bind_assoc.
Qed.

(** C6: a nameshort that is not all-lowercase ends the run with the
    error message and a non-zero status before any call to the
    outside: the trace and the file system are the ones the run
    started with.  An all-lowercase nameshort passes: the run goes on
    to create the output directory, and never ends with that exit. *)
Theorem lowercase_validation (script_folder : Path) (args : Args) (w : World) :
  (~ all_lowercase (nameshort args) ->
   main script_folder args w =
     (Raise (SystemExit (lit "Error: nameshort must be lowercase")), w) /\
   exit_status (fst (main script_folder args w)) <> 0 /\
   stderr_message (fst (main script_folder args w)) =
     Some (lit "Error: nameshort must be lowercase")) /\
  (all_lowercase (nameshort args) ->
   (exists evs,
      trace (snd (main script_folder args w)) =
        trace w ++
        EvMkdir (Path_of (out args) </> lit "converted" </> nameshort args)
          :: evs) /\
   forall msg, fst (main script_folder args w) <> Raise (SystemExit msg)).
Proof.
  split.
  - intros Hn. assert (islower (nameshort args) = false) as Hl.
    { destruct (islower (nameshort args)) eqn:E; [|done].
      by apply islower_all_lowercase in E. }
    assert (main script_folder args w =
              (Raise (SystemExit (lit "Error: nameshort must be lowercase")), w))
      as ->; [|done].
    unfold main. by rewrite Hl.
  - intros Hl%islower_all_lowercase. rewrite main_validated by done.
    assert (forall a : unit, benign
      ((fun _ =>
         bind (tab_layer <- make_icon_layer (image args) 16 0 0 0 ;;
               Image_save tab_layer
                 (Path_of (out args) </> lit "converted" </> nameshort args
                    </> (lit "tab_" ++ nameshort args ++ lit ".png")) ;;;
               for_each specs
                 (png_variant (image args) (nameshort args)
                    (Path_of (out args) </> lit "converted" </> nameshort args)
                    script_folder))
           (fun _ =>
              convert_vtf (Path_of (out args) </> lit "converted" </> nameshort args)
                          (nameshort args) (no_vtf args) ;;;
              generate_vmt_files
                (Path_of (out args) </> lit "converted" </> nameshort args)
                (nameshort args))) a)) as Hk.
    { intros _. apply benign_bind; [apply benign_after_mkdir|].
      intros _. apply benign_bind; [apply benign_convert_vtf|].
      intros _. apply benign_generate_vmt_files. }
    split.
    + apply trace_starts_with; [apply Path_mkdir_trace | done].
    + apply (benign_bind _ _ (benign_Path_mkdir _) Hk w).
Qed.

(** C10: the validation is [str.islower]: it accepts exactly the
    strings with at least one cased character whose cased characters
    are all lowercase.  So ["123"], which has no cased character, is
    turned down with the lowercase error and status 1, and ["foo2"]
    is accepted. *)
Theorem validation_is_islower :
  (forall s, islower s = true <-> all_lowercase s) /\
  islower (lit "123") = false /\
  (forall script_folder image nameraw out no_vtf w,
     main script_folder (mkArgs image nameraw (lit "123") out no_vtf) w =
       (Raise (SystemExit (lit "Error: nameshort must be lowercase")), w) /\
     exit_status
       (fst (main script_folder (mkArgs image nameraw (lit "123") out no_vtf) w))
       = 1) /\
  islower (lit "foo2") = true /\
  (forall script_folder image nameraw out no_vtf w msg,
     fst (main script_folder (mkArgs image nameraw (lit "foo2") out no_vtf) w)
       <> Raise (SystemExit msg)).
Proof.
  split; [apply islower_all_lowercase|].
  split; [done|]. split; [done|]. split; [done|].
  intros. rewrite main_validated by done.
  apply benign_bind; [apply benign_Path_mkdir|].
  intros _. apply benign_bind; [apply benign_after_mkdir|].
  intros _. apply benign_bind; [apply benign_convert_vtf|].
  intros _. apply benign_generate_vmt_files.
Qed.

(** C7: when the source image is missing or does not load, the run
    (past the validation, the output directory being creatable) ends
    with the image-load failure raised by the first [Image.open]: its
    only calls to the outside are the [mkdir] and that [open], so no
    PNG is saved and no descriptor is written, and the file system
    holds no file it did not hold before. *)
Theorem unreadable_source_aborts (script_folder : Path) (args : Args)
  (w : World) :
  islower (nameshort args) = true ->
  not_file w (Path_of (out args) </> lit "converted" </> nameshort args) = true ->
  loadable w (Path_of (image args)) = false ->
  exists e w',
    main script_folder args w = (Raise e, w') /\
    image_load_error e = true /\
    trace w' = trace w ++
      [EvMkdir (Path_of (out args) </> lit "converted" </> nameshort args);
       EvOpen (Path_of (image args))] /\
    saved_pngs (trace w') = saved_pngs (trace w) /\
    written_texts (trace w') = written_texts (trace w) /\
    (forall p, fs w' !! p = fs w !! p \/ fs w' !! p = Some FDir).
Proof.
  intros Hl Hd Hs. rewrite main_validated by done.
  destruct (Path_mkdir_run _ _ Hd) as (w1 & Hm & Ht & _ & Hfs).
  rewrite (bind_Ok _ _ _ _ _ Hm).
  assert (forall p, fs w1 !! p = fs w !! p \/ fs w1 !! p = Some FDir) as Hsame.
  { intros p. destruct Hfs as [->|[_ ->]]; [by left|].
    rewrite lookup_insert. case_decide; auto. }
  assert (loadable w1 (Path_of (image args)) = false) as Hs1.
  { unfold loadable in *. by destruct (Hsame (Path_of (image args))) as [->| ->]. }
  destruct (make_icon_layer_fail w1 (image args) 16 0 0 0 Hs1) as (e & He & Hr).
  exists e, (record_event (EvOpen (Path_of (image args))) w1).
  split.
  { erewrite bind_Raise; [done|]. by erewrite bind_Raise. }
  split; [done|]. simpl. rewrite Ht, <- app_assoc. split; [done|].
  unfold saved_pngs, written_texts. rewrite !omap_app. simpl.
  rewrite !app_nil_r. done.
Qed.

(** *** Paths *)

Lemma split_not_nil (s : pystr) : split s <> [].
Proof.
  destruct s as [|c s]; simpl; [done|].
  destruct (N.eqb c slash); [done|]. by destruct (split s).
Qed.

Lemma split_cons (c : N) (s : pystr) :
  c <> slash ->
  split (c :: s) = (c :: hd [] (split s)) :: tl (split s).
Proof.
  intros Hc. simpl. destruct (N.eqb_spec c slash); [done|].
  pose proof (split_not_nil s). by destruct (split s).
Qed.

(** Appending text without a slash extends the last component. *)
Lemma split_app (s t : pystr) :
  Forall (fun c => c <> slash) t ->
  split (s ++ t) = removelast (split s) ++ [List.last (split s) [] ++ t].
Proof.
  intros Ht. induction s as [|c s IH]; simpl.
  - induction Ht as [|c t Hc Ht IHt]; simpl; [done|].
    destruct (N.eqb_spec c slash); [done|]. by rewrite IHt.
  - destruct (N.eqb c slash).
    + rewrite IH. pose proof (split_not_nil s). by destruct (split s).
    + rewrite IH. pose proof (split_not_nil s).
      destruct (split s) as [|a [|b l]]; [done|done|]. simpl. done.
Qed.

(** Joining a relative file name that starts with a character other
    than a slash or a dot appends its components, the first of which
    starts with that character. *)
Lemma joinpath_relative (p : Path) (c : N) (s : pystr) :
  c <> slash -> c <> 46%N ->
  p </> (c :: s) =
    p ++ (c :: hd [] (split s)) :: List.filter is_name (tl (split s)).
Proof.
  intros Hc Hd. unfold joinpath, Path_of.
  destruct (N.eqb_spec c slash); [done|].
  rewrite split_cons by done. simpl.
  assert (is_name (c :: hd [] (split s)) = true) as ->.
  { unfold is_name. rewrite bool_decide_eq_false_2 by done.
    rewrite bool_decide_eq_false_2; [done|]. intros [= -> _]. done. }
  simpl. rewrite bool_decide_eq_false_2; [done|]. intros [= -> _]. done.
Qed.

Lemma is_name_app (l t : pystr) :
  (2 <= length t)%nat -> is_name (l ++ t) = true.
Proof.
  intros Ht. unfold is_name.
  rewrite bool_decide_eq_false_2, bool_decide_eq_false_2; [done|..];
    intros H%(f_equal length); rewrite length_app in H; simpl in H; lia.
Qed.

(** Such a name followed by a slash-free ending [t]: the path ends
    with a component that ends with [t], and nothing else depends on
    [t]. *)
Lemma joinpath_shape (p : Path) (c : N) (s : pystr) :
  c <> slash -> c <> 46%N ->
  exists pre l, forall t,
    Forall (fun c => c <> slash) t -> (2 <= length t)%nat ->
    p </> ((c :: s) ++ t) = pre ++ [l ++ t].
Proof.
  intros Hc Hd. pose proof (split_not_nil s) as Hs.
  destruct (split s) as [|a [|b rest]] eqn:E; [done|..].
  - exists p, (c :: a). intros t Ht Lt. simpl.
    rewrite joinpath_relative, split_app, E by done. done.
  - exists (p ++ (c :: a) :: List.filter is_name (removelast (b :: rest))),
           (List.last (b :: rest) []).
    intros t Ht Lt. simpl ((c :: s) ++ t).
    rewrite joinpath_relative, split_app, E by done.
    change (removelast (a :: b :: rest)) with (a :: removelast (b :: rest)).
    change (List.last (a :: b :: rest) []) with (List.last (b :: rest) []).
    simpl hd. simpl tl. rewrite List.filter_app. simpl List.filter.
    rewrite is_name_app by done. by rewrite <- app_assoc.
Qed.

Lemma joinpath_endings (p : Path) (c : N) (s t1 t2 : pystr) :
  c <> slash -> c <> 46%N ->
  Forall (fun c => c <> slash) t1 -> Forall (fun c => c <> slash) t2 ->
  (2 <= length t1)%nat -> (2 <= length t2)%nat -> t1 <> t2 ->
  p </> ((c :: s) ++ t1) <> p </> ((c :: s) ++ t2).
Proof.
  intros Hc Hd H1 H2 L1 L2 Hne.
  destruct (joinpath_shape p c s Hc Hd) as (pre & l & H).
  rewrite !H by done. intros E%app_inv_head. injection E as E.
  by apply app_inv_head in E.
Qed.

Lemma joinpath_first_char (p : Path) (c1 c2 : N) (s1 s2 : pystr) :
  c1 <> slash -> c1 <> 46%N -> c2 <> slash -> c2 <> 46%N -> c1 <> c2 ->
  p </> (c1 :: s1) <> p </> (c2 :: s2).
Proof.
  intros. rewrite !joinpath_relative by done.
  intros E%app_inv_head. by injection E.
Qed.

(** *** Descriptors *)

Lemma Path_write_text_run (w : World) (p : Path) (s : pystr) :
  not_dir w p = true ->
  Path_write_text p s w =
    (Ok tt, put p (FText s) (record_event (EvWriteText p s) w)).
Proof.
  intros Hd. unfold Path_write_text, bind, log. by rewrite write_file_run.
Qed.

Lemma not_dir_put (w : World) (p q : Path) (f : File) :
  f <> FDir -> not_dir w q = true -> not_dir (put p f w) q = true.
Proof.
  unfold not_dir, put. simpl. intros Hf Hq. rewrite lookup_insert.
  case_decide; [by destruct f | done].
Qed.

Lemma not_dir_record (w : World) (ev : Event) (q : Path) :
  not_dir (record_event ev w) q = not_dir w q.
Proof. done. Qed.

(** The three writes of the descriptor emitter. *)
Lemma generate_vmt_files_run (out : Path) (ns : pystr) (w : World) :
  not_dir w (out </> (lit "sprite_" ++ ns ++ lit ".vmt")) = true ->
  not_dir w (out </> (lit "sprite_" ++ ns ++ lit "_noz.vmt")) = true ->
  not_dir w (out </> (lit "icon_" ++ ns ++ lit ".vmt")) = true ->
  generate_vmt_files out ns w =
    (Ok tt,
     put (out </> (lit "icon_" ++ ns ++ lit ".vmt"))
       (FText (join nl (vmt_lines (lit "vgui/ttt/roles/" ++ ns)
                                  (lit "icon_" ++ ns) false) ++ nl))
       (record_event
          (EvWriteText (out </> (lit "icon_" ++ ns ++ lit ".vmt"))
             (join nl (vmt_lines (lit "vgui/ttt/roles/" ++ ns)
                                 (lit "icon_" ++ ns) false) ++ nl))
       (put (out </> (lit "sprite_" ++ ns ++ lit "_noz.vmt"))
          (FText (join nl (vmt_lines (lit "vgui/ttt/roles/" ++ ns)
                                     (lit "sprite_" ++ ns) true) ++ nl))
       (record_event
          (EvWriteText (out </> (lit "sprite_" ++ ns ++ lit "_noz.vmt"))
             (join nl (vmt_lines (lit "vgui/ttt/roles/" ++ ns)
                                 (lit "sprite_" ++ ns) true) ++ nl))
       (put (out </> (lit "sprite_" ++ ns ++ lit ".vmt"))
          (FText (join nl (vmt_lines (lit "vgui/ttt/roles/" ++ ns)
                                     (lit "sprite_" ++ ns) false) ++ nl))
       (record_event
          (EvWriteText (out </> (lit "sprite_" ++ ns ++ lit ".vmt"))
             (join nl (vmt_lines (lit "vgui/ttt/roles/" ++ ns)
                                 (lit "sprite_" ++ ns) false) ++ nl))
          w)))))).
Proof.
  intros Hs Hn Hi. unfold generate_vmt_files, write.
  erewrite bind_Ok by (by apply Path_write_text_run).
  erewrite bind_Ok.
  2:{ apply Path_write_text_run. by apply not_dir_put. }
  apply Path_write_text_run. repeat (apply not_dir_put; [done|]). done.
Qed.

(** The three descriptor paths are three different paths. *)
Lemma vmt_paths_distinct (out : Path) (ns : pystr) :
  out </> (lit "sprite_" ++ ns ++ lit ".vmt")
    <> out </> (lit "sprite_" ++ ns ++ lit "_noz.vmt") /\
  out </> (lit "sprite_" ++ ns ++ lit ".vmt")
    <> out </> (lit "icon_" ++ ns ++ lit ".vmt") /\
  out </> (lit "sprite_" ++ ns ++ lit "_noz.vmt")
    <> out </> (lit "icon_" ++ ns ++ lit ".vmt").
Proof.
  split; [|split].
  - replace (lit "sprite_" ++ ns ++ lit ".vmt")
      with ((115%N :: lit "prite_" ++ ns) ++ lit ".vmt")
      by reflexivity.
    replace (lit "sprite_" ++ ns ++ lit "_noz.vmt")
      with ((115%N :: lit "prite_" ++ ns) ++ lit "_noz.vmt")
      by reflexivity.
    apply joinpath_endings; try done; try (simpl; lia);
      repeat (constructor; [done|]); constructor.
  - by apply joinpath_first_char.
  - by apply joinpath_first_char.
Qed.




Lemma Path_write_text_inv (w w' : World) (p : Path) (s : pystr) :
  Path_write_text p s w = (Ok tt, w') ->
  not_dir w p = true /\
  w' = put p (FText s) (record_event (EvWriteText p s) w).
Proof.
  unfold Path_write_text, bind, log. intros H. by apply write_file_inv in H.
Qed.

(** A call of the descriptor emitter that returned found no directory
    at any of the three paths. *)
Lemma generate_vmt_files_inv (out : Path) (ns : pystr) (w w' : World) :
  generate_vmt_files out ns w = (Ok tt, w') ->
  not_dir w (out </> (lit "sprite_" ++ ns ++ lit ".vmt")) = true /\
  not_dir w (out </> (lit "sprite_" ++ ns ++ lit "_noz.vmt")) = true /\
  not_dir w (out </> (lit "icon_" ++ ns ++ lit ".vmt")) = true.
Proof.
  destruct (vmt_paths_distinct out ns) as (D1 & D2 & D3).
  unfold generate_vmt_files, write. intros H.
  apply bind_Ok_inv in H as ([] & w1 & H1 & H).
  apply bind_Ok_inv in H as ([] & w2 & H2 & H3).
  apply Path_write_text_inv in H1 as [N1 ->].
  apply Path_write_text_inv in H2 as [N2 ->].
  apply Path_write_text_inv in H3 as [N3 _].
  unfold not_dir in *. cbn [fs put record_event] in *.
  rewrite !lookup_insert_ne in N3 by done.
  rewrite lookup_insert_ne in N2 by done. done.
Qed.


(** *** The converter *)

Lemma add_events_record (ev : Event) (evs : list Event) (w : World) :
  record_event ev (add_events evs w) = add_events (evs ++ [ev]) w.
Proof. unfold record_event, add_events. simpl. by rewrite <- app_assoc. Qed.

Lemma add_events_add (evs1 evs2 : list Event) (w : World) :
  add_events evs2 (add_events evs1 w) = add_events (evs1 ++ evs2) w.
Proof. unfold add_events. simpl. by rewrite <- app_assoc. Qed.

Lemma record_event_add (ev : Event) (w : World) :
  record_event ev w = add_events [ev] w.
Proof. done. Qed.

Lemma print_run (s : pystr) (w : World) :
  print s w = (Ok tt, record_event (EvPrint s) w).
Proof. done. Qed.

Lemma subprocess_run_spec (argv : list pystr) (w : World) :
  subprocess_run argv w =
    match subprocess w argv with
    | Exited 0 => (Ok tt, record_event (EvRun argv) w)
    | Exited rc => (Raise (CalledProcessError rc), record_event (EvRun argv) w)
    | NotStarted => (Raise (OSError argv), record_event (EvRun argv) w)
    end.
Proof.
  unfold subprocess_run, bind, log. cbv beta iota.
  change (subprocess (record_event (EvRun argv) w)) with (subprocess w).
  by destruct (subprocess w argv) as [[| |]|].
Qed.

(** One conversion whose process starts returns, whatever the exit
    code. *)
Lemma convert_one_run (w : World) (out : Path) (name : pystr) :
  subprocess w (converter_argv out name) <> NotStarted ->
  try_except_CalledProcessError
    (print (rightwards_arrow ++ lit " Converting "
              ++ Path_name (out </> (name ++ lit ".png"))
              ++ lit " " ++ ellipsis) ;;;
     subprocess_run [Path_str VTF_CMD; lit "-file";
                     Path_str (out </> (name ++ lit ".png"));
                     lit "-output"; Path_str out])
    (fun returncode =>
       print (warning_sign ++ lit "  VTFCmd failed on "
                ++ Path_name (out </> (name ++ lit ".png")) ++ lit ": exit "
                ++ lit (pretty returncode))) w =
    (Ok tt, add_events (conversion_events w out name) w).
Proof.
  intros Hs. unfold try_except_CalledProcessError.
  rewrite (bind_Ok _ _ _ _ _ (print_run _ w)), subprocess_run_spec.
  change (subprocess (record_event ?ev w)) with (subprocess w).
  fold (converter_argv out name). unfold conversion_events.
  destruct (subprocess w (converter_argv out name)) as [[|rc|rc]|];
    [| | |done]; cbv beta iota; rewrite ?print_run;
    unfold record_event, add_events; cbn [fs subprocess trace];
    by rewrite <- ?app_assoc.
Qed.

(** C8, as amended: the converter invoker returns without raising
    when asked to skip (it prints the skip notice and does nothing
    else), when the converter executable is absent (it prints the
    warning and launches nothing), and when each of the two converter
    processes starts: then it handles the sprite PNG and the icon PNG
    in this order, a non-zero exit of either being reported by a
    warning, and leaves the file system as it was. *)
Theorem convert_vtf_degrades (out : Path) (ns : pystr) (skip : bool)
  (w : World) :
  (skip = true ->
   convert_vtf out ns skip w =
     (Ok tt,
      add_events [EvPrint (en_dash ++ lit " Skipping VTF conversion.")] w)) /\
  (skip = false -> fs w !! VTF_CMD = None ->
   convert_vtf out ns skip w =
     (Ok tt,
      add_events
        [EvExists VTF_CMD;
         EvPrint (warning_sign ++ lit "  VTFCmd.exe not found at "
                    ++ VTF_CMD_repr ++ lit "; skipping.")] w)) /\
  (skip = false -> is_Some (fs w !! VTF_CMD) ->
   subprocess w (converter_argv out (lit "sprite_" ++ ns)) <> NotStarted ->
   subprocess w (converter_argv out (lit "icon_" ++ ns)) <> NotStarted ->
   convert_vtf out ns skip w =
     (Ok tt,
      add_events
        (EvExists VTF_CMD ::
         conversion_events w out (lit "sprite_" ++ ns) ++
         conversion_events w out (lit "icon_" ++ ns)) w) /\
   launched (conversion_events w out (lit "sprite_" ++ ns) ++
             conversion_events w out (lit "icon_" ++ ns)) =
     [converter_argv out (lit "sprite_" ++ ns);
      converter_argv out (lit "icon_" ++ ns)]).
Proof.
  split; [|split].
  - intros ->. done.
  - intros -> Hf. unfold convert_vtf.
    rewrite (bind_Ok _ _ _ _ _ (Path_exists_run w VTF_CMD)).
    rewrite Hf, bool_decide_eq_false_2 by (by intros [? ?]).
    cbn [negb]. rewrite print_run.
    unfold record_event, add_events; cbn [fs subprocess trace].
    by rewrite <- ?app_assoc.
  - intros -> Hf Hs Hi. split.
    + unfold convert_vtf.
      rewrite (bind_Ok _ _ _ _ _ (Path_exists_run w VTF_CMD)).
      rewrite bool_decide_eq_true_2 by done. cbn [negb].
      unfold for_each. rewrite record_event_add.
      erewrite bind_Ok by (by apply convert_one_run).
      erewrite bind_Ok by (by apply convert_one_run).
      unfold ret. by rewrite !add_events_add.
    + unfold launched. rewrite omap_app. unfold conversion_events.
      rewrite !omap_app.
      destruct (subprocess w (converter_argv out (lit "sprite_" ++ ns)))
        as [[|?|?]|];
      destruct (subprocess w (converter_argv out (lit "icon_" ++ ns)))
        as [[|?|?]|]; done.
Qed.

(** *** What a run reads *)

Lemma reads_ret {A} (allowed : Path -> Prop) (a : A) :
  reads_within allowed (ret a).
Proof. intros w. exists []. simpl. by rewrite app_nil_r. Qed.

Lemma reads_raise {A} (allowed : Path -> Prop) (e : Exn) :
  reads_within allowed (@raise A e).
Proof. intros w. exists []. simpl. by rewrite app_nil_r. Qed.

Lemma reads_bind {A B} (allowed : Path -> Prop) (c : M A) (k : A -> M B) :
  reads_within allowed c -> (forall a, reads_within allowed (k a)) ->
  reads_within allowed (bind c k).
Proof.
  intros Hc Hk w. unfold bind. destruct (Hc w) as (evs & He & Hr).
  destruct (c w) as [[a|e] w1]; simpl in *; [|by eauto].
  destruct (Hk a w1) as (evs' & He' & Hr'). exists (evs ++ evs'). split.
  - by rewrite He', He, app_assoc.
  - unfold read_paths in *. rewrite omap_app. by apply Forall_app.
Qed.

Lemma reads_log (allowed : Path -> Prop) (ev : Event) :
  Forall allowed (read_paths [ev]) -> reads_within allowed (log ev).
Proof. intros Hev w. by exists [ev]. Qed.

Lemma reads_stat (allowed : Path -> Prop) (p : Path) :
  reads_within allowed (stat p).
Proof. intros w. exists []. simpl. by rewrite app_nil_r. Qed.

Lemma reads_store (allowed : Path -> Prop) (p : Path) (f : File) :
  reads_within allowed (store p f).
Proof. intros w. exists []. simpl. by rewrite app_nil_r. Qed.

Lemma reads_for_each {A} (allowed : Path -> Prop) (xs : list A)
  (body : A -> M unit) :
  (forall x, In x xs -> reads_within allowed (body x)) ->
  reads_within allowed (for_each xs body).
Proof.
  induction xs as [|x rest IH]; intros Hb; simpl.
  - apply reads_ret.
  - apply reads_bind; [apply Hb; by left|].
    intros _. apply IH. intros y Hy. apply Hb. by right.
Qed.

Lemma reads_try {A} (allowed : Path -> Prop) (body : M A) (handler : Z -> M A) :
  reads_within allowed body -> (forall rc, reads_within allowed (handler rc)) ->
  reads_within allowed (try_except_CalledProcessError body handler).
Proof.
  intros Hb Hh w. unfold try_except_CalledProcessError.
  destruct (Hb w) as (evs & He & Hr).
  destruct (body w) as [[a|e] w1]; simpl in *; [by eauto|].
  destruct e; simpl; eauto.
  destruct (Hh returncode w1) as (evs' & He' & Hr'). exists (evs ++ evs').
  split.
  - by rewrite He', He, app_assoc.
  - unfold read_paths in *. rewrite omap_app. by apply Forall_app.
Qed.

Lemma reads_subprocess_run (allowed : Path -> Prop) (argv : list pystr) :
  reads_within allowed (subprocess_run argv).
Proof.
  intros w. rewrite subprocess_run_spec. exists [EvRun argv].
  split; [|constructor]. by destruct (subprocess w argv) as [[| |]|].
Qed.

Ltac reads_step :=
  first
    [ apply reads_ret
    | apply reads_raise
    | apply reads_stat
    | apply reads_store
    | apply reads_subprocess_run
    | apply reads_log; unfold read_paths; simpl; repeat constructor; tauto
    | apply reads_bind
    | apply reads_try
    | progress intros
    | match goal with
      | |- reads_within _ (match ?x with _ => _ end) => destruct x
      | |- reads_within _ (if ?x then _ else _) => destruct x
      end ].

Lemma reads_make_icon_layer (allowed : Path -> Prop) (src : pystr)
  (a b c d : Z) :
  allowed (Path_of src) -> reads_within allowed (make_icon_layer src a b c d).
Proof.
  intros Hsrc.
  unfold make_icon_layer, build_shadow, Image_open, Image_new_.
  repeat reads_step.
Qed.

Lemma reads_png_variant (allowed : Path -> Prop) (src ns : pystr)
  (out tpl_dir : Path) (spec : Spec) :
  In spec specs ->
  allowed (Path_of src) ->
  allowed (tpl_dir </> lit "sprite_template.png") ->
  allowed (tpl_dir </> lit "icon_template.png") ->
  reads_within allowed (png_variant src ns out tpl_dir spec).
Proof.
  intros Hin Hsrc Hsprite Hicon.
  assert (forall a b c d, reads_within allowed (make_icon_layer src a b c d))
    as Hlayer by (intros; by apply reads_make_icon_layer).
  unfold specs in Hin. simpl in Hin.
  destruct Hin as [<-|[<-|[<-|[]]]]; unfold png_variant;
    [rewrite bool_decide_eq_true_2 by done
    |rewrite bool_decide_eq_false_2 by done..];
    unfold Path_exists, Image_open, Image_new_, Image_save, write_file;
    repeat first [apply Hlayer | reads_step].
Qed.

(** Every path a run of [main] opens or probes is the source image,
    the sprite or the icon template next to the script, or the
    converter executable. *)
Lemma main_reads (script_folder : Path) (args : Args) :
  reads_within
    (fun p => p = Path_of (image args) \/
              p = script_folder </> lit "sprite_template.png" \/
              p = script_folder </> lit "icon_template.png" \/
              p = VTF_CMD)
    (main script_folder args).
Proof.
  unfold main, sys_exit, create_png_set, convert_vtf, generate_vmt_files,
    write, Path_mkdir, Path_exists, Image_save, Path_write_text, write_file,
    print.
  repeat first
    [ apply reads_make_icon_layer; tauto
    | apply reads_for_each; intros; apply reads_png_variant; tauto
    | apply reads_for_each
    | reads_step ].
Qed.

Lemma app_singleton_ne {A} (p q : list A) (a b : A) :
  a <> b -> p ++ [a] <> q ++ [b].
Proof. intros Hne [_ ?]%app_inj_tail. done. Qed.


(** C4: the score variant opens the source and nothing else, and
    saves a blank transparent 64 by 64 canvas with the icon, fitted
    with no margin, pasted centred and without shadow; this is so in
    every world, whatever the template directory holds.  And no run of
    [main] ever opens or probes [score_template.png] next to the script
    (unless that very file was given as the source image). *)
Theorem score_ignores_template (w : World) (src ns : pystr)
  (out tpl_dir : Path) (im : Image) (dsize blur offset margin : Z)
  (tpl : pystr) :
  In (lit "score", dsize, blur, offset, margin, tpl) specs ->
  fs w !! Path_of src = Some (FImage im) -> decodes im = true ->
  not_dir w (out </> (lit "score_" ++ ns ++ lit ".png")) = true ->
  let png_path := out </> (lit "score_" ++ ns ++ lit ".png") in
  let icon := thumbnail im (64, 64) LANCZOS in
  let layer := icon_only_composite 64 icon in
  let png := paste (filled 64 64 transparent) layer (0, 0) layer in
  png_variant src ns out tpl_dir
              (lit "score", dsize, blur, offset, margin, tpl) w =
    (Ok tt,
     put png_path (FImage png)
       (record_event (EvSave png_path png)
          (record_event (EvOpen (Path_of src)) w))) /\
  (forall script_folder args w0,
     Path_of (image args) <> script_folder </> lit "score_template.png" ->
     exists evs,
       trace (snd (main script_folder args w0)) = trace w0 ++ evs /\
       ~ In (script_folder </> lit "score_template.png") (read_paths evs)).
Proof.
  intros Hin Hf Hd Hp. apply specs_score in Hin as (-> & -> & -> & ->).
  intros png_path icon layer png. split.
  - unfold png_variant. rewrite bool_decide_eq_true_2 by done.
    erewrite bind_Ok.
    2:{ erewrite bind_Ok; [reflexivity|]. by apply Image_new_run. }
    cbv beta iota.
    erewrite bind_Ok by (by apply make_icon_layer_run).
    by apply Image_save_run.
  - intros script_folder args w0 Hsrc.
    destruct (main_reads script_folder args w0) as (evs & Ht & Hr).
    exists evs. split; [done|]. intros Hread.
    rewrite Forall_forall in Hr. apply list_elem_of_In, Hr in Hread.
    change (script_folder </> lit "score_template.png")
      with (script_folder ++ [lit "score_template.png"]) in *.
    change (script_folder </> lit "sprite_template.png")
      with (script_folder ++ [lit "sprite_template.png"]) in *.
    change (script_folder </> lit "icon_template.png")
      with (script_folder ++ [lit "icon_template.png"]) in *.
    destruct Hread as [E|[E|[E|E]]].
    + by destruct Hsrc.
    + by apply app_singleton_ne in E.
    + by apply app_singleton_ne in E.
    + change VTF_CMD with ([] ++ [lit "E:\Garry\Software\vtflib132-bin\bin\x64\VTFCmd.exe"]) in E.
      by apply app_singleton_ne in E.
Qed.

(** *** A whole run *)

Lemma loadable_put_image (w : World) (p q : Path) (png : Image) :
  decodes png = true -> loadable w q = true ->
  loadable (put p (FImage png) w) q = true.
Proof.
  unfold loadable, put. simpl. intros Hd Hq. rewrite lookup_insert.
  by case_decide.
Qed.

Lemma lookup_put_ne (w : World) (p q : Path) (f : File) :
  p <> q -> fs (put p f w) !! q = fs w !! q.
Proof. intros Hne. unfold put. simpl. by rewrite lookup_insert_ne. Qed.

(** The layer compositor on a source that loads returns a layer of
    the size of the canvas. *)
Lemma make_icon_layer_ok (w : World) (src : pystr)
  (canvas_size blur offset margin : Z) :
  loadable w (Path_of src) = true -> 0 <= canvas_size ->
  exists layer,
    make_icon_layer src canvas_size blur offset margin w =
      (Ok layer, record_event (EvOpen (Path_of src)) w) /\
    width layer = canvas_size /\ height layer = canvas_size.
Proof.
  intros (im & Hf & Hd)%loadable_Some Hc. eexists. split.
  - by apply make_icon_layer_run.
  - apply width_composite.
Qed.

(** A variant on a blank canvas: the score variant, or a variant
    whose template file does not exist. *)
Lemma png_variant_blank_run (w : World) (src ns : pystr)
  (out tpl_dir : Path) (variant : pystr) (dsize blur offset margin : Z)
  (tpl : pystr) :
  0 <= dsize ->
  loadable w (Path_of src) = true ->
  not_dir w (out </> (variant ++ lit "_" ++ ns ++ lit ".png")) = true ->
  variant = lit "score" \/
    (variant <> lit "score" /\ fs w !! (tpl_dir </> tpl) = None) ->
  exists png,
    png_variant src ns out tpl_dir
                (variant, dsize, blur, offset, margin, tpl) w =
      (Ok tt,
       put (out </> (variant ++ lit "_" ++ ns ++ lit ".png")) (FImage png)
         (add_events
            ((if bool_decide (variant = lit "score") then []
              else [EvExists (tpl_dir </> tpl)]) ++
             [EvOpen (Path_of src);
              EvSave (out </> (variant ++ lit "_" ++ ns ++ lit ".png")) png])
            w)) /\
    width png = dsize /\ height png = dsize.
Proof.
  intros Hd Hl Hn Hcase.
  assert (exists w0,
            (if bool_decide (variant = lit "score") then
               canvas <- Image_new_ dsize dsize transparent ;;
               ret (canvas, dsize)
             else
               found <- Path_exists (tpl_dir </> tpl) ;;
               if found then
                 canvas <- Image_open (tpl_dir </> tpl) ;;
                 ret (canvas, width canvas)
               else
                 canvas <- Image_new_ dsize dsize transparent ;;
                 ret (canvas, dsize)) w =
              (Ok (filled dsize dsize transparent, dsize), w0) /\
            w0 = add_events
                   (if bool_decide (variant = lit "score") then []
                    else [EvExists (tpl_dir </> tpl)]) w)
    as (w0 & Hcanvas & Hw0).
  { destruct Hcase as [->|[Hv Ht]].
    - rewrite bool_decide_eq_true_2 by done. eexists. split.
      + erewrite bind_Ok; [reflexivity|]. by apply Image_new_run.
      + destruct w. unfold add_events. simpl. by rewrite app_nil_r.
    - rewrite bool_decide_eq_false_2 by done. eexists. split.
      + rewrite (bind_Ok _ _ _ _ _ (Path_exists_run w _)).
        rewrite Ht, bool_decide_eq_false_2 by (by intros [? ?]).
        erewrite bind_Ok; [reflexivity|]. by apply Image_new_run.
      + done. }
  assert (loadable w0 (Path_of src) = true) as Hl0 by (by subst w0).
  destruct (make_icon_layer_ok w0 src dsize blur offset margin Hl0 Hd)
    as (layer & Hlayer & Wl & Hhl).
  eexists. split.
  - unfold png_variant. rewrite (bind_Ok _ _ _ _ _ Hcanvas). cbv beta iota.
    rewrite (bind_Ok _ _ _ _ _ Hlayer).
    rewrite Image_save_run by (by subst w0).
    subst w0. f_equal. unfold put, record_event, add_events.
    cbn [fs subprocess trace]. by rewrite <- !app_assoc.
  - done.
Qed.

Lemma Path_mkdir_ok (p : Path) (w : World) :
  not_file w p = true ->
  exists w1, Path_mkdir p w = (Ok tt, w1) /\
    trace w1 = trace w ++ [EvMkdir p] /\
    subprocess w1 = subprocess w /\
    (forall q, q <> p -> fs w1 !! q = fs w !! q) /\
    (forall q, loadable w q = true -> loadable w1 q = true) /\
    (forall q, q <> p -> not_dir w q = true -> not_dir w1 q = true).
Proof.
  intros Hp. destruct (Path_mkdir_run p w Hp) as (w1 & Hm & Ht & Hs & Hfs).
  exists w1. split; [done|]. split; [done|]. split; [done|].
  unfold loadable, not_dir.
  destruct Hfs as [->|[Hnone ->]]; [done|].
  split; [|split]; intros q.
  - intros Hq. by rewrite lookup_insert_ne.
  - rewrite lookup_insert. case_decide; [|done]. subst q. by rewrite Hnone.
  - intros Hq. by rewrite lookup_insert_ne.
Qed.



(** ** Further properties of the script *)

(** *** The layer *)

Lemma DIV255_scaled (v : Z) : 0 <= v <= 255 -> DIV255 (v * 255) = v.
Proof.
  intros Hv. unfold DIV255. cbv zeta. rewrite !Z.shiftr_div_pow2 by lia.
  change (2 ^ 8) with 256.
  assert ((v * 255 + 128) `div` 256 = if v <=? 128 then v else v - 1) as ->.
  { destruct (Z.leb_spec v 128).
    - symmetry. apply (Z.div_unique _ _ _ (128 - v)); lia.
    - symmetry. apply (Z.div_unique _ _ _ (384 - v)); lia. }
  destruct (Z.leb_spec v 128).
  - symmetry. apply (Z.div_unique _ _ _ 128); lia.
  - symmetry. apply (Z.div_unique _ _ _ 127); lia.
Qed.

(** A mask of 255 replaces the byte, a mask of 0 keeps it. *)
Lemma BLEND_opaque (out inp : Z) : 0 <= inp <= 255 -> BLEND 255 out inp = inp.
Proof.
  intros H. unfold BLEND. replace (out * (255 - 255) + inp * 255)
    with (inp * 255) by lia. by apply DIV255_scaled.
Qed.

Lemma BLEND_clear (out inp : Z) : 0 <= out <= 255 -> BLEND 0 out inp = out.
Proof.
  intros H. unfold BLEND. replace (out * (255 - 0) + inp * 0)
    with (out * 255) by lia. by apply DIV255_scaled.
Qed.

Lemma blend_pixel_opaque (out inp : RGBA) :
  byte_pixel inp -> blend_pixel 255 out inp = inp.
Proof.
  intros (Hr & Hg & Hb & Ha). unfold blend_pixel.
  rewrite !BLEND_opaque by done. by destruct inp.
Qed.

Lemma blend_pixel_clear (out inp : RGBA) :
  byte_pixel out -> blend_pixel 0 out inp = out.
Proof.
  intros (Hr & Hg & Hb & Ha). unfold blend_pixel.
  rewrite !BLEND_clear by done. by destruct out.
Qed.

(** The layer is transparent outside the box of the icon and the box
    of the shadow. *)
Lemma composite_clear_outside (canvas_size blur offset : Z) (icon : Image)
  (i j : Z) :
  covers icon (fst (centred canvas_size icon)) (snd (centred canvas_size icon))
         i j = false ->
  (blur <= 0 \/
   covers icon (fst (centred canvas_size icon) + offset)
               (snd (centred canvas_size icon) + offset) i j = false) ->
  getpixel (if blur >? 0
            then shadowed_composite canvas_size icon blur offset
            else icon_only_composite canvas_size icon) i j = transparent.
Proof.
  intros Hicon Hshadow. destruct (blur >? 0) eqn:Hb.
  - destruct Hshadow as [Hle|Hshadow]; [lia|].
    unfold shadowed_composite, centred in *. simpl in *.
    unfold covers in *. simpl in *. by rewrite Hicon, Hshadow.
  - unfold icon_only_composite, centred in *. simpl in *. by rewrite Hicon.
Qed.

(** An icon that fits the box of the margin, centred, covers no pixel
    outside that box, moved by [d] or not. *)
Lemma covers_within_margin (icon : Image) (canvas_size margin d i j : Z) :
  1 <= width icon <= canvas_size - 2 * margin ->
  1 <= height icon <= canvas_size - 2 * margin ->
  ~ (margin + d <= i < canvas_size - margin + d /\
     margin + d <= j < canvas_size - margin + d) ->
  covers icon (fst (centred canvas_size icon) + d)
              (snd (centred canvas_size icon) + d) i j = false.
Proof.
  intros Hw Hh Hout. unfold covers, centred. cbn [fst snd].
  pose proof (Z.div_mod (canvas_size - width icon) 2 ltac:(lia)).
  pose proof (Z.mod_pos_bound (canvas_size - width icon) 2 ltac:(lia)).
  pose proof (Z.div_mod (canvas_size - height icon) 2 ltac:(lia)).
  pose proof (Z.mod_pos_bound (canvas_size - height icon) 2 ltac:(lia)).
  rewrite !andb_false_iff, !Z.leb_gt, !Z.ltb_ge. lia.
Qed.

(** X1: a layer the compositor returns is a square of the side of the
    canvas and, when the margin leaves a box of at least one pixel, it
    is transparent at every pixel outside the box the margin leaves,
    [margin <= i, j < canvas_size - margin], and, when there is a
    shadow, outside that box moved by the offset as well: the icon and
    its shadow stay inside these boxes however the fitted size is
    rounded. *)
Theorem layer_background_transparent (w w' : World) (src : pystr)
  (canvas_size blur offset margin : Z) (layer : Image) :
  make_icon_layer src canvas_size blur offset margin w = (Ok layer, w') ->
  1 <= canvas_size - 2 * margin ->
  width layer = canvas_size /\ height layer = canvas_size /\
  forall i j,
    ~ (margin <= i < canvas_size - margin /\
       margin <= j < canvas_size - margin) ->
    (blur <= 0 \/
     ~ (margin + offset <= i < canvas_size - margin + offset /\
        margin + offset <= j < canvas_size - margin + offset)) ->
    getpixel layer i j = transparent.
Proof.
  intros Hrun Hbox. pose proof Hrun as Hinv.
  apply make_icon_layer_inv in Hinv as (im & Hf & Hd & Hc).
  rewrite (make_icon_layer_run _ _ _ _ _ _ _ Hf Hd Hc) in Hrun.
  apply (f_equal fst) in Hrun. cbn [fst] in Hrun. injection Hrun as <-.
  split; [apply width_composite|]. split; [apply width_composite|].
  intros i j Hicon Hshadow.
  destruct (fit_icon_bounds im canvas_size margin Hd)
    as [[Hw _] [Hh _]].
  rewrite Z.max_l in Hw, Hh by lia.
  apply composite_clear_outside.
  - pose proof (covers_within_margin (fit_icon im canvas_size margin)
                  canvas_size margin 0 i j Hw Hh) as Hcov.
    rewrite !Z.add_0_r in Hcov. by apply Hcov.
  - destruct Hshadow as [Hle|Hshadow]; [by left|]. right.
    exact (covers_within_margin _ canvas_size margin offset i j Hw Hh Hshadow).
Qed.

(** X2: where the icon has an opaque pixel (alpha 255, bands that are
    bytes), the layer shows that pixel unchanged, with or without a
    shadow beneath it. *)
Theorem opaque_icon_pixel_shows (w w' : World) (src : pystr)
  (canvas_size blur offset margin : Z) (layer : Image) (i j : Z) :
  make_icon_layer src canvas_size blur offset margin w = (Ok layer, w') ->
  exists im,
    fs w !! Path_of src = Some (FImage im) /\
    forall x y,
      centred canvas_size (fit_icon im canvas_size margin) = (x, y) ->
      covers (fit_icon im canvas_size margin) x y i j = true ->
      byte_pixel (getpixel (fit_icon im canvas_size margin) (i - x) (j - y)) ->
      alpha (getpixel (fit_icon im canvas_size margin) (i - x) (j - y)) = 255 ->
      getpixel layer i j =
        getpixel (fit_icon im canvas_size margin) (i - x) (j - y).
Proof.
  intros Hrun. pose proof Hrun as Hinv.
  apply make_icon_layer_inv in Hinv as (im & Hf & Hd & Hc).
  rewrite (make_icon_layer_run _ _ _ _ _ _ _ Hf Hd Hc) in Hrun.
  injection Hrun as <- _. exists im. split; [done|].
  intros x y Hxy Hcov Hbyte Halpha.
  destruct (blur >? 0); unfold shadowed_composite, icon_only_composite;
    rewrite Hxy; simpl; rewrite Hcov, Halpha; by apply blend_pixel_opaque.
Qed.

(** X3: when the margin leaves a box of at least one pixel, the icon
    the compositor pastes keeps the margin on every side of the layer:
    its box lies between [margin] and [canvas_size - margin] in both
    directions. *)
Theorem icon_keeps_margin (w w' : World) (src : pystr)
  (canvas_size blur offset margin : Z) (layer : Image) :
  make_icon_layer src canvas_size blur offset margin w = (Ok layer, w') ->
  1 <= canvas_size - 2 * margin ->
  exists im x y,
    fs w !! Path_of src = Some (FImage im) /\
    centred canvas_size (fit_icon im canvas_size margin) = (x, y) /\
    layer = (if blur >? 0
             then shadowed_composite canvas_size
                    (fit_icon im canvas_size margin) blur offset
             else icon_only_composite canvas_size
                    (fit_icon im canvas_size margin)) /\
    margin <= x /\
    x + width (fit_icon im canvas_size margin) <= canvas_size - margin /\
    margin <= y /\
    y + height (fit_icon im canvas_size margin) <= canvas_size - margin.
Proof.
  intros Hrun Hbox. pose proof Hrun as Hinv.
  apply make_icon_layer_inv in Hinv as (im & Hf & Hd & Hc).
  rewrite (make_icon_layer_run _ _ _ _ _ _ _ Hf Hd Hc) in Hrun.
  injection Hrun as <- _.
  pose proof (fit_icon_bounds im canvas_size margin Hd) as B.
  exists im, ((canvas_size - width (fit_icon im canvas_size margin)) `div` 2),
    ((canvas_size - height (fit_icon im canvas_size margin)) `div` 2).
  split; [done|]. split; [done|]. split; [done|].
  set (iw := width (fit_icon im canvas_size margin)) in *.
  set (ih := height (fit_icon im canvas_size margin)) in *.
  pose proof (Z.div_mod (canvas_size - iw) 2 ltac:(lia)).
  pose proof (Z.mod_pos_bound (canvas_size - iw) 2 ltac:(lia)).
  pose proof (Z.div_mod (canvas_size - ih) 2 ltac:(lia)).
  pose proof (Z.mod_pos_bound (canvas_size - ih) 2 ltac:(lia)).
  lia.
Qed.

(** X4: a source that already fits the box is pasted as it is: it is
    neither enlarged nor resampled. *)
Theorem small_source_untouched (im : Image) (canvas_size margin : Z) :
  width im <= Z.max (canvas_size - 2 * margin) 1 ->
  height im <= Z.max (canvas_size - 2 * margin) 1 ->
  fit_icon im canvas_size margin = im.
Proof.
  intros Hw Hh. unfold fit_icon, thumbnail, preserve_aspect_ratio.
  rewrite !Z.geb_leb.
  destruct (Z.leb_spec (width im) (Z.max (canvas_size - 2 * margin) 1)); [|lia].
  destruct (Z.leb_spec (height im) (Z.max (canvas_size - 2 * margin) 1)); [|lia].
  done.
Qed.

(** X5: a source that does not fit the box is shrunk to fill it: the
    longer side of the icon is exactly the side of the box. *)
Theorem large_source_fills_box (im : Image) (canvas_size margin : Z) :
  decodes im = true ->
  ~ (width im <= Z.max (canvas_size - 2 * margin) 1 /\
     height im <= Z.max (canvas_size - 2 * margin) 1) ->
  Z.max (width (fit_icon im canvas_size margin))
        (height (fit_icon im canvas_size margin))
    = Z.max (canvas_size - 2 * margin) 1.
Proof.
  intros Hd Hbig.
  pose proof (fit_icon_bounds im canvas_size margin Hd) as B.
  apply decodes_positive in Hd as [Hw Hh].
  unfold fit_icon, thumbnail in *.
  set (t := Z.max (canvas_size - 2 * margin) 1) in *.
  destruct (preserve_aspect_ratio im t t) as [[fx fy]|] eqn:Hp.
  - assert (fx = t \/ fy = t) as Hside.
    { unfold preserve_aspect_ratio in Hp.
      destruct ((t >=? width im) && (t >=? height im)); [done|].
      destruct (Qle_bool _ _); injection Hp as <- <-; auto. }
    destruct ((width im =? fx) && (height im =? fy)) eqn:Hsame.
    + apply andb_true_iff in Hsame as [->%Z.eqb_eq ->%Z.eqb_eq]. lia.
    + simpl in *. lia.
  - apply preserve_aspect_ratio_None in Hp. lia.
Qed.

(** *** PNG generation *)

Lemma joinpath_relative_ne_self (p : Path) (c : N) (s : pystr) :
  c <> slash -> c <> 46%N -> p </> (c :: s) <> p.
Proof.
  intros Hc Hd. rewrite joinpath_relative by done.
  intros H%(f_equal length). rewrite length_app in H. simpl in H. lia.
Qed.

Lemma tab_path_ne_out (out : Path) (ns : pystr) :
  out </> (lit "tab_" ++ ns ++ lit ".png") <> out.
Proof. by apply (joinpath_relative_ne_self out 116%N). Qed.

Lemma score_path_ne_out (out : Path) (ns : pystr) :
  out </> (lit "score" ++ lit "_" ++ ns ++ lit ".png") <> out.
Proof. by apply (joinpath_relative_ne_self out 115%N). Qed.

(** After a directory was created, a path that held an image holds the
    same image. *)
Lemma Path_mkdir_keeps_image (p q : Path) (w w1 : World) (im : Image) :
  Path_mkdir p w = (Ok tt, w1) -> fs w !! q = Some (FImage im) ->
  fs w1 !! q = Some (FImage im).
Proof.
  unfold Path_mkdir, bind, log, stat, store. simpl.
  destruct (fs w !! p) as [[| | |]|] eqn:Hp; try done; intros [= <-] Hq;
    simpl; [done|].
  rewrite lookup_insert_ne; [done|]. intros ->. congruence.
Qed.

(** The first three calls of a run of the PNG set builder whose source
    loads. *)
Lemma create_png_set_tab_run (w : World) (src ns : pystr)
  (out tpl_dir : Path) (im : Image) :
  not_file w out = true ->
  fs w !! Path_of src = Some (FImage im) -> decodes im = true ->
  not_dir w (out </> (lit "tab_" ++ ns ++ lit ".png")) = true ->
  exists w1,
    Path_mkdir out w = (Ok tt, w1) /\
    create_png_set src ns out tpl_dir w =
      for_each specs (png_variant src ns out tpl_dir)
        (put (out </> (lit "tab_" ++ ns ++ lit ".png"))
           (FImage (icon_only_composite 16 (fit_icon im 16 0)))
           (record_event
              (EvSave (out </> (lit "tab_" ++ ns ++ lit ".png"))
                      (icon_only_composite 16 (fit_icon im 16 0)))
              (record_event (EvOpen (Path_of src)) w1))).
Proof.
  intros Hout Hf Hd Hnd.
  destruct (Path_mkdir_ok out w Hout) as (w1 & Hm & Ht1 & _ & _ & _ & Hnd1).
  exists w1. split; [done|]. unfold create_png_set.
  rewrite (bind_Ok _ _ _ _ _ Hm).
  pose proof (Path_mkdir_keeps_image _ _ _ _ _ Hm Hf) as Hf1.
  rewrite (bind_Ok _ _ _ _ _
             (make_icon_layer_run w1 src im 16 0 0 0 Hf1 Hd ltac:(lia))).
  change (0 >? 0) with false. cbv iota.
  erewrite bind_Ok; [reflexivity|].
  apply Image_save_run. rewrite not_dir_record.
  apply Hnd1; [apply tab_path_ne_out | done].
Qed.

(** X6: the tab icon is the bare layer: once the output directory is
    there, a run whose source loads opens the source and saves, as
    [tab_<ns>.png], the 16 by 16 layer with the icon fitted without
    margin and pasted centred, with no shadow and no canvas or template
    step; whatever happens afterwards comes after these calls. *)
Theorem tab_is_bare_layer (w : World) (src ns : pystr) (out tpl_dir : Path)
  (im : Image) :
  not_file w out = true ->
  fs w !! Path_of src = Some (FImage im) -> decodes im = true ->
  not_dir w (out </> (lit "tab_" ++ ns ++ lit ".png")) = true ->
  exists evs,
    trace (snd (create_png_set src ns out tpl_dir w)) =
      trace w ++
      [EvMkdir out; EvOpen (Path_of src);
       EvSave (out </> (lit "tab_" ++ ns ++ lit ".png"))
              (icon_only_composite 16 (thumbnail im (16, 16) LANCZOS))] ++ evs /\
    width (icon_only_composite 16 (thumbnail im (16, 16) LANCZOS)) = 16 /\
    height (icon_only_composite 16 (thumbnail im (16, 16) LANCZOS)) = 16.
Proof.
  intros Hout Hf Hd Hnd.
  destruct (create_png_set_tab_run w src ns out tpl_dir im Hout Hf Hd Hnd)
    as (w1 & Hm & ->).
  pose proof (Path_mkdir_trace out w) as Ht1. rewrite Hm in Ht1. simpl in Ht1.
  match goal with
  | |- context [for_each specs ?body ?w2] =>
      destruct (benign_for_each specs body
                  (fun spec => benign_png_variant src ns out tpl_dir spec) w2)
        as [[evs Hevs] _]
  end.
  exists evs. split; [|done]. rewrite Hevs.
  cbn [trace put record_event]. rewrite Ht1, <- !app_assoc. done.
Qed.

(** X7: when the output directory path is taken by a regular file, a
    run that passed the validation ends with [FileExistsError] at the
    [mkdir]: the source is not opened and nothing is written. *)
Theorem mkdir_conflict_aborts (script_folder : Path) (args : Args)
  (w : World) :
  islower (nameshort args) = true ->
  not_file w (Path_of (out args) </> lit "converted" </> nameshort args)
    = false ->
  main script_folder args w =
    (Raise (FileExistsError
              (Path_of (out args) </> lit "converted" </> nameshort args)),
     record_event
       (EvMkdir (Path_of (out args) </> lit "converted" </> nameshort args))
       w).
Proof.
  intros Hl Hfile. rewrite main_validated by done.
  erewrite bind_Raise; [reflexivity|].
  unfold not_file in Hfile. unfold Path_mkdir, bind, log, stat. simpl.
  by destruct (fs w !! _) as [[| | |]|].
Qed.

(** X8: PNG generation is not all-or-nothing.  When the sprite template
    exists and does not load (it is no image, or a directory), the run
    has saved the tab and the score PNG, of 16 by 16 and 64 by 64, when
    it ends with the image-load failure; the sprite and the icon PNG
    are not saved. *)
Theorem broken_sprite_template_partial_output (w : World) (src ns : pystr)
  (out tpl_dir : Path) (im : Image) :
  not_file w out = true ->
  fs w !! Path_of src = Some (FImage im) -> decodes im = true ->
  not_dir w (out </> (lit "tab_" ++ ns ++ lit ".png")) = true ->
  not_dir w (out </> (lit "score" ++ lit "_" ++ ns ++ lit ".png")) = true ->
  is_Some (fs w !! (tpl_dir </> lit "sprite_template.png")) ->
  loadable w (tpl_dir </> lit "sprite_template.png") = false ->
  tpl_dir </> lit "sprite_template.png" <> out ->
  tpl_dir </> lit "sprite_template.png"
    <> out </> (lit "tab_" ++ ns ++ lit ".png") ->
  tpl_dir </> lit "sprite_template.png"
    <> out </> (lit "score" ++ lit "_" ++ ns ++ lit ".png") ->
  exists e w' evs,
    create_png_set src ns out tpl_dir w = (Raise e, w') /\
    image_load_error e = true /\
    trace w' = trace w ++ evs /\
    saved_pngs evs =
      [(out </> (lit "tab_" ++ ns ++ lit ".png"), (16, 16));
       (out </> (lit "score" ++ lit "_" ++ ns ++ lit ".png"), (64, 64))] /\
    read_paths evs =
      [Path_of src; Path_of src;
       tpl_dir </> lit "sprite_template.png";
       tpl_dir </> lit "sprite_template.png"].
Proof.
  intros Hout Hf Hd Ntab Nscore Htpl Hbad Hne_out Hne_tab Hne_score.
  destruct (create_png_set_tab_run w src ns out tpl_dir im Hout Hf Hd Ntab)
    as (w1 & Hm & ->).
  destruct (Path_mkdir_ok out w Hout) as (w1' & Hm' & Ht1 & _ & Hfs1 & Hl1 & Hnd1).
  rewrite Hm in Hm'. injection Hm' as <-.
  set (tab_png := icon_only_composite 16 (fit_icon im 16 0)).
  set (w2 := put _ (FImage tab_png) _).
  assert (loadable w (Path_of src) = true) as Hl by (apply loadable_Some; eauto).
  assert (loadable w2 (Path_of src) = true) as L2.
  { apply loadable_put_image; [done | by apply Hl1]. }
  assert (not_dir w2 (out </> (lit "score" ++ lit "_" ++ ns ++ lit ".png")) = true)
    as N2.
  { unfold w2. apply not_dir_put; [done|]. rewrite !not_dir_record.
    apply Hnd1; [apply score_path_ne_out | done]. }
  destruct (png_variant_blank_run w2 src ns out tpl_dir (lit "score") 64 0 0 0
              (lit "score_template.png") ltac:(lia) L2 N2 (or_introl eq_refl))
    as (score_png & Hscore & Wsc & Hsc).
  rewrite bool_decide_eq_true_2 in Hscore by done.
  set (w3 := put _ (FImage score_png) _) in Hscore.
  assert (fs w3 !! (tpl_dir </> lit "sprite_template.png")
          = fs w !! (tpl_dir </> lit "sprite_template.png")) as Hsame.
  { unfold w3, w2. rewrite lookup_put_ne by done. cbn [fs add_events].
    rewrite lookup_put_ne by done. cbn [fs record_event]. by apply Hfs1. }
  assert (loadable (record_event (EvExists (tpl_dir </> lit "sprite_template.png")) w3)
            (tpl_dir </> lit "sprite_template.png") = false) as Hbad3.
  { unfold loadable in *. cbn [fs record_event]. by rewrite Hsame. }
  destruct (Image_open_fail _ _ Hbad3) as (e & He & Hopen).
  eexists e, _, _. split.
  { unfold for_each, specs. rewrite (bind_Ok _ _ _ _ _ Hscore).
    erewrite bind_Raise; [reflexivity|].
    unfold png_variant. rewrite bool_decide_eq_false_2 by done.
    erewrite bind_Raise; [reflexivity|].
    rewrite (bind_Ok _ _ _ _ _ (Path_exists_run w3 _)).
    rewrite Hsame, bool_decide_eq_true_2 by done.
    erewrite bind_Raise; [reflexivity|]. exact Hopen. }
  split; [done|]. split.
  { unfold w3, w2. cbn [trace put record_event add_events].
    rewrite Ht1, <- !app_assoc. reflexivity. }
  split; [|done].
  simpl. by rewrite Wsc, Hsc.
Qed.

(** *** Descriptors, again *)

(** X9: the descriptor emitter overwrites and is idempotent: a call
    that returns leaves the three descriptors at the three paths,
    whatever they held, and touches no other path; a second call then
    returns as well and leaves the file system as the first call left
    it. *)
Theorem descriptors_overwrite_idempotent (out : Path) (ns : pystr)
  (w w1 : World) :
  generate_vmt_files out ns w = (Ok tt, w1) ->
  (forall p,
     p <> out </> (lit "sprite_" ++ ns ++ lit ".vmt") ->
     p <> out </> (lit "sprite_" ++ ns ++ lit "_noz.vmt") ->
     p <> out </> (lit "icon_" ++ ns ++ lit ".vmt") ->
     fs w1 !! p = fs w !! p) /\
  Forall (fun p => exists text, fs w1 !! p = Some (FText text))
    [out </> (lit "sprite_" ++ ns ++ lit ".vmt");
     out </> (lit "sprite_" ++ ns ++ lit "_noz.vmt");
     out </> (lit "icon_" ++ ns ++ lit ".vmt")] /\
  exists w2,
    generate_vmt_files out ns w1 = (Ok tt, w2) /\ fs w2 = fs w1.
Proof.
  intros Hrun.
  destruct (vmt_paths_distinct out ns) as (D1 & D2 & D3).
  destruct (generate_vmt_files_inv out ns w w1 Hrun) as (Hs & Hn & Hi).
  rewrite (generate_vmt_files_run out ns w Hs Hn Hi) in Hrun.
  apply (f_equal snd) in Hrun. cbn [snd] in Hrun. subst w1.
  split; [|split].
  - intros p P1 P2 P3. cbn [fs put record_event].
    by rewrite !lookup_insert_ne.
  - cbn [fs put record_event].
    apply Forall_cons. split.
    { eexists. by rewrite !lookup_insert_ne, lookup_insert_eq by done. }
    apply Forall_cons. split.
    { eexists. by rewrite lookup_insert_ne, lookup_insert_eq by done. }
    apply Forall_cons. split; [|constructor].
    eexists. by rewrite lookup_insert_eq.
  - eexists. split.
    + apply generate_vmt_files_run;
        repeat first [apply not_dir_put; [done|] | rewrite not_dir_record];
        done.
    + cbn [fs put record_event]. apply map_eq. intros q.
      rewrite !lookup_insert. repeat case_decide; done.
Qed.

(** X10: the emitter is not transactional: when the path of the second
    descriptor is a directory, the call ends with [IsADirectoryError]
    after the first descriptor was written; the icon descriptor is
    neither attempted nor written. *)
Theorem descriptors_stop_at_directory (out : Path) (ns : pystr) (w : World) :
  not_dir w (out </> (lit "sprite_" ++ ns ++ lit ".vmt")) = true ->
  not_dir w (out </> (lit "sprite_" ++ ns ++ lit "_noz.vmt")) = false ->
  exists w',
    generate_vmt_files out ns w =
      (Raise (IsADirectoryError (out </> (lit "sprite_" ++ ns ++ lit "_noz.vmt"))),
       w') /\
    map fst (written_texts (trace w')) =
      map fst (written_texts (trace w)) ++
      [out </> (lit "sprite_" ++ ns ++ lit ".vmt");
       out </> (lit "sprite_" ++ ns ++ lit "_noz.vmt")] /\
    is_Some (fs w' !! (out </> (lit "sprite_" ++ ns ++ lit ".vmt"))) /\
    fs w' !! (out </> (lit "sprite_" ++ ns ++ lit "_noz.vmt")) = Some FDir /\
    fs w' !! (out </> (lit "icon_" ++ ns ++ lit ".vmt"))
      = fs w !! (out </> (lit "icon_" ++ ns ++ lit ".vmt")).
Proof.
  intros Hs Hn. destruct (vmt_paths_distinct out ns) as (D1 & D2 & D3).
  assert (fs w !! (out </> (lit "sprite_" ++ ns ++ lit "_noz.vmt")) = Some FDir)
    as Hdir.
  { unfold not_dir in Hn. by destruct (fs w !! _) as [[| | |]|]. }
  eexists. split.
  { unfold generate_vmt_files, write.
    erewrite bind_Ok by (by apply Path_write_text_run).
    erewrite bind_Raise; [reflexivity|].
    unfold Path_write_text. erewrite bind_Ok by reflexivity.
    unfold write_file, bind, stat. cbn [fs put record_event].
    rewrite lookup_insert_ne by done. rewrite Hdir. reflexivity. }
  cbn [trace fs put record_event]. split.
  { unfold written_texts. rewrite !omap_app, !map_app, <- app_assoc. done. }
  split; [rewrite lookup_insert_eq; eauto|].
  split; [by rewrite lookup_insert_ne|]. by rewrite lookup_insert_ne.
Qed.

(** *** The converter, again *)

(** One conversion, whatever the process does: it adds its calls to the
    trace, changes nothing else, and raises only when the process
    cannot be started. *)
Lemma convert_one_cases (w : World) (out : Path) (name : pystr) :
  try_except_CalledProcessError
    (print (rightwards_arrow ++ lit " Converting "
              ++ Path_name (out </> (name ++ lit ".png"))
              ++ lit " " ++ ellipsis) ;;;
     subprocess_run [Path_str VTF_CMD; lit "-file";
                     Path_str (out </> (name ++ lit ".png"));
                     lit "-output"; Path_str out])
    (fun returncode =>
       print (warning_sign ++ lit "  VTFCmd failed on "
                ++ Path_name (out </> (name ++ lit ".png")) ++ lit ": exit "
                ++ lit (pretty returncode))) w =
    (match subprocess w (converter_argv out name) with
     | Exited _ => Ok tt
     | NotStarted => Raise (OSError (converter_argv out name))
     end,
     add_events (conversion_events w out name) w).
Proof.
  destruct (subprocess w (converter_argv out name)) as [rc|] eqn:Hs.
  - rewrite convert_one_run by (by rewrite Hs). done.
  - unfold try_except_CalledProcessError.
    rewrite (bind_Ok _ _ _ _ _ (print_run _ w)), subprocess_run_spec.
    change (subprocess (record_event ?ev w)) with (subprocess w).
    fold (converter_argv out name). unfold conversion_events. rewrite Hs.
    unfold record_event, add_events; cbn [fs subprocess trace].
    by rewrite <- ?app_assoc.
Qed.

(** X11: a converter that cannot be started ends the invoker at that
    file: when the launch for the sprite PNG fails, the [OSError]
    escapes and the icon PNG is not attempted; when the sprite
    conversion ran (whatever its exit code) and the launch for the icon
    PNG fails, the [OSError] escapes after the sprite was handled. *)
Theorem converter_launch_failure_propagates (out : Path) (ns : pystr)
  (w : World) :
  is_Some (fs w !! VTF_CMD) ->
  (subprocess w (converter_argv out (lit "sprite_" ++ ns)) = NotStarted ->
   convert_vtf out ns false w =
     (Raise (OSError (converter_argv out (lit "sprite_" ++ ns))),
      add_events
        (EvExists VTF_CMD :: conversion_events w out (lit "sprite_" ++ ns)) w) /\
   launched (conversion_events w out (lit "sprite_" ++ ns))
     = [converter_argv out (lit "sprite_" ++ ns)]) /\
  (subprocess w (converter_argv out (lit "sprite_" ++ ns)) <> NotStarted ->
   subprocess w (converter_argv out (lit "icon_" ++ ns)) = NotStarted ->
   convert_vtf out ns false w =
     (Raise (OSError (converter_argv out (lit "icon_" ++ ns))),
      add_events
        (EvExists VTF_CMD ::
         conversion_events w out (lit "sprite_" ++ ns) ++
         conversion_events w out (lit "icon_" ++ ns)) w)).
Proof.
  intros Hf. split.
  - intros Hs. split.
    + unfold convert_vtf.
      rewrite (bind_Ok _ _ _ _ _ (Path_exists_run w VTF_CMD)).
      rewrite bool_decide_eq_true_2 by done. cbn [negb].
      unfold for_each. rewrite record_event_add.
      erewrite bind_Raise; [reflexivity|].
      rewrite convert_one_cases.
      change (subprocess (add_events ?e w)) with (subprocess w). rewrite Hs.
      unfold conversion_events.
      change (subprocess (add_events ?e w)) with (subprocess w).
      by rewrite add_events_add.
    + unfold conversion_events. by rewrite Hs.
  - intros Hs Hi. unfold convert_vtf.
    rewrite (bind_Ok _ _ _ _ _ (Path_exists_run w VTF_CMD)).
    rewrite bool_decide_eq_true_2 by done. cbn [negb].
    unfold for_each. rewrite record_event_add.
    erewrite bind_Ok by (by apply convert_one_run).
    erewrite bind_Raise; [reflexivity|].
    rewrite convert_one_cases.
    change (subprocess (add_events ?e (add_events ?e' w))) with (subprocess w).
    rewrite Hi. unfold conversion_events.
    change (subprocess (add_events ?e w)) with (subprocess w).
    by rewrite !add_events_add.
Qed.

Lemma read_paths_app (evs1 evs2 : list Event) :
  read_paths (evs1 ++ evs2) = read_paths evs1 ++ read_paths evs2.
Proof. apply omap_app. Qed.

Lemma launched_app (evs1 evs2 : list Event) :
  launched (evs1 ++ evs2) = launched evs1 ++ launched evs2.
Proof. apply omap_app. Qed.

Lemma read_paths_exists (p : Path) (evs : list Event) :
  read_paths (EvExists p :: evs) = p :: read_paths evs.
Proof. done. Qed.

Lemma launched_exists (p : Path) (evs : list Event) :
  launched (EvExists p :: evs) = launched evs.
Proof. done. Qed.

(** The calls of the converter invoker: the probe of the converter
    executable, prints and launches, and nothing else. *)
Lemma convert_vtf_events (out : Path) (ns : pystr) (skip : bool)
  (w : World) :
  exists evs,
    snd (convert_vtf out ns skip w) = add_events evs w /\
    Forall (fun ev => written_path ev = None) evs /\
    Forall (fun p => p = VTF_CMD) (read_paths evs) /\
    (length (launched evs) <= 2)%nat /\
    (skip = true -> launched evs = [] /\ read_paths evs = []).
Proof.
  destruct skip.
  { eexists. split; [reflexivity|]. split; [by repeat constructor|].
    split; [by constructor|]. split; [simpl; lia | done]. }
  unfold convert_vtf.
  rewrite (bind_Ok _ _ _ _ _ (Path_exists_run w VTF_CMD)).
  destruct (bool_decide (is_Some (fs w !! VTF_CMD))); cbn [negb].
  2:{ rewrite print_run. eexists. split.
      - unfold record_event, add_events. cbn [fs subprocess trace].
        rewrite <- app_assoc. reflexivity.
      - split; [by repeat constructor|]. split; [by repeat constructor|].
        split; [simpl; lia | done]. }
  unfold for_each. rewrite record_event_add.
  assert (forall name,
            Forall (fun ev => written_path ev = None)
                   (conversion_events w out name) /\
            read_paths (conversion_events w out name) = [] /\
            length (launched (conversion_events w out name)) = 1%nat)
    as Hev.
  { intros name. unfold conversion_events.
    destruct (subprocess w (converter_argv out name)) as [[| |]|];
      repeat split; repeat constructor. }
  destruct (Hev (lit "sprite_" ++ ns)) as (W1 & R1 & L1).
  destruct (Hev (lit "icon_" ++ ns)) as (W2 & R2 & L2).
  unfold bind at 1. rewrite convert_one_cases.
  change (subprocess (add_events ?e w)) with (subprocess w).
  change (conversion_events (add_events ?e w)) with (conversion_events w).
  destruct (subprocess w (converter_argv out (lit "sprite_" ++ ns))).
  - unfold bind at 1. rewrite convert_one_cases.
    change (subprocess (add_events ?e (add_events ?e' w))) with (subprocess w).
    change (conversion_events (add_events ?e (add_events ?e' w)))
      with (conversion_events w).
    exists (EvExists VTF_CMD :: conversion_events w out (lit "sprite_" ++ ns)
              ++ conversion_events w out (lit "icon_" ++ ns)).
    split.
    { destruct (subprocess w (converter_argv out (lit "icon_" ++ ns)));
        cbn [snd ret]; by rewrite !add_events_add. }
    split; [constructor; [done | by apply Forall_app]|].
    rewrite read_paths_exists, launched_exists, read_paths_app, launched_app.
    rewrite R1, R2, length_app, L1, L2.
    split; [by constructor|]. split; [simpl; lia | done].
  - exists (EvExists VTF_CMD :: conversion_events w out (lit "sprite_" ++ ns)).
    split; [cbn [snd]; by rewrite add_events_add|].
    split; [by constructor|].
    rewrite read_paths_exists, launched_exists, R1, L1.
    split; [by constructor|]. split; [lia | done].
Qed.

(** X12: the converter invoker makes no write of its own: in every
    world and whether it returns or raises, it creates no directory,
    saves no image and writes no text file; all it does is probe the
    converter executable, print, and launch the converter at most
    twice, and with [skip] it neither probes nor launches. *)
Theorem convert_vtf_never_writes (out : Path) (ns : pystr) (skip : bool)
  (w : World) :
  exists evs,
    trace (snd (convert_vtf out ns skip w)) = trace w ++ evs /\
    Forall (fun ev => written_path ev = None) evs /\
    Forall (fun p => p = VTF_CMD) (read_paths evs) /\
    (length (launched evs) <= 2)%nat /\
    (skip = true -> launched evs = [] /\ read_paths evs = []).
Proof.
  destruct (convert_vtf_events out ns skip w) as (evs & Hw & Hrest).
  exists evs. split; [by rewrite Hw | exact Hrest].
Qed.


(** *** What the stages of a run emit *)

Lemma emits_ret {A} (P : Event -> Prop) (a : A) : emits P (ret a).
Proof. intros w. exists []. simpl. by rewrite app_nil_r. Qed.

Lemma emits_raise {A} (P : Event -> Prop) (e : Exn) : emits P (@raise A e).
Proof. intros w. exists []. simpl. by rewrite app_nil_r. Qed.

Lemma emits_bind {A B} (P : Event -> Prop) (c : M A) (k : A -> M B) :
  emits P c -> (forall a, emits P (k a)) -> emits P (bind c k).
Proof.
  intros Hc Hk w. unfold bind. destruct (Hc w) as (evs & He & Hr).
  destruct (c w) as [[a|e] w1]; simpl in *; [|by eauto].
  destruct (Hk a w1) as (evs' & He' & Hr'). exists (evs ++ evs'). split.
  - by rewrite He', He, app_assoc.
  - by apply Forall_app.
Qed.

Lemma emits_log (P : Event -> Prop) (ev : Event) : P ev -> emits P (log ev).
Proof. intros Hev w. exists [ev]. split; [done|]. by constructor. Qed.

Lemma emits_stat (P : Event -> Prop) (p : Path) : emits P (stat p).
Proof. intros w. exists []. simpl. by rewrite app_nil_r. Qed.

Lemma emits_store (P : Event -> Prop) (p : Path) (f : File) :
  emits P (store p f).
Proof. intros w. exists []. simpl. by rewrite app_nil_r. Qed.

Lemma emits_for_each {A} (P : Event -> Prop) (xs : list A)
  (body : A -> M unit) :
  (forall x, In x xs -> emits P (body x)) -> emits P (for_each xs body).
Proof.
  induction xs as [|x rest IH]; intros Hb; simpl.
  - apply emits_ret.
  - apply emits_bind; [apply Hb; by left|].
    intros _. apply IH. intros y Hy. apply Hb. by right.
Qed.

Lemma emits_try {A} (P : Event -> Prop) (body : M A) (handler : Z -> M A) :
  emits P body -> (forall rc, emits P (handler rc)) ->
  emits P (try_except_CalledProcessError body handler).
Proof.
  intros Hb Hh w. unfold try_except_CalledProcessError.
  destruct (Hb w) as (evs & He & Hr).
  destruct (body w) as [[a|e] w1]; simpl in *; [by eauto|].
  destruct e; simpl; eauto.
  destruct (Hh returncode w1) as (evs' & He' & Hr'). exists (evs ++ evs').
  split; [by rewrite He', He, app_assoc | by apply Forall_app].
Qed.

Lemma emits_subprocess_run (P : Event -> Prop) (argv : list pystr) :
  P (EvRun argv) -> emits P (subprocess_run argv).
Proof.
  intros Hp w. rewrite subprocess_run_spec. exists [EvRun argv].
  split; [|by constructor]. by destruct (subprocess w argv) as [[| |]|].
Qed.

(** One step of a proof that a computation emits only events of a
    kind; [side] proves that a logged event is of the kind. *)
Ltac emits_step side :=
  first
    [ apply emits_ret
    | apply emits_raise
    | apply emits_stat
    | apply emits_store
    | apply emits_subprocess_run; side
    | apply emits_log; side
    | apply emits_bind
    | apply emits_try
    | progress intros
    | match goal with
      | |- emits _ (match ?x with _ => _ end) => destruct x
      | |- emits _ (if ?x then _ else _) => destruct x
      end ].

Lemma writes_no_text_written (evs : list Event) :
  Forall writes_no_text evs -> written_texts evs = [].
Proof.
  induction 1 as [|ev evs Hev _ IH]; [done|].
  destruct ev; try done; simpl in *; done.
Qed.

Lemma written_texts_app (evs1 evs2 : list Event) :
  written_texts (evs1 ++ evs2) = written_texts evs1 ++ written_texts evs2.
Proof. apply omap_app. Qed.

Lemma create_png_set_writes_no_text (src ns : pystr) (out tpl_dir : Path) :
  emits writes_no_text (create_png_set src ns out tpl_dir).
Proof.
  unfold create_png_set, Path_mkdir, Image_save, write_file.
  repeat first
    [ apply emits_for_each; intros [[[[[variant dsize] blur] offset] margin] tpl] _;
      unfold png_variant, Path_exists, Image_open, Image_new_, Image_save,
        write_file, make_icon_layer, build_shadow
    | progress unfold make_icon_layer, build_shadow, Image_open, Image_new_
    | emits_step ltac:(exact I) ].
Qed.

Lemma convert_vtf_writes_no_text (out : Path) (ns : pystr) (skip : bool) :
  emits writes_no_text (convert_vtf out ns skip).
Proof.
  unfold convert_vtf, print, Path_exists.
  repeat first [apply emits_for_each; intros | emits_step ltac:(exact I)].
Qed.

(** X13: descriptors come last: a run of [main] writes a descriptor
    only if the nameshort passed the validation, PNG generation
    returned normally and the converter invoker returned normally. *)
Theorem descriptors_only_after_success (script_folder : Path) (args : Args)
  (w : World) :
  written_texts (trace (snd (main script_folder args w)))
    <> written_texts (trace w) ->
  islower (nameshort args) = true /\
  exists w1 w2,
    create_png_set (image args) (nameshort args)
      (Path_of (out args) </> lit "converted" </> nameshort args)
      script_folder w = (Ok tt, w1) /\
    convert_vtf (Path_of (out args) </> lit "converted" </> nameshort args)
      (nameshort args) (no_vtf args) w1 = (Ok tt, w2).
Proof.
  unfold main. destruct (islower (nameshort args)); cbn [negb]; [|done].
  rewrite (bind_Ok (ret tt) _ w w tt eq_refl). intros Hw. split; [done|].
  set (out_dir := Path_of (out args) </> lit "converted" </> nameshort args) in *.
  destruct (create_png_set_writes_no_text (image args) (nameshort args)
              out_dir script_folder w) as (evs1 & Ht1 & Hn1).
  unfold bind at 1 in Hw.
  destruct (create_png_set _ _ _ _ w) as [[[]|e] w1] eqn:Hpng; simpl in *.
  2:{ destruct Hw.
      by rewrite Ht1, written_texts_app, (writes_no_text_written _ Hn1),
        app_nil_r. }
  destruct (convert_vtf_writes_no_text out_dir (nameshort args) (no_vtf args) w1)
    as (evs2 & Ht2 & Hn2).
  unfold bind at 1 in Hw.
  destruct (convert_vtf _ _ _ w1) as [[[]|e] w2] eqn:Hconv; simpl in *;
    [by eauto|].
  destruct Hw. rewrite Ht2, Ht1, !written_texts_app.
  by rewrite (writes_no_text_written _ Hn1), (writes_no_text_written _ Hn2),
    !app_nil_r.
Qed.

(** X14: a missing converter does not cost the descriptors: when PNG
    generation returned, [--no-vtf] was not given and the converter
    executable does not exist, the run prints the warning, launches
    nothing, writes the three descriptors and returns normally. *)
Theorem missing_converter_keeps_descriptors (script_folder : Path)
  (args : Args) (w w1 : World) :
  islower (nameshort args) = true -> no_vtf args = false ->
  create_png_set (image args) (nameshort args)
    (Path_of (out args) </> lit "converted" </> nameshort args)
    script_folder w = (Ok tt, w1) ->
  fs w1 !! VTF_CMD = None ->
  Forall (fun name =>
            not_dir w1 (Path_of (out args) </> lit "converted"
                          </> nameshort args </> name) = true)
    [lit "sprite_" ++ nameshort args ++ lit ".vmt";
     lit "sprite_" ++ nameshort args ++ lit "_noz.vmt";
     lit "icon_" ++ nameshort args ++ lit ".vmt"] ->
  exists w' evs,
    main script_folder args w = (Ok tt, w') /\
    trace w' = trace w1 ++ evs /\
    printed evs =
      [warning_sign ++ lit "  VTFCmd.exe not found at " ++ VTF_CMD_repr
         ++ lit "; skipping."] /\
    launched evs = [] /\
    map fst (written_texts evs) =
      map (joinpath (Path_of (out args) </> lit "converted" </> nameshort args))
        [lit "sprite_" ++ nameshort args ++ lit ".vmt";
         lit "sprite_" ++ nameshort args ++ lit "_noz.vmt";
         lit "icon_" ++ nameshort args ++ lit ".vmt"].
Proof.
  intros Hl Hno Hpng Hvtf Hnd.
  apply Forall_cons in Hnd as [N1 Hnd]. apply Forall_cons in Hnd as [N2 Hnd].
  apply Forall_cons in Hnd as [N3 _].
  set (out_dir := Path_of (out args) </> lit "converted" </> nameshort args) in *.
  set (warning := warning_sign ++ lit "  VTFCmd.exe not found at "
                    ++ VTF_CMD_repr ++ lit "; skipping.").
  assert (convert_vtf out_dir (nameshort args) false w1 =
            (Ok tt, record_event (EvPrint warning)
                      (record_event (EvExists VTF_CMD) w1))) as Hconv.
  { unfold convert_vtf.
    rewrite (bind_Ok _ _ _ _ _ (Path_exists_run w1 VTF_CMD)).
    rewrite Hvtf, bool_decide_eq_false_2 by (by intros [? ?]). done. }
  eexists _, _. split.
  { unfold main. rewrite Hl, Hno. cbn [negb].
    rewrite (bind_Ok (ret tt) _ w w tt eq_refl).
    fold out_dir. rewrite (bind_Ok _ _ _ _ _ Hpng), (bind_Ok _ _ _ _ _ Hconv).
    apply generate_vmt_files_run; by rewrite !not_dir_record. }
  split.
  { cbn [trace put record_event]. rewrite <- !app_assoc. reflexivity. }
  done.
Qed.

(** X15: an absolute nameshort takes the place of the output root: a
    lowercase nameshort that starts with a slash makes the run work in
    the directory of that very path, whatever [--out] says. *)
Theorem absolute_nameshort_replaces_out (script_folder : Path) (args : Args)
  (w : World) (rest : pystr) :
  nameshort args = slash :: rest ->
  islower (nameshort args) = true ->
  Path_of (out args) </> lit "converted" </> nameshort args
    = Path_of (nameshort args) /\
  exists evs,
    trace (snd (main script_folder args w)) =
      trace w ++ EvMkdir (Path_of (nameshort args)) :: evs.
Proof.
  intros Hns Hl.
  assert (forall p, p </> nameshort args = Path_of (nameshort args)) as Hjoin.
  { intros p. rewrite Hns. unfold joinpath, Path_of.
    change (N.eqb slash slash) with true. cbv iota. unfold is_absolute.
    by rewrite bool_decide_eq_true_2. }
  split; [apply Hjoin|].
  rewrite main_validated by done. rewrite !Hjoin.
  apply trace_starts_with; [apply Path_mkdir_trace|].
  intros _. apply benign_bind.
  - apply benign_after_mkdir.
  - intros _. apply benign_bind; [apply benign_convert_vtf|].
    intros _. apply benign_generate_vmt_files.
Qed.

(** X16: what the validation lets through: an accepted nameshort is not
    empty and holds no ASCII capital, and it stays accepted when
    characters without case (digits, underscores, dots, slashes) or
    further lowercase ones are put before or after it. *)
Theorem accepted_names (s : pystr) :
  islower s = true ->
  s <> [] /\
  (forall ch, ch ∈ s -> ~ (65 <= ch <= 90)%N) /\
  (forall t,
     (forall ch, ch ∈ t -> cased ch = true -> lowercase ch = true) ->
     islower (s ++ t) = true /\ islower (t ++ s) = true).
Proof.
  intros [(c & Hc & Hcased) Hall]%islower_all_lowercase.
  split; [|split].
  - intros ->. by apply elem_of_nil in Hc.
  - intros ch Hch Hup. specialize (Hall ch Hch).
    unfold cased, lowercase, case_of, ascii_case in Hall.
    destruct (N.ltb_spec ch 128); [|lia].
    destruct (N.leb_spec 65 ch); [|lia]. destruct (N.leb_spec ch 90); [|lia].
    simpl in Hall. by specialize (Hall eq_refl).
  - intros t Ht. split; apply islower_all_lowercase; split.
    + exists c. split; [|done]. apply elem_of_app. by left.
    + intros ch [Hch|Hch]%elem_of_app; auto.
    + exists c. split; [|done]. apply elem_of_app. by right.
    + intros ch [Hch|Hch]%elem_of_app; auto.
Qed.

Lemma joinpath_prefix (p : Path) (c : N) (s : pystr) :
  c <> slash -> c <> 46%N -> p `prefix_of` p </> (c :: s).
Proof. intros Hc Hd. rewrite joinpath_relative by done. by eexists. Qed.

Ltac under_side :=
  unfold under; cbn [written_path];
  first
    [ exact I
    | reflexivity
    | by apply (joinpath_prefix _ 116%N)
    | by apply (joinpath_prefix _ 115%N)
    | by apply (joinpath_prefix _ 105%N) ].

Lemma main_emits_under (script_folder : Path) (args : Args) :
  emits (under (Path_of (out args) </> lit "converted" </> nameshort args))
        (main script_folder args).
Proof.
  unfold main, sys_exit, create_png_set, convert_vtf, generate_vmt_files,
    write, Path_mkdir, Path_exists, Image_save, Path_write_text, write_file,
    print.
  repeat first
    [ apply emits_for_each; intros spec Hin; unfold specs in Hin; simpl in Hin;
      destruct Hin as [<-|[<-|[<-|[]]]];
      unfold png_variant, Path_exists, Image_save, write_file
    | apply emits_for_each; intros
    | progress unfold make_icon_layer, build_shadow, Image_open, Image_new_
    | emits_step under_side ].
Qed.

(** X17: every write call of a run is aimed under its output
    directory: the directory it asks [mkdir] for, each PNG it saves and
    each descriptor it writes has the path of
    [<out>/converted/<nameshort>] as a prefix of its own, whether the
    run returns or fails on the way.  (The ancestors that [mkdir]
    creates on the way are no calls of the script.) *)
Theorem outputs_stay_under_out_dir (script_folder : Path) (args : Args)
  (w : World) :
  exists evs,
    trace (snd (main script_folder args w)) = trace w ++ evs /\
    forall ev p,
      ev ∈ evs -> written_path ev = Some p ->
      Path_of (out args) </> lit "converted" </> nameshort args `prefix_of` p.
Proof.
  destruct (main_emits_under script_folder args w) as (evs & Ht & Hall).
  exists evs. split; [done|]. intros ev p Hev Hp.
  rewrite Forall_forall in Hall. specialize (Hall ev Hev).
  unfold under in Hall. by rewrite Hp in Hall.
Qed.

(** *** The table of variants and the layer *)

(** X18: for every row of [specs] the offset of the shadow is at most
    the margin, so that on any canvas whose margin leaves a box of at
    least one pixel the box of the shadow lies within the layer: the
    shadow is not cut by the edge of the layer. *)
Theorem shadow_box_within_layer (variant : pystr)
  (dsize blur offset margin : Z) (tpl : pystr) (im : Image) (size : Z) :
  In (variant, dsize, blur, offset, margin, tpl) specs ->
  decodes im = true ->
  1 <= size - 2 * margin ->
  0 <= offset <= margin /\
  0 <= fst (centred size (fit_icon im size margin)) + offset /\
  fst (centred size (fit_icon im size margin)) + offset
    + width (shadow_of (fit_icon im size margin) blur) <= size /\
  0 <= snd (centred size (fit_icon im size margin)) + offset /\
  snd (centred size (fit_icon im size margin)) + offset
    + height (shadow_of (fit_icon im size margin) blur) <= size.
Proof.
  intros Hin Hd Hbox.
  assert (0 <= offset <= margin) as Hoff.
  { unfold specs in Hin. simpl in Hin.
    destruct Hin as [H|[H|[H|[]]]]; injection H as <- <- <- <- <- <-; lia. }
  pose proof (fit_icon_bounds im size margin Hd) as B.
  unfold centred, shadow_of, Image_filter, silhouette. simpl.
  set (iw := width (fit_icon im size margin)) in *.
  set (ih := height (fit_icon im size margin)) in *.
  pose proof (Z.div_mod (size - iw) 2 ltac:(lia)).
  pose proof (Z.mod_pos_bound (size - iw) 2 ltac:(lia)).
  pose proof (Z.div_mod (size - ih) 2 ltac:(lia)).
  pose proof (Z.mod_pos_bound (size - ih) 2 ltac:(lia)).
  lia.
Qed.

(** *** The aspect ratio of the icon *)

Lemma Qfloor_frac (n d : Z) (q : Q) :
  0 < d -> (q == inject_Z n / inject_Z d)%Q -> Qfloor q = n `div` d.
Proof. intros Hd Hq. rewrite (Qfloor_comp _ _ Hq). symmetry. apply Zdiv_Qdiv. Qed.

Lemma Qceiling_frac (n d : Z) (q : Q) :
  0 < d -> (q == inject_Z n / inject_Z d)%Q -> Qceiling q = - ((- n) `div` d).
Proof.
  intros Hd Hq. unfold Qceiling. f_equal. apply Qfloor_frac; [done|].
  rewrite Hq. unfold Qdiv. rewrite inject_Z_opp. ring.
Qed.

(** Rounding a positive fraction [n/d] gives an integer less than one
    away from it. *)
Lemma round_aspect_near (number : Q) (key : Z -> Q) (n d : Z) :
  0 < d -> 0 < n -> (number == inject_Z n / inject_Z d)%Q ->
  Z.abs (round_aspect number key * d - n) < d.
Proof.
  intros Hd Hn Hq. unfold round_aspect. cbv zeta.
  rewrite (Qfloor_frac n d number Hd Hq), (Qceiling_frac n d number Hd Hq).
  pose proof (Z.div_mod n d ltac:(lia)) as E1.
  pose proof (Z.mod_pos_bound n d Hd) as B1.
  pose proof (Z.div_mod (- n) d ltac:(lia)) as E2.
  pose proof (Z.mod_pos_bound (- n) d Hd) as B2.
  assert (0 <= n `div` d) by (apply Z.div_pos; lia).
  set (lo := n `div` d) in *. set (hi := (- n) `div` d) in *.
  destruct (Qle_bool _ _); nia.
Qed.

(** X19: fitting keeps the aspect ratio up to the rounding of one
    pixel: the cross product of the sizes of the icon and of the source
    differs by less than the longer side of the source. *)
Theorem fit_keeps_aspect_ratio (im : Image) (canvas_size margin : Z) :
  decodes im = true ->
  Z.abs (width (fit_icon im canvas_size margin) * height im
         - height (fit_icon im canvas_size margin) * width im)
    < Z.max (width im) (height im).
Proof.
  intros [Hw Hh]%decodes_positive. unfold fit_icon, thumbnail.
  set (t := Z.max (canvas_size - 2 * margin) 1).
  assert (1 <= t) as Ht by lia.
  destruct (preserve_aspect_ratio im t t) as [[fx fy]|] eqn:Hp.
  2:{ replace (width im * height im - height im * width im) with 0 by lia.
      simpl. lia. }
  assert (Z.abs (fx * height im - fy * width im) < Z.max (width im) (height im))
    as Hnear.
  { unfold preserve_aspect_ratio in Hp. cbv zeta in Hp.
    assert (~ (inject_Z (width im) == 0)%Q) as Hw0.
    { intros E. apply (inject_Z_injective (width im) 0) in E. lia. }
    assert (~ (inject_Z (height im) == 0)%Q) as Hh0.
    { intros E. apply (inject_Z_injective (height im) 0) in E. lia. }
    destruct ((t >=? width im) && (t >=? height im)); [done|].
    destruct (Qle_bool _ _); injection Hp as <- <-.
    - match goal with
      | |- context [round_aspect ?a ?b] =>
          pose proof (round_aspect_near a b (t * width im) (height im)
                        ltac:(lia) ltac:(nia)) as Hr;
          set (r := round_aspect a b) in *
      end.
      lapply Hr; [lia|]. rewrite inject_Z_mult. field. done.
    - match goal with
      | |- context [round_aspect ?a ?b] =>
          pose proof (round_aspect_near a b (t * height im) (width im)
                        ltac:(lia) ltac:(nia)) as Hr;
          set (r := round_aspect a b) in *
      end.
      lapply Hr; [lia|]. rewrite inject_Z_mult. field. split; done. }
  destruct ((width im =? fx) && (height im =? fy)) eqn:Hsame; simpl.
  - replace (width im * height im - height im * width im) with 0 by lia.
    simpl. lia.
  - done.
Qed.

(** *** Running the PNG set builder again *)

Lemma Path_mkdir_inv (p : Path) (w w1 : World) :
  Path_mkdir p w = (Ok tt, w1) ->
  fs w1 !! p = Some FDir /\ (forall q, q <> p -> fs w1 !! q = fs w !! q).
Proof.
  unfold Path_mkdir, bind, log, stat, store. simpl.
  destruct (fs w !! p) as [[| | |]|] eqn:Hp; try done; intros [= <-]; simpl.
  - done.
  - split; [apply lookup_insert_eq|]. intros q Hq. by rewrite lookup_insert_ne.
Qed.

Lemma Path_mkdir_dir (p : Path) (v : World) :
  fs v !! p = Some FDir ->
  Path_mkdir p v = (Ok tt, record_event (EvMkdir p) v).
Proof.
  intros Hp. unfold Path_mkdir, bind, log, stat. simpl. by rewrite Hp.
Qed.

(** A call of the layer compositor that returned returns the same
    layer in every world that holds the same file at the source
    path. *)
Lemma make_icon_layer_again (w w1 : World) (src : pystr)
  (canvas_size blur offset margin : Z) (layer : Image) :
  make_icon_layer src canvas_size blur offset margin w = (Ok layer, w1) ->
  w1 = record_event (EvOpen (Path_of src)) w /\
  forall v,
    fs v !! Path_of src = fs w !! Path_of src ->
    make_icon_layer src canvas_size blur offset margin v =
      (Ok layer, record_event (EvOpen (Path_of src)) v).
Proof.
  intros H. pose proof H as H0.
  apply make_icon_layer_inv in H0 as (im & Hf & Hd & Hc).
  rewrite (make_icon_layer_run w src im _ _ _ _ Hf Hd Hc) in H.
  injection H as <- <-. split; [done|]. intros v Hv.
  apply make_icon_layer_run; [by rewrite Hv | done | done].
Qed.

(** A variant that was saved is saved with the same pixels in every
    world that holds the same files at the source path and, for the
    variants other than score, at the template path, and no directory
    at the path of the PNG. *)
Lemma png_variant_again (w w1 : World) (src ns : pystr) (out tpl_dir : Path)
  (variant : pystr) (dsize blur offset margin : Z) (tpl : pystr) :
  png_variant src ns out tpl_dir
              (variant, dsize, blur, offset, margin, tpl) w = (Ok tt, w1) ->
  exists png evs,
    w1 = put (out </> (variant ++ lit "_" ++ ns ++ lit ".png")) (FImage png)
           (add_events evs w) /\
    forall v,
      fs v !! Path_of src = fs w !! Path_of src ->
      (variant <> lit "score" ->
       fs v !! (tpl_dir </> tpl) = fs w !! (tpl_dir </> tpl)) ->
      not_dir v (out </> (variant ++ lit "_" ++ ns ++ lit ".png")) = true ->
      png_variant src ns out tpl_dir
                  (variant, dsize, blur, offset, margin, tpl) v =
        (Ok tt,
         put (out </> (variant ++ lit "_" ++ ns ++ lit ".png")) (FImage png)
           (add_events evs v)).
Proof.
  intros H. unfold png_variant in H.
  apply bind_Ok_inv in H as ([canvas size] & w0 & Hc & H).
  apply bind_Ok_inv in H as (layer & w2 & Hl & H).
  apply Image_save_inv in H as (_ & ->).
  apply make_icon_layer_again in Hl as [-> Hlayer].
  assert (forall u : World, add_events [] u = u) as Hnil.
  { intros [? ? ?]. unfold add_events. simpl. by rewrite app_nil_r. }
  assert (exists evs0,
            w0 = add_events evs0 w /\
            forall v,
              (variant <> lit "score" ->
               fs v !! (tpl_dir </> tpl) = fs w !! (tpl_dir </> tpl)) ->
              (if bool_decide (variant = lit "score") then
                 canvas <- Image_new_ dsize dsize transparent ;;
                 ret (canvas, dsize)
               else
                 found <- Path_exists (tpl_dir </> tpl) ;;
                 if found then
                   canvas <- Image_open (tpl_dir </> tpl) ;;
                   ret (canvas, width canvas)
                 else
                   canvas <- Image_new_ dsize dsize transparent ;;
                   ret (canvas, dsize)) v
              = (Ok (canvas, size), add_events evs0 v))
    as (evs0 & -> & Hcanvas).
  { destruct (bool_decide (variant = lit "score")) eqn:Hsc.
    - apply bind_Ok_inv in Hc as (blank & w3 & Hnw & Hc).
      apply Image_new_inv in Hnw as (-> & -> & Hd & _).
      injection Hc as <- <- <-. exists []. split; [by rewrite Hnil|].
      intros v _. erewrite bind_Ok by (by apply Image_new_run).
      by rewrite Hnil.
    - apply bool_decide_eq_false in Hsc.
      apply bind_Ok_inv in Hc as (found & w3 & He & Hc).
      rewrite Path_exists_run in He. injection He as <- <-.
      destruct (bool_decide (is_Some (fs w !! (tpl_dir </> tpl)))) eqn:Hfound.
      + apply bind_Ok_inv in Hc as (template & w4 & Ho & Hc).
        apply Image_open_inv in Ho as (Hf & Hd & ->).
        injection Hc as <- <- <-.
        exists [EvExists (tpl_dir </> tpl); EvOpen (tpl_dir </> tpl)].
        split.
        { unfold record_event, add_events. cbn [fs subprocess trace].
          by rewrite <- app_assoc. }
        intros v Hv. specialize (Hv Hsc).
        rewrite (bind_Ok _ _ _ _ _ (Path_exists_run v _)), Hv, Hfound.
        erewrite bind_Ok.
        2:{ apply Image_open_run; [|exact Hd].
            cbn [fs record_event] in *. by rewrite Hv. }
        unfold ret, record_event, add_events. cbn [fs subprocess trace].
        by rewrite <- app_assoc.
      + apply bind_Ok_inv in Hc as (blank & w4 & Hnw & Hc).
        apply Image_new_inv in Hnw as (-> & -> & Hd & _).
        injection Hc as <- <- <-.
        exists [EvExists (tpl_dir </> tpl)]. split; [done|].
        intros v Hv. specialize (Hv Hsc).
        rewrite (bind_Ok _ _ _ _ _ (Path_exists_run v _)), Hv, Hfound.
        erewrite bind_Ok by (by apply Image_new_run). done. }
  eexists _, (evs0 ++ [EvOpen (Path_of src); EvSave _ _]). split.
  { unfold put, record_event, add_events. cbn [fs subprocess trace].
    rewrite <- !app_assoc. reflexivity. }
  intros v Hs Ht Hn. unfold png_variant.
  rewrite (bind_Ok _ _ _ _ _ (Hcanvas v Ht)). cbv beta iota.
  rewrite (bind_Ok _ _ _ _ _ (Hlayer (add_events evs0 v) Hs)).
  rewrite Image_save_run by done.
  unfold put, record_event, add_events. cbn [fs subprocess trace].
  by rewrite <- !app_assoc.
Qed.

Lemma variant_path_ne_out (out : Path) (variant : pystr) (dsize blur offset margin : Z)
  (tpl ns : pystr) :
  In (variant, dsize, blur, offset, margin, tpl) specs ->
  out </> (variant ++ lit "_" ++ ns ++ lit ".png") <> out.
Proof.
  unfold specs. simpl. intros [H|[H|[H|[]]]]; injection H as <- _ _ _ _ _.
  - by apply (joinpath_relative_ne_self out 115%N).
  - by apply (joinpath_relative_ne_self out 115%N).
  - by apply (joinpath_relative_ne_self out 105%N).
Qed.

(** X20: the PNG set builder is idempotent as long as it does not
    overwrite its own inputs: after a run that returned, with the
    source and the two template paths none of the four PNG paths, a
    second run with the same arguments returns as well and leaves every
    file as the first run left it. *)
Theorem png_set_rerun_idempotent (w w1 : World) (src ns : pystr)
  (out tpl_dir : Path) :
  create_png_set src ns out tpl_dir w = (Ok tt, w1) ->
  Forall (fun p =>
            Forall (fun q => q <> p)
              [out </> (lit "tab_" ++ ns ++ lit ".png");
               out </> (lit "score" ++ lit "_" ++ ns ++ lit ".png");
               out </> (lit "sprite" ++ lit "_" ++ ns ++ lit ".png");
               out </> (lit "icon" ++ lit "_" ++ ns ++ lit ".png")])
    [Path_of src; tpl_dir </> lit "sprite_template.png";
     tpl_dir </> lit "icon_template.png"] ->
  exists w2,
    create_png_set src ns out tpl_dir w1 = (Ok tt, w2) /\ fs w2 = fs w1.
Proof.
  intros H Hin.
  apply Forall_cons in Hin as [Hsrc Hin].
  apply Forall_cons in Hin as [Htpls Hin].
  apply Forall_cons in Hin as [Htpli _].
  apply Forall_cons in Hsrc as [S1 Hsrc]. apply Forall_cons in Hsrc as [S2 Hsrc].
  apply Forall_cons in Hsrc as [S3 Hsrc]. apply Forall_cons in Hsrc as [S4 _].
  apply Forall_cons in Htpls as [P1 Htpls].
  apply Forall_cons in Htpls as [P2 Htpls].
  apply Forall_cons in Htpls as [P3 Htpls].
  apply Forall_cons in Htpls as [P4 _].
  apply Forall_cons in Htpli as [I1 Htpli].
  apply Forall_cons in Htpli as [I2 Htpli].
  apply Forall_cons in Htpli as [I3 Htpli].
  apply Forall_cons in Htpli as [I4 _].
  pose proof (tab_path_ne_out out ns) as O1.
  pose proof (variant_path_ne_out out _ _ _ _ _ _ ns
                (or_introl eq_refl : In _ specs)) as O2.
  pose proof (variant_path_ne_out out _ _ _ _ _ _ ns
                (or_intror (or_introl eq_refl) : In _ specs)) as O3.
  pose proof (variant_path_ne_out out _ _ _ _ _ _ ns
                (or_intror (or_intror (or_introl eq_refl)) : In _ specs)) as O4.
  unfold create_png_set in H.
  apply bind_Ok_inv in H as ([] & wa & Hm & H).
  apply bind_Ok_inv in H as (tab_layer & wb0 & Htab & H).
  apply bind_Ok_inv in H as ([] & wb & Hsave & H).
  unfold for_each, specs in H.
  apply bind_Ok_inv in H as ([] & wc & Hscore & H).
  apply bind_Ok_inv in H as ([] & wd & Hsprite & H).
  apply bind_Ok_inv in H as ([] & we & Hicon & H).
  injection H as ->.
  apply Path_mkdir_inv in Hm as [Hout _].
  apply make_icon_layer_again in Htab as [-> Rtab].
  apply Image_save_inv in Hsave as [_ ->].
  apply png_variant_again in Hscore as (score_png & e1 & -> & Rscore).
  apply png_variant_again in Hsprite as (sprite_png & e2 & -> & Rsprite).
  apply png_variant_again in Hicon as (icon_png & e3 & -> & Ricon).
  set (tab_path := out </> (lit "tab_" ++ ns ++ lit ".png")) in *.
  set (score_path := out </> (lit "score" ++ lit "_" ++ ns ++ lit ".png")) in *.
  set (sprite_path := out </> (lit "sprite" ++ lit "_" ++ ns ++ lit ".png")) in *.
  set (icon_path := out </> (lit "icon" ++ lit "_" ++ ns ++ lit ".png")) in *.
  set (tpls := tpl_dir </> lit "sprite_template.png") in *.
  set (tpli := tpl_dir </> lit "icon_template.png") in *.
  eexists. split.
  - unfold create_png_set. fold tab_path.
    erewrite bind_Ok.
    2:{ apply Path_mkdir_dir. cbn [fs put add_events record_event].
        by rewrite !lookup_insert_ne. }
    erewrite bind_Ok.
    2:{ apply Rtab. cbn [fs put add_events record_event].
        by rewrite !lookup_insert_ne. }
    erewrite bind_Ok.
    2:{ apply Image_save_run. unfold not_dir.
        cbn [fs put add_events record_event].
        repeat (rewrite lookup_insert; case_decide; [done|]). done. }
    unfold for_each, specs.
    erewrite bind_Ok.
    2:{ apply Rscore.
        - cbn [fs put add_events record_event]. by rewrite !lookup_insert_ne.
        - done.
        - unfold not_dir. cbn [fs put add_events record_event].
          repeat (rewrite lookup_insert; case_decide; [done|]). done. }
    erewrite bind_Ok.
    2:{ apply Rsprite.
        - cbn [fs put add_events record_event]. by rewrite !lookup_insert_ne.
        - intros _. cbn [fs put add_events record_event].
          by rewrite !lookup_insert_ne.
        - unfold not_dir. cbn [fs put add_events record_event].
          repeat (rewrite lookup_insert; case_decide; [done|]). done. }
    erewrite bind_Ok.
    2:{ apply Ricon.
        - cbn [fs put add_events record_event]. by rewrite !lookup_insert_ne.
        - intros _. cbn [fs put add_events record_event].
          by rewrite !lookup_insert_ne.
        - unfold not_dir. cbn [fs put add_events record_event].
          repeat (rewrite lookup_insert; case_decide; [done|]). done. }
    reflexivity.
  - cbn [fs put add_events record_event]. apply map_eq. intros p.
    rewrite !lookup_insert. repeat case_decide; done.
Qed.

(** *** The template behind the layer *)

(** X21: the template shows through the layer: a sprite or icon PNG
    made on a template whose width leaves, inside the margin, a box of
    at least one pixel has the pixel of the template (for the byte
    values a PNG holds) at every pixel outside that box,
    [margin <= i, j < width - margin], and, when there is a shadow,
    outside that box moved by the offset as well. *)
Theorem template_shows_through (w w' : World) (src ns : pystr)
  (out tpl_dir : Path) (variant : pystr) (dsize blur offset margin : Z)
  (tpl : pystr) (template : Image) :
  variant <> lit "score" ->
  fs w !! (tpl_dir </> tpl) = Some (FImage template) ->
  png_variant src ns out tpl_dir
              (variant, dsize, blur, offset, margin, tpl) w = (Ok tt, w') ->
  1 <= width template - 2 * margin ->
  exists png,
    fs w' !! (out </> (variant ++ lit "_" ++ ns ++ lit ".png"))
      = Some (FImage png) /\
    width png = width template /\ height png = height template /\
    forall i j,
      byte_pixel (getpixel template i j) ->
      ~ (margin <= i < width template - margin /\
         margin <= j < width template - margin) ->
      (blur <= 0 \/
       ~ (margin + offset <= i < width template - margin + offset /\
          margin + offset <= j < width template - margin + offset)) ->
      getpixel png i j = getpixel template i j.
Proof.
  intros Hv Ht H Hbox. unfold png_variant in H.
  rewrite bool_decide_eq_false_2 in H by done.
  apply bind_Ok_inv in H as ([canvas size] & w1 & Hc & H).
  apply bind_Ok_inv in H as (layer & w2 & Hl & H).
  apply Image_save_inv in H as (_ & ->).
  apply bind_Ok_inv in Hc as (found & w0 & He & Hc).
  rewrite Path_exists_run in He. injection He as <- <-.
  rewrite Ht, bool_decide_eq_true_2 in Hc by eauto.
  apply bind_Ok_inv in Hc as (template' & w3 & Ho & Hc).
  apply Image_open_inv in Ho as (Hf & Hd & ->).
  cbn [fs record_event] in Hf. rewrite Ht in Hf. injection Hf as <-.
  injection Hc as <- <- <-.
  pose proof Hl as Hinv.
  apply make_icon_layer_inv in Hinv as (im & Hf & Hd' & Hs).
  rewrite (make_icon_layer_run _ _ _ _ _ _ _ Hf Hd' Hs) in Hl.
  injection Hl as <- _.
  eexists. split; [apply lookup_insert_eq|].
  split; [done|]. split; [done|].
  intros i j Hbyte Hicon Hshadow.
  destruct (width_composite (width template) blur offset
              (fit_icon im (width template) margin)) as [Wl Hl].
  rewrite Wl, Hl.
  destruct (fit_icon_bounds im (width template) margin Hd')
    as [[Hw _] [Hh _]].
  rewrite Z.max_l in Hw, Hh by lia.
  assert (getpixel (if blur >? 0
                    then shadowed_composite (width template)
                           (fit_icon im (width template) margin) blur offset
                    else icon_only_composite (width template)
                           (fit_icon im (width template) margin)) i j
          = transparent) as Hclear.
  { apply composite_clear_outside.
    - pose proof (covers_within_margin (fit_icon im (width template) margin)
                    (width template) margin 0 i j Hw Hh) as Hcov.
      rewrite !Z.add_0_r in Hcov. by apply Hcov.
    - destruct Hshadow as [Hle|Hshadow]; [by left|]. right.
      exact (covers_within_margin _ (width template) margin offset i j
               Hw Hh Hshadow). }
  replace ((width template - width template) `div` 2) with 0
    by (by rewrite Z.sub_diag).
  unfold paste. cbn [getpixel].
  destruct (covers _ 0 0 i j); [|done].
  rewrite !Z.sub_0_r, Hclear. cbn [alpha transparent].
  by apply blend_pixel_clear.
Qed.

(** *** Translucent pixels *)

Lemma DIV255_square_lt (a : Z) : 0 < a < 255 -> DIV255 (a * a) < a.
Proof.
  intros Ha.
  assert (List.forallb
            (fun n => DIV255 (Z.of_nat n * Z.of_nat n) <? Z.of_nat n)
            (seq 1 254) = true) as Hall by (vm_compute; reflexivity).
  rewrite List.forallb_forall in Hall.
  specialize (Hall (Z.to_nat a)). rewrite Z2Nat.id in Hall by lia.
  apply Z.ltb_lt, Hall, in_seq. lia.
Qed.

(** X22: pasting the icon with its own alpha as the mask weakens its
    translucent pixels: on a layer without shadow, an icon pixel of
    alpha [a] strictly between 0 and 255 comes out with every band
    multiplied by [a/255] (rounded), so with the alpha
    [DIV255 (a * a)], which is less than [a]. *)
Theorem translucent_icon_pixel_fades (w w' : World) (src : pystr)
  (canvas_size blur offset margin : Z) (layer : Image) (i j : Z) :
  make_icon_layer src canvas_size blur offset margin w = (Ok layer, w') ->
  blur <= 0 ->
  exists im,
    fs w !! Path_of src = Some (FImage im) /\
    forall x y p,
      centred canvas_size (fit_icon im canvas_size margin) = (x, y) ->
      covers (fit_icon im canvas_size margin) x y i j = true ->
      getpixel (fit_icon im canvas_size margin) (i - x) (j - y) = p ->
      0 < alpha p < 255 ->
      getpixel layer i j =
        mkRGBA (DIV255 (Pillow.red p * alpha p)) (DIV255 (green p * alpha p))
               (DIV255 (blue p * alpha p)) (DIV255 (alpha p * alpha p)) /\
      alpha (getpixel layer i j) < alpha p.
Proof.
  intros Hrun Hb. pose proof Hrun as Hinv.
  apply make_icon_layer_inv in Hinv as (im & Hf & Hd & Hc).
  rewrite (make_icon_layer_run _ _ _ _ _ _ _ Hf Hd Hc) in Hrun.
  injection Hrun as <- _. exists im. split; [done|].
  intros x y p Hxy Hcov Hp Ha.
  assert ((blur >? 0) = false) as -> by lia.
  unfold icon_only_composite. rewrite Hxy. unfold paste. cbn [getpixel].
  rewrite Hcov, Hp. unfold filled. cbn [getpixel].
  unfold blend_pixel, BLEND, transparent. cbn [Pillow.red green blue alpha].
  rewrite !Z.mul_0_l, !Z.add_0_l. split; [done|].
  cbn [alpha]. by apply DIV255_square_lt.
Qed.

End Script.

(** ** The theorems at concrete inputs *)

(** The arguments of the runs below. *)
Lemma demo_lookup :
  fs world_source !! Path_of (lit "icon.png") = Some (FImage source_512).
Proof. vm_compute. reflexivity. Qed.

(** C1, witness: the sprite variant in a world whose sprite template is
    2 wide and 3 high. *)
Lemma variant_png_has_canvas_size_witness :
  exists png,
    fs (snd (png_variant nearest no_blur (lit "icon.png") (lit "test")
               (Path_of (lit "out")) script_dir
               (lit "sprite", 256, 3, 2, 3, lit "sprite_template.png")
               world_templates))
      !! (Path_of (lit "out") </> (lit "sprite" ++ lit "_" ++ lit "test" ++ lit ".png"))
      = Some (FImage png) /\
    last (trace (snd (png_variant nearest no_blur (lit "icon.png") (lit "test")
               (Path_of (lit "out")) script_dir
               (lit "sprite", 256, 3, 2, 3, lit "sprite_template.png")
               world_templates)))
      = Some (EvSave (Path_of (lit "out")
                        </> (lit "sprite" ++ lit "_" ++ lit "test" ++ lit ".png"))
                     png) /\
    match fs world_templates !! (script_dir </> lit "sprite_template.png") with
    | Some (FImage template) =>
        width png = width template /\ height png = height template
    | Some _ => False
    | None => width png = 256 /\ height png = 256
    end.
Proof.
  apply (variant_png_has_canvas_size nearest no_blur world_templates _
           (lit "icon.png") (lit "test") (Path_of (lit "out")) script_dir
           (lit "sprite") 256 3 2 3 (lit "sprite_template.png")).
  - right. left. reflexivity.
  - intros E. vm_compute in E. discriminate.
  - vm_compute. reflexivity.
Defined.

(** C1, counterexample: with that template the run saves a sprite PNG
    that is 2 wide and 3 high: it is not square. *)
Lemma nonsquare_template_png_not_square :
  fst (main nearest no_blur ascii_only script_dir
         (mkArgs (lit "icon.png") (lit "Role") (lit "test") (lit "RoleAddon") true)
         world_templates) = Ok tt /\
  image_size_at world_templates (script_dir </> lit "sprite_template.png")
    = Some (2, 3) /\
  image_size_at
    (snd (main nearest no_blur ascii_only script_dir
            (mkArgs (lit "icon.png") (lit "Role") (lit "test") (lit "RoleAddon") true)
            world_templates))
    (Path_of (lit "RoleAddon") </> lit "converted" </> lit "test"
       </> lit "sprite_test.png")
    = Some (2, 3) /\
  image_size_at
    (snd (main nearest no_blur ascii_only script_dir
            (mkArgs (lit "icon.png") (lit "Role") (lit "test") (lit "RoleAddon") true)
            world_templates))
    (Path_of (lit "RoleAddon") </> lit "converted" </> lit "test"
       </> lit "sprite_test.png")
    <> Some (2, 2).
Proof. vm_compute. repeat split; discriminate. Qed.

(** C2, witness: the icon variant on the default canvas. *)
Lemma icon_within_clamped_box_witness :
  fs world_source !! Path_of (lit "icon.png") = Some (FImage source_512) /\
  width (fit_icon nearest source_512 256 10) <= Z.max (256 - 2 * 10) 1 /\
  height (fit_icon nearest source_512 256 10) <= Z.max (256 - 2 * 10) 1 /\
  width (fit_icon nearest source_512 256 10) <= width source_512 /\
  height (fit_icon nearest source_512 256 10) <= height source_512.
Proof.
  split; [exact demo_lookup|].
  destruct (icon_within_clamped_box nearest no_blur world_source
              (lit "icon.png") source_512 256 5 4 10)
    as (_ & Hw & Hh & Hw' & Hh' & _);
    [exact demo_lookup | reflexivity | lia |].
  repeat split; assumption.
Defined.

(** C2, counterexample: on a canvas of 10 with the icon variant's
    margin of 10 (a 10 by 10 icon template), the layer compositor
    pastes an icon of 1 by 1, which exceeds [10 - 2*10]. *)
Lemma icon_exceeds_negative_box :
  fst (make_icon_layer nearest no_blur (lit "icon.png") 10 5 4 10
         world_templates)
    = Ok (shadowed_composite no_blur 10 (fit_icon nearest source_5 10 10) 5 4) /\
  width (fit_icon nearest source_5 10 10) = 1 /\
  height (fit_icon nearest source_5 10 10) = 1 /\
  ~ (width (fit_icon nearest source_5 10 10) <= 10 - 2 * 10 /\
     height (fit_icon nearest source_5 10 10) <= 10 - 2 * 10).
Proof.
  split.
  { rewrite (make_icon_layer_run nearest no_blur world_templates
               (lit "icon.png") source_5 10 5 4 10);
      [reflexivity | vm_compute; reflexivity | reflexivity | lia]. }
  split; [reflexivity|]. split; [reflexivity|].
  intros [H _]. vm_compute in H. apply H. reflexivity.
Qed.

(** C3, witness: the sprite variant's layer, with and without blur. *)
Lemma shadow_only_with_blur_witness :
  fst (make_icon_layer nearest no_blur (lit "icon.png") 256 0 2 3 world_source)
    = Ok (icon_only_composite 256 (fit_icon nearest source_512 256 3)) /\
  fst (make_icon_layer nearest no_blur (lit "icon.png") 256 3 2 3 world_source)
    = Ok (shadowed_composite no_blur 256 (fit_icon nearest source_512 256 3) 3 2).
Proof.
  split.
  - apply (shadow_only_with_blur nearest no_blur world_source (lit "icon.png")
             source_512 256 0 2 3); [exact demo_lookup | reflexivity | lia |].
    reflexivity.
  - apply (shadow_only_with_blur nearest no_blur world_source (lit "icon.png")
             source_512 256 3 2 3); [exact demo_lookup | reflexivity | lia |].
    lia.
Defined.

(** C4, witness: the score variant in a world that has a
    [score_template.png]. *)
Lemma score_ignores_template_witness :
  is_Some (fs world_templates !! (script_dir </> lit "score_template.png")) /\
  let png_path := Path_of (lit "out") </> (lit "score_" ++ lit "test" ++ lit ".png") in
  let icon := thumbnail source_5 (64, 64) nearest in
  let layer := icon_only_composite 64 icon in
  let png := paste (filled 64 64 transparent) layer (0, 0) layer in
  png_variant nearest no_blur (lit "icon.png") (lit "test")
    (Path_of (lit "out")) script_dir
    (lit "score", 64, 0, 0, 0, lit "score_template.png") world_templates =
    (Ok tt,
     put png_path (FImage png)
       (record_event (EvSave png_path png)
          (record_event (EvOpen (Path_of (lit "icon.png"))) world_templates))).
Proof.
  split; [vm_compute; eauto|].
  apply (score_ignores_template nearest no_blur ascii_only world_templates
           (lit "icon.png") (lit "test") (Path_of (lit "out")) script_dir
           source_5 64 0 0 0 (lit "score_template.png")).
  - left. reflexivity.
  - vm_compute. reflexivity.
  - reflexivity.
  - vm_compute. reflexivity.
Defined.



(** C6, witness: ["Foo"] is turned down before anything happens, ["foo"]
    passes and the output directory is created first. *)
Lemma lowercase_validation_witness :
  main nearest no_blur ascii_only script_dir
    (mkArgs (lit "icon.png") (lit "Role") (lit "Foo") (lit "RoleAddon") true)
    world_source
    = (Raise (SystemExit (lit "Error: nameshort must be lowercase")),
       world_source) /\
  exists evs,
    trace (snd (main nearest no_blur ascii_only script_dir
                  (mkArgs (lit "icon.png") (lit "Role") (lit "foo")
                          (lit "RoleAddon") true)
                  world_source))
      = trace world_source ++
        EvMkdir (Path_of (lit "RoleAddon") </> lit "converted" </> lit "foo")
          :: evs.
Proof.
  split.
  - apply (lowercase_validation nearest no_blur ascii_only script_dir
             (mkArgs (lit "icon.png") (lit "Role") (lit "Foo")
                     (lit "RoleAddon") true) world_source).
    intros H. apply (islower_all_lowercase ascii_only) in H. discriminate H.
  - apply (lowercase_validation nearest no_blur ascii_only script_dir
             (mkArgs (lit "icon.png") (lit "Role") (lit "foo")
                     (lit "RoleAddon") true) world_source).
    apply (islower_all_lowercase ascii_only). reflexivity.
Defined.

(** C7, witness: a run on an empty disk, where the source is missing. *)
Lemma unreadable_source_aborts_witness :
  exists e w',
    main nearest no_blur ascii_only script_dir
      (mkArgs (lit "icon.png") (lit "Role") (lit "test") (lit "RoleAddon") true)
      world_empty = (Raise e, w') /\
    image_load_error e = true /\
    trace w' = trace world_empty ++
      [EvMkdir (Path_of (lit "RoleAddon") </> lit "converted" </> lit "test");
       EvOpen (Path_of (lit "icon.png"))] /\
    saved_pngs (trace w') = saved_pngs (trace world_empty) /\
    written_texts (trace w') = written_texts (trace world_empty) /\
    (forall p, fs w' !! p = fs world_empty !! p \/ fs w' !! p = Some FDir).
Proof.
  apply (unreadable_source_aborts nearest no_blur ascii_only script_dir
           (mkArgs (lit "icon.png") (lit "Role") (lit "test")
                   (lit "RoleAddon") true) world_empty);
    reflexivity.
Defined.

(** C8, counterexample: the converter executable exists and cannot be
    started: the [OSError] of the first launch escapes the invoker. *)
Lemma converter_launch_failure_escapes :
  is_Some (fs world_broken_converter !! VTF_CMD) /\
  fst (convert_vtf (Path_of (lit "out")) (lit "test") false
         world_broken_converter)
    = Raise (OSError (converter_argv (Path_of (lit "out")) (lit "sprite_test"))) /\
  launched
    (trace (snd (convert_vtf (Path_of (lit "out")) (lit "test") false
                   world_broken_converter)))
    = [converter_argv (Path_of (lit "out")) (lit "sprite_test")].
Proof. split; [vm_compute; eauto|]. split; vm_compute; reflexivity. Qed.

(** C8, witness: a converter that fails on both files: two warnings,
    and the invoker returns. *)
Lemma convert_vtf_degrades_witness :
  fst (convert_vtf (Path_of (lit "out")) (lit "test") false
         world_failing_converter) = Ok tt /\
  launched
    (conversion_events world_failing_converter (Path_of (lit "out"))
                       (lit "sprite_" ++ lit "test") ++
     conversion_events world_failing_converter (Path_of (lit "out"))
                       (lit "icon_" ++ lit "test"))
    = [converter_argv (Path_of (lit "out")) (lit "sprite_" ++ lit "test");
       converter_argv (Path_of (lit "out")) (lit "icon_" ++ lit "test")].
Proof.
  destruct (convert_vtf_degrades (Path_of (lit "out")) (lit "test") false
              world_failing_converter) as (_ & _ & H).
  destruct H as [Hrun Hlaunched];
    [reflexivity | vm_compute; eauto | discriminate | discriminate |].
  split; [by rewrite Hrun | exact Hlaunched].
Defined.


(** X1, witness: the corner of the sprite layer of the 512 by 512
    source lies in the margin, and is transparent. *)
Lemma layer_background_transparent_witness :
  make_icon_layer nearest no_blur (lit "icon.png") 256 3 2 3 world_source
    = (Ok (shadowed_composite no_blur 256 (fit_icon nearest source_512 256 3) 3 2),
       record_event (EvOpen (Path_of (lit "icon.png"))) world_source) /\
  getpixel
    (shadowed_composite no_blur 256 (fit_icon nearest source_512 256 3) 3 2)
    0 0 = transparent.
Proof.
  assert (make_icon_layer nearest no_blur (lit "icon.png") 256 3 2 3 world_source
    = (Ok (shadowed_composite no_blur 256 (fit_icon nearest source_512 256 3) 3 2),
       record_event (EvOpen (Path_of (lit "icon.png"))) world_source)) as Hrun.
  { apply (make_icon_layer_run nearest no_blur world_source (lit "icon.png")
             source_512 256 3 2 3); [exact demo_lookup | reflexivity | lia]. }
  split; [exact Hrun|].
  destruct (layer_background_transparent nearest no_blur world_source _
              (lit "icon.png") 256 3 2 3 _ Hrun ltac:(lia))
    as (_ & _ & Hpix).
  apply Hpix; [lia | right; lia].
Defined.

(** X2, witness: the middle of the sprite layer shows the red of the
    source. *)
Lemma opaque_icon_pixel_shows_witness :
  make_icon_layer nearest no_blur (lit "icon.png") 256 3 2 3 world_source
    = (Ok (shadowed_composite no_blur 256 (fit_icon nearest source_512 256 3) 3 2),
       record_event (EvOpen (Path_of (lit "icon.png"))) world_source) /\
  getpixel
    (shadowed_composite no_blur 256 (fit_icon nearest source_512 256 3) 3 2)
    128 128 = red.
Proof.
  assert (make_icon_layer nearest no_blur (lit "icon.png") 256 3 2 3 world_source
    = (Ok (shadowed_composite no_blur 256 (fit_icon nearest source_512 256 3) 3 2),
       record_event (EvOpen (Path_of (lit "icon.png"))) world_source)) as Hrun.
  { apply (make_icon_layer_run nearest no_blur world_source (lit "icon.png")
             source_512 256 3 2 3); [exact demo_lookup | reflexivity | lia]. }
  split; [exact Hrun|].
  destruct (opaque_icon_pixel_shows nearest no_blur world_source _
              (lit "icon.png") 256 3 2 3 _ 128 128 Hrun) as (im & Hf & Hpix).
  rewrite demo_lookup in Hf. injection Hf as <-.
  apply (Hpix 3 3); [reflexivity | reflexivity | | reflexivity].
  vm_compute. repeat split; discriminate.
Defined.

(** X3, witness: the sprite layer of the 512 by 512 source: the icon of
    250 by 250 sits at (3, 3). *)
Lemma icon_keeps_margin_witness :
  exists im x y,
    fs world_source !! Path_of (lit "icon.png") = Some (FImage im) /\
    centred 256 (fit_icon nearest im 256 3) = (x, y) /\
    shadowed_composite no_blur 256 (fit_icon nearest source_512 256 3) 3 2 =
      (if 3 >? 0
       then shadowed_composite no_blur 256 (fit_icon nearest im 256 3) 3 2
       else icon_only_composite 256 (fit_icon nearest im 256 3)) /\
    3 <= x /\ x + width (fit_icon nearest im 256 3) <= 256 - 3 /\
    3 <= y /\ y + height (fit_icon nearest im 256 3) <= 256 - 3.
Proof.
  apply (icon_keeps_margin nearest no_blur world_source
           (record_event (EvOpen (Path_of (lit "icon.png"))) world_source)
           (lit "icon.png") 256 3 2 3).
  - apply (make_icon_layer_run nearest no_blur world_source (lit "icon.png")
             source_512 256 3 2 3); [exact demo_lookup | reflexivity | lia].
  - lia.
Defined.

(** X4, witness: the 5 by 5 source on the tab canvas. *)
Lemma small_source_untouched_witness :
  fit_icon nearest source_5 16 0 = source_5.
Proof. apply (small_source_untouched nearest source_5 16 0); cbn; lia. Defined.

(** X5, witness: the 512 by 512 source on the sprite canvas fills the
    box of 250. *)
Lemma large_source_fills_box_witness :
  Z.max (width (fit_icon nearest source_512 256 3))
        (height (fit_icon nearest source_512 256 3)) = Z.max (256 - 2 * 3) 1.
Proof.
  apply (large_source_fills_box nearest source_512 256 3);
    [reflexivity | cbn; lia].
Defined.

(** X6, witness: the tab icon of the role ["test"]. *)
Lemma tab_is_bare_layer_witness :
  exists evs,
    trace (snd (create_png_set nearest no_blur (lit "icon.png") (lit "test")
                  (Path_of (lit "out")) script_dir world_source)) =
      trace world_source ++
      [EvMkdir (Path_of (lit "out")); EvOpen (Path_of (lit "icon.png"));
       EvSave (Path_of (lit "out") </> (lit "tab_" ++ lit "test" ++ lit ".png"))
              (icon_only_composite 16 (thumbnail source_512 (16, 16) nearest))]
      ++ evs /\
    width (icon_only_composite 16 (thumbnail source_512 (16, 16) nearest)) = 16 /\
    height (icon_only_composite 16 (thumbnail source_512 (16, 16) nearest)) = 16.
Proof.
  apply (tab_is_bare_layer nearest no_blur world_source (lit "icon.png")
           (lit "test") (Path_of (lit "out")) script_dir source_512);
    [reflexivity | exact demo_lookup | reflexivity | reflexivity].
Defined.

(** X7, witness: the output directory of the role ["test"] is a
    regular file. *)
Lemma mkdir_conflict_aborts_witness :
  main nearest no_blur ascii_only script_dir
    (mkArgs (lit "icon.png") (lit "Role") (lit "test") (lit "RoleAddon") true)
    world_blocked =
    (Raise (FileExistsError
              (Path_of (lit "RoleAddon") </> lit "converted" </> lit "test")),
     record_event
       (EvMkdir (Path_of (lit "RoleAddon") </> lit "converted" </> lit "test"))
       world_blocked).
Proof.
  apply (mkdir_conflict_aborts nearest no_blur ascii_only script_dir
           (mkArgs (lit "icon.png") (lit "Role") (lit "test")
                   (lit "RoleAddon") true) world_blocked);
    vm_compute; reflexivity.
Defined.

(** X8, witness: a sprite template that is a text file. *)
Lemma broken_sprite_template_partial_output_witness :
  exists e w' evs,
    create_png_set nearest no_blur (lit "icon.png") (lit "test")
      (Path_of (lit "out")) script_dir world_bad_template = (Raise e, w') /\
    image_load_error e = true /\
    trace w' = trace world_bad_template ++ evs /\
    saved_pngs evs =
      [(Path_of (lit "out") </> (lit "tab_" ++ lit "test" ++ lit ".png"), (16, 16));
       (Path_of (lit "out")
          </> (lit "score" ++ lit "_" ++ lit "test" ++ lit ".png"), (64, 64))] /\
    read_paths evs =
      [Path_of (lit "icon.png"); Path_of (lit "icon.png");
       script_dir </> lit "sprite_template.png";
       script_dir </> lit "sprite_template.png"].
Proof.
  apply (broken_sprite_template_partial_output nearest no_blur
           world_bad_template (lit "icon.png") (lit "test")
           (Path_of (lit "out")) script_dir source_512).
  - reflexivity.
  - vm_compute. reflexivity.
  - reflexivity.
  - reflexivity.
  - reflexivity.
  - vm_compute. eauto.
  - vm_compute. reflexivity.
  - intros E. vm_compute in E. discriminate.
  - intros E. vm_compute in E. discriminate.
  - intros E. vm_compute in E. discriminate.
Defined.

(** X9, witness: the descriptors of the role ["test"], written twice on
    an empty disk. *)
Lemma descriptors_overwrite_idempotent_witness :
  exists w2,
    generate_vmt_files (Path_of (lit "out")) (lit "test")
      (snd (generate_vmt_files (Path_of (lit "out")) (lit "test") world_empty))
      = (Ok tt, w2) /\
    fs w2 =
      fs (snd (generate_vmt_files (Path_of (lit "out")) (lit "test")
                 world_empty)).
Proof.
  assert (generate_vmt_files (Path_of (lit "out")) (lit "test") world_empty
          = (Ok tt,
             snd (generate_vmt_files (Path_of (lit "out")) (lit "test")
                    world_empty))) as Hrun.
  { assert (fst (generate_vmt_files (Path_of (lit "out")) (lit "test")
                   world_empty) = Ok tt) as Hfst by (vm_compute; reflexivity).
    destruct (generate_vmt_files (Path_of (lit "out")) (lit "test")
                world_empty) as [r w1].
    cbn [fst] in Hfst. cbn [snd]. by rewrite Hfst. }
  destruct (descriptors_overwrite_idempotent (Path_of (lit "out")) (lit "test")
              world_empty _ Hrun) as (_ & _ & H).
  exact H.
Defined.

(** X10, witness: the path of the [_noz] descriptor is a directory. *)
Lemma descriptors_stop_at_directory_witness :
  exists w',
    generate_vmt_files (Path_of (lit "out")) (lit "test") world_noz_dir =
      (Raise (IsADirectoryError
                (Path_of (lit "out")
                   </> (lit "sprite_" ++ lit "test" ++ lit "_noz.vmt"))), w') /\
    map fst (written_texts (trace w')) =
      map fst (written_texts (trace world_noz_dir)) ++
      [Path_of (lit "out") </> (lit "sprite_" ++ lit "test" ++ lit ".vmt");
       Path_of (lit "out") </> (lit "sprite_" ++ lit "test" ++ lit "_noz.vmt")] /\
    is_Some (fs w' !! (Path_of (lit "out")
                         </> (lit "sprite_" ++ lit "test" ++ lit ".vmt"))) /\
    fs w' !! (Path_of (lit "out")
                </> (lit "sprite_" ++ lit "test" ++ lit "_noz.vmt")) = Some FDir /\
    fs w' !! (Path_of (lit "out") </> (lit "icon_" ++ lit "test" ++ lit ".vmt"))
      = fs world_noz_dir
          !! (Path_of (lit "out") </> (lit "icon_" ++ lit "test" ++ lit ".vmt")).
Proof.
  apply (descriptors_stop_at_directory (Path_of (lit "out")) (lit "test")
           world_noz_dir); vm_compute; reflexivity.
Defined.

(** X11, witness: a converter that cannot be started at all, and one
    that cannot be started for the icon PNG. *)
Lemma converter_launch_failure_propagates_witness :
  fst (convert_vtf (Path_of (lit "out")) (lit "test") false
         world_broken_converter)
    = Raise (OSError (converter_argv (Path_of (lit "out"))
                        (lit "sprite_" ++ lit "test"))) /\
  fst (convert_vtf (Path_of (lit "out")) (lit "test") false
         world_icon_launch_fails)
    = Raise (OSError (converter_argv (Path_of (lit "out"))
                        (lit "icon_" ++ lit "test"))).
Proof.
  split.
  - destruct (converter_launch_failure_propagates (Path_of (lit "out"))
                (lit "test") world_broken_converter) as [H _];
      [vm_compute; eauto|].
    destruct H as [H _]; [reflexivity|]. by rewrite H.
  - destruct (converter_launch_failure_propagates (Path_of (lit "out"))
                (lit "test") world_icon_launch_fails) as [_ H];
      [vm_compute; eauto|].
    rewrite H; [reflexivity | |].
    + intros E. vm_compute in E. discriminate.
    + vm_compute. reflexivity.
Defined.

(** X13, witness: the end-to-end run writes descriptors, so its earlier
    stages returned. *)
Lemma descriptors_only_after_success_witness :
  islower ascii_only (lit "test") = true /\
  exists w1 w2,
    create_png_set nearest no_blur (lit "icon.png") (lit "test")
      (Path_of (lit "RoleAddon") </> lit "converted" </> lit "test")
      script_dir world_source = (Ok tt, w1) /\
    convert_vtf (Path_of (lit "RoleAddon") </> lit "converted" </> lit "test")
      (lit "test") true w1 = (Ok tt, w2).
Proof.
  apply (descriptors_only_after_success nearest no_blur ascii_only script_dir
           (mkArgs (lit "icon.png") (lit "Role") (lit "test")
                   (lit "RoleAddon") true) world_source).
  intros E. vm_compute in E. discriminate.
Defined.

(** X14, witness: the run on the source alone, without [--no-vtf]: no
    converter is installed. *)
Lemma missing_converter_keeps_descriptors_witness :
  fs (snd (create_png_set nearest no_blur (lit "icon.png") (lit "test")
             (Path_of (lit "RoleAddon") </> lit "converted" </> lit "test")
             script_dir world_source)) !! VTF_CMD = None /\
  exists w' evs,
    main nearest no_blur ascii_only script_dir
      (mkArgs (lit "icon.png") (lit "Role") (lit "test") (lit "RoleAddon") false)
      world_source = (Ok tt, w') /\
    trace w' =
      trace (snd (create_png_set nearest no_blur (lit "icon.png") (lit "test")
                    (Path_of (lit "RoleAddon") </> lit "converted" </> lit "test")
                    script_dir world_source)) ++ evs /\
    printed evs =
      [warning_sign ++ lit "  VTFCmd.exe not found at " ++ VTF_CMD_repr
         ++ lit "; skipping."] /\
    launched evs = [] /\
    map fst (written_texts evs) =
      map (joinpath (Path_of (lit "RoleAddon") </> lit "converted" </> lit "test"))
        [lit "sprite_" ++ lit "test" ++ lit ".vmt";
         lit "sprite_" ++ lit "test" ++ lit "_noz.vmt";
         lit "icon_" ++ lit "test" ++ lit ".vmt"].
Proof.
  split; [vm_compute; reflexivity|].
  apply (missing_converter_keeps_descriptors nearest no_blur ascii_only
           script_dir
           (mkArgs (lit "icon.png") (lit "Role") (lit "test")
                   (lit "RoleAddon") false) world_source).
  - vm_compute. reflexivity.
  - reflexivity.
  - cbn [image nameshort out].
    assert (fst (create_png_set nearest no_blur (lit "icon.png") (lit "test")
                   (Path_of (lit "RoleAddon") </> lit "converted" </> lit "test")
                   script_dir world_source) = Ok tt) as Hfst
      by (vm_compute; reflexivity).
    destruct (create_png_set nearest no_blur (lit "icon.png") (lit "test")
                (Path_of (lit "RoleAddon") </> lit "converted" </> lit "test")
                script_dir world_source) as [r w1].
    cbn [fst] in Hfst. cbn [snd]. by rewrite Hfst.
  - vm_compute. reflexivity.
  - repeat constructor; vm_compute; reflexivity.
Defined.

(** X15, witness: the nameshort ["/tmp/x"] with the default [--out]. *)
Lemma absolute_nameshort_replaces_out_witness :
  Path_of (lit "RoleAddon") </> lit "converted" </> lit "/tmp/x"
    = Path_of (lit "/tmp/x") /\
  exists evs,
    trace (snd (main nearest no_blur ascii_only script_dir
                  (mkArgs (lit "icon.png") (lit "Role") (lit "/tmp/x")
                          (lit "RoleAddon") true) world_source)) =
      trace world_source ++ EvMkdir (Path_of (lit "/tmp/x")) :: evs.
Proof.
  apply (absolute_nameshort_replaces_out nearest no_blur ascii_only script_dir
           (mkArgs (lit "icon.png") (lit "Role") (lit "/tmp/x")
                   (lit "RoleAddon") true) world_source (lit "tmp/x"));
    vm_compute; reflexivity.
Defined.

(** X16, witness: the nameshort ["foo"]. *)
Lemma accepted_names_witness :
  lit "foo" <> [] /\
  (forall ch, ch ∈ lit "foo" -> ~ (65 <= ch <= 90)%N) /\
  (forall t,
     (forall ch, ch ∈ t -> cased ascii_only ch = true ->
                 lowercase ascii_only ch = true) ->
     islower ascii_only (lit "foo" ++ t) = true /\
     islower ascii_only (t ++ lit "foo") = true).
Proof.
  apply (accepted_names ascii_only (lit "foo")). vm_compute. reflexivity.
Defined.

(** X18, witness: the sprite row on its default canvas. *)
Lemma shadow_box_within_layer_witness :
  0 <= 2 <= 3 /\
  0 <= fst (centred 256 (fit_icon nearest source_512 256 3)) + 2 /\
  fst (centred 256 (fit_icon nearest source_512 256 3)) + 2
    + width (shadow_of no_blur (fit_icon nearest source_512 256 3) 3) <= 256 /\
  0 <= snd (centred 256 (fit_icon nearest source_512 256 3)) + 2 /\
  snd (centred 256 (fit_icon nearest source_512 256 3)) + 2
    + height (shadow_of no_blur (fit_icon nearest source_512 256 3) 3) <= 256.
Proof.
  apply (shadow_box_within_layer nearest no_blur (lit "sprite") 256 3 2 3
           (lit "sprite_template.png") source_512 256).
  - right. left. reflexivity.
  - reflexivity.
  - lia.
Defined.

(** X19, witness: an image 2 wide and 3 high fitted into a box of 2:
    the icon is 1 wide and 2 high. *)
Lemma fit_keeps_aspect_ratio_witness :
  Z.abs (width (fit_icon nearest template_2x3 2 0) * height template_2x3
         - height (fit_icon nearest template_2x3 2 0) * width template_2x3)
    < Z.max (width template_2x3) (height template_2x3).
Proof.
  apply (fit_keeps_aspect_ratio nearest template_2x3 2 0). reflexivity.
Defined.

(** X20, witness: two runs in the world with the three templates. *)
Lemma png_set_rerun_idempotent_witness :
  exists w2,
    create_png_set nearest no_blur (lit "icon.png") (lit "test")
      (Path_of (lit "out")) script_dir
      (snd (create_png_set nearest no_blur (lit "icon.png") (lit "test")
              (Path_of (lit "out")) script_dir world_templates))
      = (Ok tt, w2) /\
    fs w2 =
      fs (snd (create_png_set nearest no_blur (lit "icon.png") (lit "test")
                 (Path_of (lit "out")) script_dir world_templates)).
Proof.
  apply (png_set_rerun_idempotent nearest no_blur world_templates _
           (lit "icon.png") (lit "test") (Path_of (lit "out")) script_dir).
  - assert (fst (create_png_set nearest no_blur (lit "icon.png") (lit "test")
                   (Path_of (lit "out")) script_dir world_templates) = Ok tt)
      as Hfst by (vm_compute; reflexivity).
    destruct (create_png_set nearest no_blur (lit "icon.png") (lit "test")
                (Path_of (lit "out")) script_dir world_templates) as [r w1].
    cbn [fst] in Hfst. cbn [snd]. by rewrite Hfst.
  - repeat constructor; intros E; vm_compute in E; discriminate.
Defined.

(** X21, witness: the sprite variant on a 10 by 10 template: the
    corner of the PNG is the corner of the template. *)
Lemma template_shows_through_witness :
  exists png,
    fs (snd (png_variant nearest no_blur (lit "icon.png") (lit "test")
               (Path_of (lit "out")) script_dir
               (lit "sprite", 256, 3, 2, 3, lit "sprite_template.png")
               world_sprite_template))
      !! (Path_of (lit "out")
            </> (lit "sprite" ++ lit "_" ++ lit "test" ++ lit ".png"))
      = Some (FImage png) /\
    getpixel png 0 0 = getpixel template_10 0 0.
Proof.
  destruct (template_shows_through nearest no_blur world_sprite_template
              (snd (png_variant nearest no_blur (lit "icon.png") (lit "test")
                      (Path_of (lit "out")) script_dir
                      (lit "sprite", 256, 3, 2, 3, lit "sprite_template.png")
                      world_sprite_template))
              (lit "icon.png") (lit "test") (Path_of (lit "out")) script_dir
              (lit "sprite") 256 3 2 3 (lit "sprite_template.png") template_10)
    as (png & Hpng & _ & _ & Hpix).
  - intros E. vm_compute in E. discriminate.
  - vm_compute. reflexivity.
  - assert (fst (png_variant nearest no_blur (lit "icon.png") (lit "test")
                   (Path_of (lit "out")) script_dir
                   (lit "sprite", 256, 3, 2, 3, lit "sprite_template.png")
                   world_sprite_template) = Ok tt) as Hfst
      by (vm_compute; reflexivity).
    destruct (png_variant nearest no_blur (lit "icon.png") (lit "test")
                (Path_of (lit "out")) script_dir
                (lit "sprite", 256, 3, 2, 3, lit "sprite_template.png")
                world_sprite_template) as [r w1].
    cbn [fst] in Hfst. cbn [snd]. by rewrite Hfst.
  - cbn. lia.
  - exists png. split; [exact Hpng|].
    apply Hpix; [vm_compute; repeat split; discriminate | lia | right; lia].
Defined.

(** X22, witness: a half-transparent red source: the middle of the tab
    layer has the alpha 64. *)
Lemma translucent_icon_pixel_fades_witness :
  getpixel (icon_only_composite 16 (fit_icon nearest source_half 16 0)) 8 8
    = mkRGBA (DIV255 (255 * 128)) (DIV255 (0 * 128)) (DIV255 (0 * 128))
             (DIV255 (128 * 128)) /\
  alpha (getpixel (icon_only_composite 16 (fit_icon nearest source_half 16 0))
           8 8) < 128.
Proof.
  assert (fs world_half !! Path_of (lit "icon.png")
          = Some (FImage source_half)) as Hsrc by (vm_compute; reflexivity).
  destruct (translucent_icon_pixel_fades nearest no_blur world_half _
              (lit "icon.png") 16 0 0 0 _ 8 8
              (make_icon_layer_run nearest no_blur world_half (lit "icon.png")
                 source_half 16 0 0 0 Hsrc eq_refl ltac:(lia))
              ltac:(lia))
    as (im & Hf & Hpix).
  rewrite Hsrc in Hf. injection Hf as <-.
  apply (Hpix 5 5 (mkRGBA 255 0 0 128));
    [reflexivity | reflexivity | reflexivity | cbn; lia].
Defined.
